(** * LearningTelegramBot: the answer-grading core, embedded and verified

    A shallow embedding of [knowledge_test.py] (similarity engine, answer
    grader, question selector, marathon sequence) and of
    [stats_manager.py] ([add_test_result]).

    Conventions of the embedding.

    - A Python [str] is a list of Unicode code points ([list N]); [len],
      indexing, [in], [split] and [SequenceMatcher] all work on code
      points, so Cyrillic text has the lengths the interpreter sees.
      Literals are written as UTF-8 and decoded by [py]. The methods
      [isspace], [isdigit], [lower] and the digits read by [int] follow
      the tables of the Unicode database for every code point.
    - Python [int] is [Z] where it may be negative, [nat] for list
      positions and counters that only grow from zero.
    - Python [float] results are quotients of two small integers compared
      with decimal literals; they are kept as exact rationals ([Q]).
      Correctly rounded division is monotone and maps the rational 4/5 to
      the double written [0.8], so the comparisons made by the program
      agree with the exact ones as long as the operands stay below 2^49.
    - Exceptions are explicit: [res A] is either a value or a raised [exn].
    - A write to the statistics file can fail ([_save_stats] catches the
      exception): what the writes to come will meet is part of the
      manager's state, so quantifying over it covers every outcome.
    - [random] is an oracle: every draw takes a natural number [r] and
      uses [r mod n], so quantifying over the draws covers every outcome.
    - Python dictionaries are [gmap]s. *)

From Stdlib Require Import ZArith QArith Lia String Ascii.
From stdpp Require Import gmap list sorting.

Close Scope Q_scope.
Open Scope nat_scope.

(** ** Strings as code-point lists *)

Module PyStr.

(** UTF-8 decoding of a literal (well-formed input only; a truncated
    sequence ends the decoding). *)
Fixpoint utf8_decode (bs : list N) : list N :=
  match bs with
  | [] => []
  | b0 :: r0 =>
    if (b0 <? 128)%N then b0 :: utf8_decode r0
    else match r0 with
      | [] => []
      | b1 :: r1 =>
        if (b0 <? 224)%N
        then ((b0 - 192) * 64 + (b1 - 128))%N :: utf8_decode r1
        else match r1 with
          | [] => []
          | b2 :: r2 =>
            if (b0 <? 240)%N
            then ((b0 - 224) * 4096 + (b1 - 128) * 64 + (b2 - 128))%N
                   :: utf8_decode r2
            else match r2 with
              | [] => []
              | b3 :: r3 =>
                ((b0 - 240) * 262144 + (b1 - 128) * 4096
                 + (b2 - 128) * 64 + (b3 - 128))%N :: utf8_decode r3
              end
          end
      end
  end.

Definition py (s : string) : list N :=
  utf8_decode (map (fun c => N.of_nat (nat_of_ascii c)) (list_ascii_of_string s)).

Definition in_range (lo hi c : N) : bool := ((lo <=? c) && (c <=? hi))%N.

(** [str.isspace] on one code point: the complete list of the Unicode
    database (bidirectional class WS, B or S, or category Zs). *)
Definition isspace_char (c : N) : bool :=
  in_range 9 13 c || in_range 28 32 c || (c =? 133)%N || (c =? 160)%N
  || (c =? 5760)%N || in_range 8192 8202 c || (c =? 8232)%N || (c =? 8233)%N
  || (c =? 8239)%N || (c =? 8287)%N || (c =? 12288)%N.

(** The character tables are those of the Unicode database 14.0.0, the
    one CPython 3.11 is built with, for all code points: a table lists
    inclusive ranges [(first, last)]. *)

Definition in_ranges (table : list (N * N)) (c : N) : bool :=
  existsb (fun r => in_range r.1 r.2 c) table.

(** The characters with a digit value (Numeric_Type Decimal or Digit):
    the decimal digits of every script, and the superscript, subscript,
    circled and other digits. *)
Definition digit_ranges : list (N * N) :=
  [
   (48, 57); (178, 179); (185, 185); (1632, 1641); (1776, 1785);
   (1984, 1993); (2406, 2415); (2534, 2543); (2662, 2671); (2790, 2799);
   (2918, 2927); (3046, 3055); (3174, 3183); (3302, 3311); (3430, 3439);
   (3558, 3567); (3664, 3673); (3792, 3801); (3872, 3881); (4160, 4169);
   (4240, 4249); (4969, 4977); (6112, 6121); (6160, 6169); (6470, 6479);
   (6608, 6618); (6784, 6793); (6800, 6809); (6992, 7001); (7088, 7097);
   (7232, 7241); (7248, 7257); (8304, 8304); (8308, 8313); (8320, 8329);
   (9312, 9320); (9332, 9340); (9352, 9360); (9450, 9450); (9461, 9469);
   (9471, 9471); (10102, 10110); (10112, 10120); (10122, 10130);
   (42528, 42537); (43216, 43225); (43264, 43273); (43472, 43481);
   (43504, 43513); (43600, 43609); (44016, 44025); (65296, 65305);
   (66720, 66729); (68160, 68163); (68912, 68921); (69216, 69224);
   (69714, 69722); (69734, 69743); (69872, 69881); (69942, 69951);
   (70096, 70105); (70384, 70393); (70736, 70745); (70864, 70873);
   (71248, 71257); (71360, 71369); (71472, 71481); (71904, 71913);
   (72016, 72025); (72784, 72793); (73040, 73049); (73120, 73129);
   (92768, 92777); (92864, 92873); (93008, 93017); (120782, 120831);
   (123200, 123209); (123632, 123641); (125264, 125273); (127232, 127242);
   (130032, 130041)
  ]%N.

(** [str.isdigit] on one code point *)
Definition isdigit_char (c : N) : bool := in_ranges digit_ranges c.

(** The decimal digits (category Nd) come in runs of ten, from zero to
    nine; the table lists the zeros. *)
Definition decimal_zeros : list N :=
  [
   48; 1632; 1776; 1984; 2406; 2534; 2662; 2790; 2918; 3046; 3174; 3302;
   3430; 3558; 3664; 3792; 3872; 4160; 4240; 6112; 6160; 6470; 6608; 6784;
   6800; 6992; 7088; 7232; 7248; 42528; 43216; 43264; 43472; 43504; 43600;
   44016; 65296; 66720; 68912; 69734; 69872; 69942; 70096; 70384; 70736;
   70864; 71248; 71360; 71472; 71904; 72016; 72784; 73040; 73120; 92768;
   92864; 93008; 120782; 120792; 120802; 120812; 120822; 123200; 123632;
   125264; 130032
  ]%N.

(** [Py_UNICODE_TODECIMAL]: the value of a decimal digit. *)
Definition decimal_value (c : N) : option N :=
  (fun zero => c - zero)%N
    <$> List.find (fun zero => in_range zero (zero + 9) c) decimal_zeros.

(** [str.isdecimal] on one code point: the digits [int] reads. *)
Definition isdecimal_char (c : N) : bool :=
  match decimal_value c with Some _ => true | None => false end.

(** The simple lower-case mapping: an entry [(first, last, step, target)]
    sends [first], [first + step], ... up to [last] to [target],
    [target + step], ...; every other code point is its own lower case. *)
Definition lower_table : list (N * N * N * N) :=
  [
   (65, 90, 1, 97); (192, 214, 1, 224); (216, 222, 1, 248);
   (256, 302, 2, 257); (306, 310, 2, 307); (313, 327, 2, 314);
   (330, 374, 2, 331); (376, 376, 1, 255); (377, 381, 2, 378);
   (385, 385, 1, 595); (386, 388, 2, 387); (390, 390, 1, 596);
   (391, 391, 1, 392); (393, 394, 1, 598); (395, 395, 1, 396);
   (398, 398, 1, 477); (399, 399, 1, 601); (400, 400, 1, 603);
   (401, 401, 1, 402); (403, 403, 1, 608); (404, 404, 1, 611);
   (406, 406, 1, 617); (407, 407, 1, 616); (408, 408, 1, 409);
   (412, 412, 1, 623); (413, 413, 1, 626); (415, 415, 1, 629);
   (416, 420, 2, 417); (422, 422, 1, 640); (423, 423, 1, 424);
   (425, 425, 1, 643); (428, 428, 1, 429); (430, 430, 1, 648);
   (431, 431, 1, 432); (433, 434, 1, 650); (435, 437, 2, 436);
   (439, 439, 1, 658); (440, 440, 1, 441); (444, 444, 1, 445);
   (452, 452, 1, 454); (453, 453, 1, 454); (455, 455, 1, 457);
   (456, 456, 1, 457); (458, 458, 1, 460); (459, 475, 2, 460);
   (478, 494, 2, 479); (497, 497, 1, 499); (498, 500, 2, 499);
   (502, 502, 1, 405); (503, 503, 1, 447); (504, 542, 2, 505);
   (544, 544, 1, 414); (546, 562, 2, 547); (570, 570, 1, 11365);
   (571, 571, 1, 572); (573, 573, 1, 410); (574, 574, 1, 11366);
   (577, 577, 1, 578); (579, 579, 1, 384); (580, 580, 1, 649);
   (581, 581, 1, 652); (582, 590, 2, 583); (880, 882, 2, 881);
   (886, 886, 1, 887); (895, 895, 1, 1011); (902, 902, 1, 940);
   (904, 906, 1, 941); (908, 908, 1, 972); (910, 911, 1, 973);
   (913, 929, 1, 945); (931, 939, 1, 963); (975, 975, 1, 983);
   (984, 1006, 2, 985); (1012, 1012, 1, 952); (1015, 1015, 1, 1016);
   (1017, 1017, 1, 1010); (1018, 1018, 1, 1019); (1021, 1023, 1, 891);
   (1024, 1039, 1, 1104); (1040, 1071, 1, 1072); (1120, 1152, 2, 1121);
   (1162, 1214, 2, 1163); (1216, 1216, 1, 1231); (1217, 1229, 2, 1218);
   (1232, 1326, 2, 1233); (1329, 1366, 1, 1377); (4256, 4293, 1, 11520);
   (4295, 4295, 1, 11559); (4301, 4301, 1, 11565); (5024, 5103, 1, 43888);
   (5104, 5109, 1, 5112); (7312, 7354, 1, 4304); (7357, 7359, 1, 4349);
   (7680, 7828, 2, 7681); (7838, 7838, 1, 223); (7840, 7934, 2, 7841);
   (7944, 7951, 1, 7936); (7960, 7965, 1, 7952); (7976, 7983, 1, 7968);
   (7992, 7999, 1, 7984); (8008, 8013, 1, 8000); (8025, 8031, 2, 8017);
   (8040, 8047, 1, 8032); (8072, 8079, 1, 8064); (8088, 8095, 1, 8080);
   (8104, 8111, 1, 8096); (8120, 8121, 1, 8112); (8122, 8123, 1, 8048);
   (8124, 8124, 1, 8115); (8136, 8139, 1, 8050); (8140, 8140, 1, 8131);
   (8152, 8153, 1, 8144); (8154, 8155, 1, 8054); (8168, 8169, 1, 8160);
   (8170, 8171, 1, 8058); (8172, 8172, 1, 8165); (8184, 8185, 1, 8056);
   (8186, 8187, 1, 8060); (8188, 8188, 1, 8179); (8486, 8486, 1, 969);
   (8490, 8490, 1, 107); (8491, 8491, 1, 229); (8498, 8498, 1, 8526);
   (8544, 8559, 1, 8560); (8579, 8579, 1, 8580); (9398, 9423, 1, 9424);
   (11264, 11311, 1, 11312); (11360, 11360, 1, 11361);
   (11362, 11362, 1, 619); (11363, 11363, 1, 7549); (11364, 11364, 1, 637);
   (11367, 11371, 2, 11368); (11373, 11373, 1, 593);
   (11374, 11374, 1, 625); (11375, 11375, 1, 592); (11376, 11376, 1, 594);
   (11378, 11378, 1, 11379); (11381, 11381, 1, 11382);
   (11390, 11391, 1, 575); (11392, 11490, 2, 11393);
   (11499, 11501, 2, 11500); (11506, 11506, 1, 11507);
   (42560, 42604, 2, 42561); (42624, 42650, 2, 42625);
   (42786, 42798, 2, 42787); (42802, 42862, 2, 42803);
   (42873, 42875, 2, 42874); (42877, 42877, 1, 7545);
   (42878, 42886, 2, 42879); (42891, 42891, 1, 42892);
   (42893, 42893, 1, 613); (42896, 42898, 2, 42897);
   (42902, 42920, 2, 42903); (42922, 42922, 1, 614);
   (42923, 42923, 1, 604); (42924, 42924, 1, 609); (42925, 42925, 1, 620);
   (42926, 42926, 1, 618); (42928, 42928, 1, 670); (42929, 42929, 1, 647);
   (42930, 42930, 1, 669); (42931, 42931, 1, 43859);
   (42932, 42946, 2, 42933); (42948, 42948, 1, 42900);
   (42949, 42949, 1, 642); (42950, 42950, 1, 7566);
   (42951, 42953, 2, 42952); (42960, 42960, 1, 42961);
   (42966, 42968, 2, 42967); (42997, 42997, 1, 42998);
   (65313, 65338, 1, 65345); (66560, 66599, 1, 66600);
   (66736, 66771, 1, 66776); (66928, 66938, 1, 66967);
   (66940, 66954, 1, 66979); (66956, 66962, 1, 66995);
   (66964, 66965, 1, 67003); (68736, 68786, 1, 68800);
   (71840, 71871, 1, 71872); (93760, 93791, 1, 93792);
   (125184, 125217, 1, 125218)
  ]%N.

Definition lower_char (c : N) : N :=
  match List.find (fun e : N * N * N * N =>
                     in_range e.1.1.1 e.1.1.2 c
                     && ((c - e.1.1.1) mod e.1.2 =? 0)%N) lower_table with
  | Some e => (e.2 + (c - e.1.1.1))%N
  | None => c
  end.

(** [_PyUnicode_ToLowerFull]: one character lowers to two, U+0130 (capital
    I with dot above) to [i] and the combining dot above. *)
Definition lower_full (c : N) : list N :=
  if (c =? 304)%N then [105; 775]%N else [lower_char c].

(** The properties Case_Ignorable and Cased, read by the rule of the
    final sigma. *)
Definition case_ignorable_ranges : list (N * N) :=
  [
   (39, 39); (46, 46); (58, 58); (94, 94); (96, 96); (168, 168);
   (173, 173); (175, 175); (180, 180); (183, 184); (688, 879); (884, 885);
   (890, 890); (900, 901); (903, 903); (1155, 1161); (1369, 1369);
   (1375, 1375); (1425, 1469); (1471, 1471); (1473, 1474); (1476, 1477);
   (1479, 1479); (1524, 1524); (1536, 1541); (1552, 1562); (1564, 1564);
   (1600, 1600); (1611, 1631); (1648, 1648); (1750, 1757); (1759, 1768);
   (1770, 1773); (1807, 1807); (1809, 1809); (1840, 1866); (1958, 1968);
   (2027, 2037); (2042, 2042); (2045, 2045); (2070, 2093); (2137, 2139);
   (2184, 2184); (2192, 2193); (2200, 2207); (2249, 2306); (2362, 2362);
   (2364, 2364); (2369, 2376); (2381, 2381); (2385, 2391); (2402, 2403);
   (2417, 2417); (2433, 2433); (2492, 2492); (2497, 2500); (2509, 2509);
   (2530, 2531); (2558, 2558); (2561, 2562); (2620, 2620); (2625, 2626);
   (2631, 2632); (2635, 2637); (2641, 2641); (2672, 2673); (2677, 2677);
   (2689, 2690); (2748, 2748); (2753, 2757); (2759, 2760); (2765, 2765);
   (2786, 2787); (2810, 2815); (2817, 2817); (2876, 2876); (2879, 2879);
   (2881, 2884); (2893, 2893); (2901, 2902); (2914, 2915); (2946, 2946);
   (3008, 3008); (3021, 3021); (3072, 3072); (3076, 3076); (3132, 3132);
   (3134, 3136); (3142, 3144); (3146, 3149); (3157, 3158); (3170, 3171);
   (3201, 3201); (3260, 3260); (3263, 3263); (3270, 3270); (3276, 3277);
   (3298, 3299); (3328, 3329); (3387, 3388); (3393, 3396); (3405, 3405);
   (3426, 3427); (3457, 3457); (3530, 3530); (3538, 3540); (3542, 3542);
   (3633, 3633); (3636, 3642); (3654, 3662); (3761, 3761); (3764, 3772);
   (3782, 3782); (3784, 3789); (3864, 3865); (3893, 3893); (3895, 3895);
   (3897, 3897); (3953, 3966); (3968, 3972); (3974, 3975); (3981, 3991);
   (3993, 4028); (4038, 4038); (4141, 4144); (4146, 4151); (4153, 4154);
   (4157, 4158); (4184, 4185); (4190, 4192); (4209, 4212); (4226, 4226);
   (4229, 4230); (4237, 4237); (4253, 4253); (4348, 4348); (4957, 4959);
   (5906, 5908); (5938, 5939); (5970, 5971); (6002, 6003); (6068, 6069);
   (6071, 6077); (6086, 6086); (6089, 6099); (6103, 6103); (6109, 6109);
   (6155, 6159); (6211, 6211); (6277, 6278); (6313, 6313); (6432, 6434);
   (6439, 6440); (6450, 6450); (6457, 6459); (6679, 6680); (6683, 6683);
   (6742, 6742); (6744, 6750); (6752, 6752); (6754, 6754); (6757, 6764);
   (6771, 6780); (6783, 6783); (6823, 6823); (6832, 6862); (6912, 6915);
   (6964, 6964); (6966, 6970); (6972, 6972); (6978, 6978); (7019, 7027);
   (7040, 7041); (7074, 7077); (7080, 7081); (7083, 7085); (7142, 7142);
   (7144, 7145); (7149, 7149); (7151, 7153); (7212, 7219); (7222, 7223);
   (7288, 7293); (7376, 7378); (7380, 7392); (7394, 7400); (7405, 7405);
   (7412, 7412); (7416, 7417); (7468, 7530); (7544, 7544); (7579, 7679);
   (8125, 8125); (8127, 8129); (8141, 8143); (8157, 8159); (8173, 8175);
   (8189, 8190); (8203, 8207); (8216, 8217); (8228, 8228); (8231, 8231);
   (8234, 8238); (8288, 8292); (8294, 8303); (8305, 8305); (8319, 8319);
   (8336, 8348); (8400, 8432); (11388, 11389); (11503, 11505);
   (11631, 11631); (11647, 11647); (11744, 11775); (11823, 11823);
   (12293, 12293); (12330, 12333); (12337, 12341); (12347, 12347);
   (12441, 12446); (12540, 12542); (40981, 40981); (42232, 42237);
   (42508, 42508); (42607, 42610); (42612, 42621); (42623, 42623);
   (42652, 42655); (42736, 42737); (42752, 42785); (42864, 42864);
   (42888, 42890); (42994, 42996); (43000, 43001); (43010, 43010);
   (43014, 43014); (43019, 43019); (43045, 43046); (43052, 43052);
   (43204, 43205); (43232, 43249); (43263, 43263); (43302, 43309);
   (43335, 43345); (43392, 43394); (43443, 43443); (43446, 43449);
   (43452, 43453); (43471, 43471); (43493, 43494); (43561, 43566);
   (43569, 43570); (43573, 43574); (43587, 43587); (43596, 43596);
   (43632, 43632); (43644, 43644); (43696, 43696); (43698, 43700);
   (43703, 43704); (43710, 43711); (43713, 43713); (43741, 43741);
   (43756, 43757); (43763, 43764); (43766, 43766); (43867, 43871);
   (43881, 43883); (44005, 44005); (44008, 44008); (44013, 44013);
   (64286, 64286); (64434, 64450); (65024, 65039); (65043, 65043);
   (65056, 65071); (65106, 65106); (65109, 65109); (65279, 65279);
   (65287, 65287); (65294, 65294); (65306, 65306); (65342, 65342);
   (65344, 65344); (65392, 65392); (65438, 65439); (65507, 65507);
   (65529, 65531); (66045, 66045); (66272, 66272); (66422, 66426);
   (67456, 67461); (67463, 67504); (67506, 67514); (68097, 68099);
   (68101, 68102); (68108, 68111); (68152, 68154); (68159, 68159);
   (68325, 68326); (68900, 68903); (69291, 69292); (69446, 69456);
   (69506, 69509); (69633, 69633); (69688, 69702); (69744, 69744);
   (69747, 69748); (69759, 69761); (69811, 69814); (69817, 69818);
   (69821, 69821); (69826, 69826); (69837, 69837); (69888, 69890);
   (69927, 69931); (69933, 69940); (70003, 70003); (70016, 70017);
   (70070, 70078); (70089, 70092); (70095, 70095); (70191, 70193);
   (70196, 70196); (70198, 70199); (70206, 70206); (70367, 70367);
   (70371, 70378); (70400, 70401); (70459, 70460); (70464, 70464);
   (70502, 70508); (70512, 70516); (70712, 70719); (70722, 70724);
   (70726, 70726); (70750, 70750); (70835, 70840); (70842, 70842);
   (70847, 70848); (70850, 70851); (71090, 71093); (71100, 71101);
   (71103, 71104); (71132, 71133); (71219, 71226); (71229, 71229);
   (71231, 71232); (71339, 71339); (71341, 71341); (71344, 71349);
   (71351, 71351); (71453, 71455); (71458, 71461); (71463, 71467);
   (71727, 71735); (71737, 71738); (71995, 71996); (71998, 71998);
   (72003, 72003); (72148, 72151); (72154, 72155); (72160, 72160);
   (72193, 72202); (72243, 72248); (72251, 72254); (72263, 72263);
   (72273, 72278); (72281, 72283); (72330, 72342); (72344, 72345);
   (72752, 72758); (72760, 72765); (72767, 72767); (72850, 72871);
   (72874, 72880); (72882, 72883); (72885, 72886); (73009, 73014);
   (73018, 73018); (73020, 73021); (73023, 73029); (73031, 73031);
   (73104, 73105); (73109, 73109); (73111, 73111); (73459, 73460);
   (78896, 78904); (92912, 92916); (92976, 92982); (92992, 92995);
   (94031, 94031); (94095, 94111); (94176, 94177); (94179, 94180);
   (110576, 110579); (110581, 110587); (110589, 110590); (113821, 113822);
   (113824, 113827); (118528, 118573); (118576, 118598); (119143, 119145);
   (119155, 119170); (119173, 119179); (119210, 119213); (119362, 119364);
   (121344, 121398); (121403, 121452); (121461, 121461); (121476, 121476);
   (121499, 121503); (121505, 121519); (122880, 122886); (122888, 122904);
   (122907, 122913); (122915, 122916); (122918, 122922); (123184, 123197);
   (123566, 123566); (123628, 123631); (125136, 125142); (125252, 125259);
   (127995, 127999); (917505, 917505); (917536, 917631); (917760, 917999)
  ]%N.

Definition cased_ranges : list (N * N) :=
  [
   (65, 90); (97, 122); (170, 170); (181, 181); (186, 186); (192, 214);
   (216, 246); (248, 442); (444, 447); (452, 659); (661, 696); (704, 705);
   (736, 740); (837, 837); (880, 883); (886, 887); (890, 893); (895, 895);
   (902, 902); (904, 906); (908, 908); (910, 929); (931, 1013);
   (1015, 1153); (1162, 1327); (1329, 1366); (1376, 1416); (4256, 4293);
   (4295, 4295); (4301, 4301); (4304, 4346); (4349, 4351); (5024, 5109);
   (5112, 5117); (7296, 7304); (7312, 7354); (7357, 7359); (7424, 7615);
   (7680, 7957); (7960, 7965); (7968, 8005); (8008, 8013); (8016, 8023);
   (8025, 8025); (8027, 8027); (8029, 8029); (8031, 8061); (8064, 8116);
   (8118, 8124); (8126, 8126); (8130, 8132); (8134, 8140); (8144, 8147);
   (8150, 8155); (8160, 8172); (8178, 8180); (8182, 8188); (8305, 8305);
   (8319, 8319); (8336, 8348); (8450, 8450); (8455, 8455); (8458, 8467);
   (8469, 8469); (8473, 8477); (8484, 8484); (8486, 8486); (8488, 8488);
   (8490, 8493); (8495, 8500); (8505, 8505); (8508, 8511); (8517, 8521);
   (8526, 8526); (8544, 8575); (8579, 8580); (9398, 9449); (11264, 11492);
   (11499, 11502); (11506, 11507); (11520, 11557); (11559, 11559);
   (11565, 11565); (42560, 42605); (42624, 42653); (42786, 42887);
   (42891, 42894); (42896, 42954); (42960, 42961); (42963, 42963);
   (42965, 42969); (42997, 42998); (43000, 43002); (43824, 43866);
   (43868, 43880); (43888, 43967); (64256, 64262); (64275, 64279);
   (65313, 65338); (65345, 65370); (66560, 66639); (66736, 66771);
   (66776, 66811); (66928, 66938); (66940, 66954); (66956, 66962);
   (66964, 66965); (66967, 66977); (66979, 66993); (66995, 67001);
   (67003, 67004); (67456, 67456); (67459, 67461); (67463, 67504);
   (67506, 67514); (68736, 68786); (68800, 68850); (71840, 71903);
   (93760, 93823); (119808, 119892); (119894, 119964); (119966, 119967);
   (119970, 119970); (119973, 119974); (119977, 119980); (119982, 119993);
   (119995, 119995); (119997, 120003); (120005, 120069); (120071, 120074);
   (120077, 120084); (120086, 120092); (120094, 120121); (120123, 120126);
   (120128, 120132); (120134, 120134); (120138, 120144); (120146, 120485);
   (120488, 120512); (120514, 120538); (120540, 120570); (120572, 120596);
   (120598, 120628); (120630, 120654); (120656, 120686); (120688, 120712);
   (120714, 120744); (120746, 120770); (120772, 120779); (122624, 122633);
   (122635, 122654); (125184, 125251); (127280, 127305); (127312, 127337);
   (127344, 127369)
  ]%N.

Definition case_ignorable (c : N) : bool := in_ranges case_ignorable_ranges c.
Definition cased (c : N) : bool := in_ranges cased_ranges c.

Fixpoint skip_case_ignorable (s : list N) : list N :=
  match s with
  | c :: r => if case_ignorable c then skip_case_ignorable r else s
  | [] => []
  end.

(** [handle_capital_sigma]: U+03A3 is a final sigma when a cased
    character stands before it and none after it, case-ignorable
    characters apart. [before] is the text before it, nearest character
    first. *)
Definition final_sigma (before after : list N) : bool :=
  match skip_case_ignorable before with
  | c :: _ =>
    cased c
    && match skip_case_ignorable after with
       | [] => true
       | d :: _ => negb (cased d)
       end
  | [] => false
  end.

Fixpoint lower_from (before s : list N) : list N :=
  match s with
  | [] => []
  | c :: r =>
    (if (c =? 931)%N
     then [if final_sigma before r then 962%N else 963%N]
     else lower_full c)
    ++ lower_from (c :: before) r
  end.

(** [s.lower()] *)
Definition lower (s : list N) : list N := lower_from [] s.

(** [s.isdigit()]: at least one character and all of them digits. *)
Definition isdigit (s : list N) : bool :=
  match s with [] => false | _ => forallb isdigit_char s end.

(** [s.lstrip()], [s.rstrip()], [s.strip()] *)
Fixpoint lstrip (s : list N) : list N :=
  match s with
  | c :: r => if isspace_char c then lstrip r else s
  | [] => []
  end.

Definition rstrip (s : list N) : list N := rev (lstrip (rev s)).

Definition strip (s : list N) : list N := rstrip (lstrip s).

(** [s.split()]: maximal runs of non-whitespace characters. The
    accumulator [cur] is the word being read, reversed. *)
Fixpoint split_ws_aux (cur : list N) (s : list N) : list (list N) :=
  match s with
  | [] => match cur with [] => [] | _ => [rev cur] end
  | c :: r =>
    if isspace_char c
    then match cur with
         | [] => split_ws_aux [] r
         | _ => rev cur :: split_ws_aux [] r
         end
    else split_ws_aux (c :: cur) r
  end.

Definition split_ws (s : list N) : list (list N) := split_ws_aux [] s.

(** [s.split(sep)] for a one-character separator: empty fields are kept
    and the result is never empty. *)
Fixpoint split_on_aux (sep : N) (cur : list N) (s : list N) : list (list N) :=
  match s with
  | [] => [rev cur]
  | c :: r =>
    if (c =? sep)%N then rev cur :: split_on_aux sep [] r
    else split_on_aux sep (c :: cur) r
  end.

Definition split_on (sep : N) (s : list N) : list (list N) :=
  split_on_aux sep [] s.

(** [s.replace(old, new)] for one-character [old] and [new]. *)
Definition replace_char (old new : N) (s : list N) : list N :=
  map (fun c => if (c =? old)%N then new else c) s.

(** [c in s] for a one-character string [c]. *)
Definition contains_char (c : N) (s : list N) : bool :=
  existsb (N.eqb c) s.

Definition str_eqb (s t : list N) : bool := bool_decide (s = t).

Fixpoint starts_with (p s : list N) : bool :=
  match p, s with
  | [], _ => true
  | _ :: _, [] => false
  | x :: p', y :: s' => (x =? y)%N && starts_with p' s'
  end.

(** [p in s]: substring test. *)
Fixpoint contains (p s : list N) : bool :=
  starts_with p s ||
  match s with
  | [] => false
  | _ :: s' => contains p s'
  end.

(** [int] first turns every non-ASCII space into a space and every
    non-ASCII decimal digit into its ASCII digit, then reads the ASCII
    text. The whitespace it skips around the number: the six ASCII ones,
    and every non-ASCII Unicode space (the control characters
    U+001C-U+001F, which [strip] removes, are rejected by [int]). *)
Definition int_space (c : N) : bool :=
  in_range 9 13 c || (c =? 32)%N || ((127 <=? c)%N && isspace_char c).

Fixpoint int_lstrip (s : list N) : list N :=
  match s with
  | c :: r => if int_space c then int_lstrip r else s
  | [] => []
  end.

Definition digit_val (c : N) : Z := Z.of_N (default 0%N (decimal_value c)).

(** Digits after the first one: a digit, or one underscore followed by a
    digit. [acc] is the value read so far. *)
Fixpoint int_digits (acc : Z) (s : list N) : option Z :=
  match s with
  | [] => Some acc
  | c :: r =>
    if isdecimal_char c then int_digits (acc * 10 + digit_val c) r
    else if (c =? 95)%N then
      match r with
      | d :: r' =>
        if isdecimal_char d then int_digits (acc * 10 + digit_val d) r'
        else None
      | [] => None
      end
    else None
  end.

(** [sys.int_info.default_max_str_digits]: since CPython 3.11 (and the
    security releases of 3.7 to 3.10) a literal with more digits is
    refused with [ValueError]. *)
Definition int_max_str_digits : nat := 4300.

Definition int_unsigned (s : list N) : option Z :=
  match s with
  | c :: r =>
    if isdecimal_char c
       && (length (List.filter isdecimal_char s) <=? int_max_str_digits)
    then int_digits (digit_val c) r
    else None
  | [] => None
  end.

(** [int(s)] in base 10; [None] stands for [ValueError]. *)
Definition int_of_str (s : list N) : option Z :=
  let t := rev (int_lstrip (rev (int_lstrip s))) in
  match t with
  | 43%N :: r => int_unsigned r
  | 45%N :: r => Z.opp <$> int_unsigned r
  | _ => int_unsigned t
  end.

End PyStr.

Import PyStr.

(** ** difflib.SequenceMatcher (isjunk = None, autojunk = True) *)

Module Difflib.

(** A block [(i, j, k)]: [a[i:i+k] == b[j:j+k]]. *)
Definition block : Type := nat * nat * nat.

(** [__chain_b], first loop: for each element of [b], the ascending list
    of the positions where it occurs. *)
Definition b2j_add (m : gmap N (list nat)) (ie : nat * N) : gmap N (list nat) :=
  <[ie.2 := default [] (m !! ie.2) ++ [ie.1]]> m.

Definition b2j_full (b : list N) : gmap N (list nat) :=
  foldl b2j_add ∅ (imap pair b).

(** [__chain_b], last loop: with 200 elements or more, the elements that
    occur more than [n // 100 + 1] times are "popular". No element is
    junk, since [isjunk] is [None]. *)
Definition bpopular (b : list N) : gset N :=
  let n := length b in
  if 200 <=? n
  then dom (filter (fun kv => n / 100 + 1 < length kv.2) (b2j_full b))
  else ∅.

Definition chain_b (b : list N) : gmap N (list nat) :=
  filter (fun kv => kv.1 ∉ bpopular b) (b2j_full b).

(** [j2len.get(j-1, 0)] *)
Definition j2len_get (j2len : gmap nat nat) (j : nat) : nat :=
  match j with
  | 0 => 0
  | S j' => default 0 (j2len !! j')
  end.

(** The inner loop of [find_longest_match] over the positions [js] of
    [a[i]] in [b]: [continue] below [blo], [break] from [bhi] on. The
    state is [newj2len] and the best block so far. [i - k + 1] is written
    [i + 1 - k] since [k <= i + 1]. *)
Fixpoint flm_inner (i blo bhi : nat) (j2len : gmap nat nat) (js : list nat)
    (st : gmap nat nat * block) : gmap nat nat * block :=
  match js with
  | [] => st
  | j :: js' =>
    if j <? blo then flm_inner i blo bhi j2len js' st
    else if bhi <=? j then st
    else
      let k := j2len_get j2len j + 1 in
      let '(newj2len, (besti, bestj, bestsize)) := st in
      let best := if bestsize <? k then (i + 1 - k, j + 1 - k, k)
                  else (besti, bestj, bestsize) in
      flm_inner i blo bhi j2len js' (<[j := k]> newj2len, best)
  end.

(** One pass of the outer loop, for row [i]; the state is [j2len] and
    the best block. *)
Definition flm_row (a : list N) (b2j : gmap N (list nat)) (blo bhi : nat)
    (st : gmap nat nat * block) (i : nat) : gmap nat nat * block :=
  let js := default [] (a !! i ≫= fun x => b2j !! x) in
  flm_inner i blo bhi st.1 js (∅, st.2).

(** [for i in range(alo, ahi)] *)
Definition flm_scan (a : list N) (b2j : gmap N (list nat))
    (alo ahi blo bhi : nat) : block :=
  (foldl (flm_row a b2j blo bhi) (∅, (alo, blo, 0)) (seq alo (ahi - alo))).2.

(** First [while]: extend the block to the left. *)
Fixpoint extend_left (a b : list N) (alo blo : nat)
    (besti bestj bestsize : nat) {struct besti} : block :=
  match besti, bestj with
  | S i', S j' =>
    if (alo <? besti) && (blo <? bestj) && bool_decide (a !! i' = b !! j')
    then extend_left a b alo blo i' j' (bestsize + 1)
    else (besti, bestj, bestsize)
  | _, _ => (besti, bestj, bestsize)
  end.

(** Second [while]: extend the block to the right; [gap] bounds the
    number of passes and is [ahi - (besti + bestsize)] at the call. *)
Fixpoint extend_right (a b : list N) (ahi bhi : nat)
    (besti bestj bestsize : nat) (gap : nat) : block :=
  match gap with
  | 0 => (besti, bestj, bestsize)
  | S gap' =>
    if (besti + bestsize <? ahi) && (bestj + bestsize <? bhi)
       && bool_decide (a !! (besti + bestsize) = b !! (bestj + bestsize))
    then extend_right a b ahi bhi besti bestj (bestsize + 1) gap'
    else (besti, bestj, bestsize)
  end.

(** [find_longest_match(alo, ahi, blo, bhi)]. The two last loops of the
    source extend over junk elements only, and [bjunk] is empty. *)
Definition find_longest_match (a b : list N) (b2j : gmap N (list nat))
    (alo ahi blo bhi : nat) : block :=
  let '(i0, j0, k0) := flm_scan a b2j alo ahi blo bhi in
  let '(i1, j1, k1) := extend_left a b alo blo i0 j0 k0 in
  extend_right a b ahi bhi i1 j1 k1 (ahi - (i1 + k1)).

(** The work list of [get_matching_blocks]; the head of [queue] is the
    end of the Python list, the entry [pop()] takes. [None]: [fuel] passes
    did not empty the queue. *)
Fixpoint blocks_loop (a b : list N) (b2j : gmap N (list nat)) (fuel : nat)
    (queue : list (nat * nat * nat * nat)) (acc : list block)
    : option (list block) :=
  match queue with
  | [] => Some acc
  | (alo, ahi, blo, bhi) :: q =>
    match fuel with
    | 0 => None
    | S fuel' =>
      let '(i, j, k) := find_longest_match a b b2j alo ahi blo bhi in
      if k =? 0 then blocks_loop a b b2j fuel' q acc
      else
        let q1 := if (alo <? i) && (blo <? j) then (alo, i, blo, j) :: q else q in
        let q2 := if (i + k <? ahi) && (j + k <? bhi)
                  then (i + k, ahi, j + k, bhi) :: q1 else q1 in
        blocks_loop a b b2j fuel' q2 (acc ++ [(i, j, k)])
    end
  end.

(** Tuple comparison, as [list.sort] uses it. *)
Definition block_leb (x y : block) : bool :=
  let '(i1, j1, k1) := x in
  let '(i2, j2, k2) := y in
  (i1 <? i2) || ((i1 =? i2) && ((j1 <? j2) || ((j1 =? j2) && (k1 <=? k2)))).

Fixpoint block_insert (x : block) (l : list block) : list block :=
  match l with
  | [] => [x]
  | y :: l' => if block_leb x y then x :: l else y :: block_insert x l'
  end.

Definition block_sort (l : list block) : list block :=
  foldr block_insert [] l.

(** The loop that merges adjacent blocks; the state is [(i1, j1, k1)] and
    [non_adjacent]. *)
Definition collapse_step (st : block * list block) (x : block)
    : block * list block :=
  let '((i1, j1, k1), non_adjacent) := st in
  let '(i2, j2, k2) := x in
  if (i1 + k1 =? i2) && (j1 + k1 =? j2)
  then ((i1, j1, k1 + k2), non_adjacent)
  else ((i2, j2, k2),
        if k1 =? 0 then non_adjacent else non_adjacent ++ [(i1, j1, k1)]).

Definition collapse (blocks : list block) (la lb : nat) : list block :=
  let '((i1, j1, k1), non_adjacent) := foldl collapse_step ((0, 0, 0), []) blocks in
  (if k1 =? 0 then non_adjacent else non_adjacent ++ [(i1, j1, k1)])
    ++ [(la, lb, 0)].

(** [get_matching_blocks()]; every pass of the work list removes an entry
    and adds at most two that are shorter in total, so [2 * len(a) + 1]
    passes empty it ([get_matching_blocks_total]). *)
Definition get_matching_blocks (a b : list N) : option (list block) :=
  let la := length a in
  let lb := length b in
  blocks ← blocks_loop a b (chain_b b) (2 * la + 1) [(0, la, 0, lb)] [];
  Some (collapse (block_sort blocks) la lb).

(** [_calculate_ratio(matches, length)] *)
Definition calculate_ratio (matches length : nat) : Q :=
  if length =? 0 then 1%Q
  else (2 * Z.of_nat matches # Pos.of_nat length)%Q.

(** [ratio()]; the work list is always emptied, so the last branch is
    never taken. *)
Definition ratio (a b : list N) : Q :=
  match get_matching_blocks a b with
  | Some blocks =>
    calculate_ratio (sum_list (map (fun t : block => t.2) blocks))
                    (length a + length b)
  | None => 0%Q
  end.

End Difflib.

(** ** stats_manager.py: the statistics of the users *)

Module StatsManager.

(** [str(n)] for an integer *)
Fixpoint str_of_uint (d : Decimal.uint) : list N :=
  match d with
  | Decimal.Nil => []
  | Decimal.D0 d => 48%N :: str_of_uint d
  | Decimal.D1 d => 49%N :: str_of_uint d
  | Decimal.D2 d => 50%N :: str_of_uint d
  | Decimal.D3 d => 51%N :: str_of_uint d
  | Decimal.D4 d => 52%N :: str_of_uint d
  | Decimal.D5 d => 53%N :: str_of_uint d
  | Decimal.D6 d => 54%N :: str_of_uint d
  | Decimal.D7 d => 55%N :: str_of_uint d
  | Decimal.D8 d => 56%N :: str_of_uint d
  | Decimal.D9 d => 57%N :: str_of_uint d
  end.

Definition str_of_int (n : Z) : list N :=
  match Z.to_int n with
  | Decimal.Pos d => str_of_uint d
  | Decimal.Neg d => 45%N :: str_of_uint d
  end.

(** An entry of ["test_types"] *)
Record type_stats := TypeStats {
  ts_total : Z;
  ts_correct : Z
}.

(** An entry of a question's ["history"] *)
Record attempt := Attempt {
  at_timestamp : Z;
  at_is_correct : bool
}.

(** An entry of ["questions"] *)
Record question_stats := QuestionStats {
  qs_test_type : list N;
  qs_attempts : Z;
  qs_correct : Z;
  qs_last_attempt : Z;
  qs_history : list attempt
}.

(** The statistics of one user *)
Record user_stats := UserStats {
  tests_total : Z;
  tests_correct : Z;
  test_types : gmap (list N) type_stats;
  questions : gmap (list N) question_stats
}.

(** What a call of [_save_stats] meets: the document is written; or an
    exception is caught, raised by [open] (the file stays as it was) or
    after [open] has emptied the file (it holds at most a part of the
    document). *)
Inductive write := Written | NotOpened | CutShort.

(** The statistics file: absent, holding the document of some
    statistics, or holding text that is not a complete document. *)
Inductive stats_file :=
  | NoFile
  | Complete (st : gmap (list N) user_stats)
  | Incomplete.

(** [_load_stats]: the statistics a start of the bot reads; the empty
    dictionary when there is no file or [json.load] fails. *)
Definition load_stats (f : stats_file) : gmap (list N) user_stats :=
  match f with
  | Complete st => st
  | NoFile | Incomplete => ∅
  end.

(** The manager: [stats], [changes_count], the file [stats_file] names,
    and what the calls of [_save_stats] to come will meet, the next one
    first ([disk]; when the list is used up, writes succeed). *)
Record manager := Manager {
  stats : gmap (list N) user_stats;
  changes_count : nat;
  saved : stats_file;
  disk : list write
}.

Definition save_interval : nat := 10.

(** [__init__] without a statistics file *)
Definition new_manager_on (disk : list write) : manager :=
  Manager (load_stats NoFile) 0 NoFile disk.

(** The same where every write succeeds. *)
Definition new_manager : manager := new_manager_on [].

(** [_save_stats]: the manager after the call, and the value returned. *)
Definition save_stats (m : manager) : manager * bool :=
  match disk m with
  | [] | Written :: _ =>
    (Manager (stats m) (changes_count m) (Complete (stats m)) (tl (disk m)), true)
  | NotOpened :: rest =>
    (Manager (stats m) (changes_count m) (saved m) rest, false)
  | CutShort :: rest =>
    (Manager (stats m) (changes_count m) Incomplete rest, false)
  end.

(** [_auto_save]: the value [_save_stats] returns is not looked at, the
    counter starts again in either case. *)
Definition auto_save (m : manager) : manager :=
  let m := Manager (stats m) (changes_count m + 1) (saved m) (disk m) in
  if save_interval <=? changes_count m
  then
    let m := (save_stats m).1 in
    Manager (stats m) 0 (saved m) (disk m)
  else m.

Definition new_user_stats : user_stats := UserStats 0 0 ∅ ∅.

(** [_get_or_create_user_stats]: the dictionary with the user's entry
    present, and that entry. *)
Definition get_or_create_user_stats (st : gmap (list N) user_stats) (user_id : Z)
    : gmap (list N) user_stats * user_stats :=
  let user_id_str := str_of_int user_id in
  match st !! user_id_str with
  | Some us => (st, us)
  | None => (<[user_id_str := new_user_stats]> st, new_user_stats)
  end.

(** [x[-n:]]: the last [n] elements. *)
Definition last_n {A} (n : nat) (x : list A) : list A :=
  drop (length x - n) x.

Definition bool_to_Z (b : bool) : Z := if b then 1%Z else 0%Z.

(** The updates [add_test_result] makes to the user's entry;
    [current_time] is [int(time.time())]. *)
Definition record_result (us : user_stats) (test_type question : list N)
    (is_correct : bool) (current_time : Z) : user_stats :=
  let types :=
    match test_types us !! test_type with
    | None => <[test_type := TypeStats 0 0]> (test_types us)
    | Some _ => test_types us
    end in
  let qs :=
    match questions us !! question with
    | None => <[question := QuestionStats test_type 0 0 0 []]> (questions us)
    | Some _ => questions us
    end in
  let total := (tests_total us + 1)%Z in
  let correct := if is_correct then (tests_correct us + 1)%Z else tests_correct us in
  let types :=
    alter (fun t => TypeStats (ts_total t + 1) (ts_correct t)) test_type types in
  let types :=
    if is_correct
    then alter (fun t => TypeStats (ts_total t) (ts_correct t + 1)) test_type types
    else types in
  let qs :=
    alter (fun q =>
      let attempts := (qs_attempts q + 1)%Z in
      let correct := if is_correct then (qs_correct q + 1)%Z else qs_correct q in
      let history := qs_history q ++ [Attempt current_time is_correct] in
      let history := if 10 <? length history then last_n 10 history else history in
      QuestionStats (qs_test_type q) attempts correct current_time history)
      question qs in
  UserStats total correct types qs.

(** [add_test_result] *)
Definition add_test_result (m : manager) (user_id : Z) (test_type question : list N)
    (is_correct : bool) (current_time : Z) : manager :=
  let '(st, us) := get_or_create_user_stats (stats m) user_id in
  let us := record_result us test_type question is_correct current_time in
  auto_save (Manager (<[str_of_int user_id := us]> st) (changes_count m) (saved m)
                     (disk m)).

(** One recorded result: the arguments of a call and the clock. *)
Record call := Call {
  c_user : Z;
  c_test_type : list N;
  c_question : list N;
  c_is_correct : bool;
  c_time : Z
}.

Definition add_call (m : manager) (c : call) : manager :=
  add_test_result m (c_user c) (c_test_type c) (c_question c)
                  (c_is_correct c) (c_time c).

(** The sums the totals are compared with. *)
Definition sum_type_totals (types : gmap (list N) type_stats) : Z :=
  map_fold (fun _ t acc => (ts_total t + acc)%Z) 0%Z types.

Definition sum_type_correct (types : gmap (list N) type_stats) : Z :=
  map_fold (fun _ t acc => (ts_correct t + acc)%Z) 0%Z types.

(** The results recorded for a user key and a question, oldest first. *)
Definition attempts_of (user_key question : list N) (calls : list call)
    : list attempt :=
  map (fun c => Attempt (c_time c) (c_is_correct c))
      (filter (fun c => str_of_int (c_user c) = user_key ∧ c_question c = question)
              calls).

End StatsManager.

(** ** knowledge_test.py: similarity engine and answer grader *)

Module KnowledgeTest.

Import Difflib.

Definition ge_float (x y : Q) : bool := Qle_bool y x.
Definition gt_float (x y : Q) : bool := negb (Qle_bool x y).

(** [_calculate_similarity] *)
Definition calculate_similarity (str1 str2 : list N) : Q :=
  let str1 := lower str1 in
  let str2 := lower str2 in
  ratio str1 str2.

(** The twelve characters the loop replaces by a space; the last two are
    the double and the single quote. *)
Definition punctuation : list N :=
  py ".,;:!?—()-" ++ [34%N; 39%N].

Definition stop_words : list (list N) :=
  map py ["в"; "на"; "и"; "с"; "по"; "а"; "о"; "у"; "к"; "от"; "до"; "из";
          "для"; "за"; "под"; "над"]%string.

(** [_extract_keywords] *)
Definition extract_keywords (text : list N) : list (list N) :=
  let text := lower text in
  let text := foldl (fun t c => replace_char c 32 t) text punctuation in
  let words := split_ws text in
  filter (fun word => 3 < length word ∧ word ∉ stop_words) words.

(** [_check_keywords] *)
Definition check_keywords (answer : list N) (keywords : list (list N)) : Q :=
  match keywords with
  | [] => 0%Q
  | _ =>
    let answer := lower answer in
    let found :=
      foldl (fun found keyword =>
               if contains keyword answer then found + 1 else found)
            0 keywords in
    (Z.of_nat found # Pos.of_nat (length keywords))%Q
  end.

(** [a, b = map(int, parts)]: exactly two fields, both accepted by
    [int]; every other case raises [ValueError] ([None]). *)
Definition unpack_two_ints (parts : list (list N)) : option (Z * Z) :=
  match parts with
  | [p1; p2] =>
    x ← int_of_str p1;
    y ← int_of_str p2;
    Some (x, y)
  | _ => None
  end.

(** The body of the [try] in [_check_date_answer], on the normalised
    answers. [None]: [ValueError] was raised; [Some None]: the body ended
    without [return]; [Some (Some r)]: it returned [r]. *)
Definition date_range_rule (user_answer correct_answer : list N)
    : option (option bool) :=
  '(correct_start, correct_end) ← unpack_two_ints (split_on 45 correct_answer);
  if isdigit user_answer then
    user_date ← int_of_str user_answer;
    Some (Some ((correct_start <=? user_date)%Z && (user_date <=? correct_end)%Z))
  else if contains_char 45 user_answer then
    '(user_start, user_end) ← unpack_two_ints (split_on 45 user_answer);
    Some (Some ((user_start =? correct_start)%Z && (user_end =? correct_end)%Z))
  else Some None.

(** The date with a month: some numeric token of the correct answer
    occurs in the user's answer. *)
Definition date_token_rule (user_answer correct_answer : list N) : bool :=
  contains_char 32 correct_answer
  && existsb (fun part => isdigit part && contains part user_answer)
             (split_ws correct_answer).

(** What follows the [try] statement in [_check_date_answer]. *)
Definition date_fallthrough (user_answer correct_answer : list N) : bool :=
  if date_token_rule user_answer correct_answer then true
  else if isdigit correct_answer && isdigit user_answer
  then str_eqb correct_answer user_answer
  else ge_float (calculate_similarity user_answer correct_answer) (8 # 10).

(** [_check_date_answer] *)
Definition check_date_answer (user_answer correct_answer : list N) : bool :=
  let user_answer := lower (strip user_answer) in
  let correct_answer := lower (strip correct_answer) in
  if str_eqb user_answer correct_answer then true
  else
    let attempt :=
      if contains_char 45 correct_answer
      then date_range_rule user_answer correct_answer
      else Some None in
    match attempt with
    | Some (Some r) => r
    | Some None | None => date_fallthrough user_answer correct_answer
    end.

(** The inner loop of [_calculate_name_similarity], left by [break] at
    the first hit. *)
Fixpoint part_matched (correct_part : list N) (user_parts : list (list N)) : bool :=
  match user_parts with
  | [] => false
  | user_part :: rest =>
    if gt_float (calculate_similarity user_part correct_part) (8 # 10) then true
    else part_matched correct_part rest
  end.

(** [_calculate_name_similarity] *)
Definition calculate_name_similarity (user_name correct_name : list N) : Q :=
  let user_name := lower user_name in
  let correct_name := lower correct_name in
  if str_eqb user_name correct_name then 1%Q
  else
    let user_parts := map strip (split_ws user_name) in
    let correct_parts := map strip (split_ws correct_name) in
    let total_parts := length correct_parts in
    let matched_parts :=
      foldl (fun matched correct_part =>
               if part_matched correct_part user_parts then matched + 1
               else matched)
            0 correct_parts in
    if 0 <? total_parts
    then (Z.of_nat matched_parts # Pos.of_nat total_parts)%Q
    else 0%Q.

(** [_extract_keywords] with the test on [stop_words] removed from the
    comprehension, to be compared with [extract_keywords]. *)
Definition extract_keywords_no_stop_words (text : list N) : list (list N) :=
  let text := lower text in
  let text := foldl (fun t c => replace_char c 32 t) text punctuation in
  let words := split_ws text in
  filter (fun word => 3 < length word) words.

(** The name similarity as the specification words it: the share of the
    parts of the correct name that some part of the user's name matches
    with a similarity above 0.8. To be compared with
    [calculate_name_similarity]. *)
Definition name_similarity_spec (user_name correct_name : list N) : Q :=
  if decide (lower user_name = lower correct_name) then 1%Q
  else
    let user_parts := split_ws (lower user_name) in
    let correct_parts := split_ws (lower correct_name) in
    match correct_parts with
    | [] => 0%Q
    | _ =>
      let matched_parts :=
        List.filter
          (fun correct_part =>
             existsb (fun user_part =>
                        gt_float (calculate_similarity user_part correct_part) (8 # 10))
                     user_parts)
          correct_parts in
      (Z.of_nat (length matched_parts) # Pos.of_nat (length correct_parts))%Q
    end.

(** The keyword share as the specification words it: a keyword is
    matched when it occurs as a substring of the lower-cased answer,
    that is when at some position of the answer the characters that
    follow are those of the keyword; the share is the number of matched
    keywords, each occurrence in the list counted, over the length of
    the list, and 0 for the empty list. To be compared with
    [check_keywords]. *)
Definition is_substring (word text : list N) : Prop :=
  Exists (fun i => take (length word) (drop i text) = word)
         (seq 0 (S (length text))).

#[export] Instance is_substring_dec word text : Decision (is_substring word text).
Proof. unfold is_substring. apply _. Defined.

Definition keyword_match_fraction_spec (answer : list N) (keywords : list (list N))
    : Q :=
  match keywords with
  | [] => 0%Q
  | _ =>
    let matched :=
      filter (fun keyword => is_substring keyword (lower answer)) keywords in
    (Z.of_nat (length matched) # Pos.of_nat (length keywords))%Q
  end.

(** *** Facts, per-user state and the question selector *)

Record event := Event {
  ev_id : Z;
  ev_date : list N;
  ev_description : list N
}.

Record figure := Figure {
  fig_id : Z;
  fig_name : list N;
  fig_achievement : list N
}.

(** The ["type"] of a test and of a marathon question. *)
Inductive question_type := QDate | QEvent | QFigure | QAchievement.

#[export] Instance question_type_eq_dec : EqDecision question_type.
Proof. solve_decision. Defined.

(** [context.user_data["current_test"]]: the type with the stored
    ["event"] or ["figure"]. *)
Inductive current_test :=
  | TestDate (e : event)
  | TestEvent (e : event)
  | TestFigure (f : figure)
  | TestAchievement (f : figure).

Inductive exn := ValueError | IndexError.

Inductive res (A : Type) :=
  | Ok (a : A)
  | Raise (e : exn).
Arguments Ok {A} a.
Arguments Raise {A} e.

(** [random.choice(seq)] with the raw draw [r]. *)
Definition random_choice {A} (seq : list A) (r : nat) : res A :=
  match seq !! (r mod length seq) with
  | Some x => Ok x
  | None => Raise IndexError
  end.

(** What the handler showed to the user. *)
Inductive reply :=
  | NoDataMessage
  | QuestionMessage (t : current_test)
  | ResultMessage (t : current_test) (is_correct : bool)
  | NoActiveTestMessage.

(** The fields of [context.user_data] the tests use. *)
Record user_data := UserData {
  ud_state : option (list N);
  ud_current_test : option current_test
}.

(** The part shared by the four [start_*_test] methods, from the lookup
    of the user's list to [append]: [ids] are the ["id"] fields of
    [data_manager.get_all_*()], in order, paired with the facts. Returns
    the chosen fact and the updated dictionary. *)
Definition pick_unused {A} (fact_id : A -> Z) (used : gmap Z (list Z))
    (user_id : Z) (all_facts : list A) (r : nat)
    : res (A * gmap Z (list Z)) :=
  let used :=
    match used !! user_id with
    | None => <[user_id := []]> used
    | Some _ => used
    end in
  let consumed := default [] (used !! user_id) in
  let available := filter (fun x => fact_id x ∉ consumed) all_facts in
  let '(used, available) :=
    match available with
    | [] => (<[user_id := []]> used, all_facts)
    | _ => (used, available)
    end in
  match random_choice available r with
  | Raise e => Raise e
  | Ok x =>
    Ok (x, <[user_id := default [] (used !! user_id) ++ [fact_id x]]> used)
  end.

(** The object state of [KnowledgeTest], with the two lists of the data
    manager it reads. *)
Record kt_state := KtState {
  all_events : list event;
  all_figures : list figure;
  used_events : gmap Z (list Z);
  used_figures : gmap Z (list Z)
}.

(** The tail shared by the four methods. A fact is a non-empty
    dictionary, so [if not event] is never taken after a successful
    choice; the branch is kept for its message. *)
Definition present_question (fact_is_empty : bool) (t : current_test)
    (ud : user_data) : user_data * reply :=
  if fact_is_empty
  then (UserData None (ud_current_test ud), NoDataMessage)
  else (UserData (ud_state ud) (Some t), QuestionMessage t).

(** [start_date_test], [start_event_test] *)
Definition start_event_kind (mk : event -> current_test) (st : kt_state)
    (user_id : Z) (ud : user_data) (r : nat)
    : res (kt_state * user_data * reply) :=
  match pick_unused ev_id (used_events st) user_id (all_events st) r with
  | Raise e => Raise e
  | Ok (ev, used) =>
    let st := KtState (all_events st) (all_figures st) used (used_figures st) in
    let '(ud, msg) := present_question false (mk ev) ud in
    Ok (st, ud, msg)
  end.

(** [start_figure_test], [start_achievement_test] *)
Definition start_figure_kind (mk : figure -> current_test) (st : kt_state)
    (user_id : Z) (ud : user_data) (r : nat)
    : res (kt_state * user_data * reply) :=
  match pick_unused fig_id (used_figures st) user_id (all_figures st) r with
  | Raise e => Raise e
  | Ok (fg, used) =>
    let st := KtState (all_events st) (all_figures st) (used_events st) used in
    let '(ud, msg) := present_question false (mk fg) ud in
    Ok (st, ud, msg)
  end.

Definition start_date_test := start_event_kind TestDate.
Definition start_event_test := start_event_kind TestEvent.
Definition start_figure_test := start_figure_kind TestFigure.
Definition start_achievement_test := start_figure_kind TestAchievement.

Definition start_test (t : question_type) :=
  match t with
  | QDate => start_date_test
  | QEvent => start_event_test
  | QFigure => start_figure_test
  | QAchievement => start_achievement_test
  end.

(** A run of the selector from several users: the calls are
    [(user, type, draw)], [ctx] holds the [context.user_data] of each
    user. The result is the state and the replies, oldest first. An
    exception ends the run. *)
Fixpoint run_tests (st : kt_state) (ctx : gmap Z user_data)
    (calls : list (Z * question_type * nat))
    : res (kt_state * gmap Z user_data * list (Z * question_type * reply)) :=
  match calls with
  | [] => Ok (st, ctx, [])
  | (user_id, t, r) :: rest =>
    let ud := default (UserData None None) (ctx !! user_id) in
    match start_test t st user_id ud r with
    | Raise e => Raise e
    | Ok (st', ud', msg) =>
      match run_tests st' (<[user_id := ud']> ctx) rest with
      | Raise e => Raise e
      | Ok (st'', ctx'', replies) => Ok (st'', ctx'', (user_id, t, msg) :: replies)
      end
    end
  end.

(** The two kinds of facts, and the kind a question type draws from. *)
Inductive fact_kind := EventKind | FigureKind.

#[export] Instance fact_kind_eq_dec : EqDecision fact_kind.
Proof. solve_decision. Defined.

Definition kind_of (t : question_type) : fact_kind :=
  match t with
  | QDate | QEvent => EventKind
  | QFigure | QAchievement => FigureKind
  end.

Definition pool_ids (st : kt_state) (k : fact_kind) : list Z :=
  match k with
  | EventKind => map ev_id (all_events st)
  | FigureKind => map fig_id (all_figures st)
  end.

(** The consumed ids of a user for a kind. *)
Definition consumed (st : kt_state) (user_id : Z) (k : fact_kind) : list Z :=
  match k with
  | EventKind => default [] (used_events st !! user_id)
  | FigureKind => default [] (used_figures st !! user_id)
  end.

Definition shown_id (t : current_test) : Z :=
  match t with
  | TestDate e | TestEvent e => ev_id e
  | TestFigure f | TestAchievement f => fig_id f
  end.

(** The ids of the facts shown to a user for a kind, oldest first. *)
Definition shown_ids (user_id : Z) (k : fact_kind)
    (replies : list (Z * question_type * reply)) : list Z :=
  omap (fun x : Z * question_type * reply =>
          match x with
          | (u, t, QuestionMessage ct) =>
            if decide (u = user_id ∧ kind_of t = k) then Some (shown_id ct) else None
          | _ => None
          end) replies.

(** *** Grading *)

(** The rule of the ["date"] and ["figure"] branches of [check_answer]. *)
Definition text_rule (user_answer correct_answer : list N) : bool :=
  let similarity := calculate_similarity user_answer correct_answer in
  let keywords := extract_keywords correct_answer in
  let keyword_match := check_keywords user_answer keywords in
  ge_float similarity (6 # 10) || ge_float keyword_match (7 # 10).

(** The rule of the ["achievement"] branch. *)
Definition name_rule (user_answer correct_answer : list N) : bool :=
  let name_similarity := calculate_name_similarity user_answer correct_answer in
  ge_float name_similarity (8 # 10).

(** [check_answer]: the result, the reply, and the statistics after the
    call; [now] is the clock [add_test_result] reads. *)
Definition check_answer (ud : user_data) (user_answer : list N) (user_id : Z)
    (now : Z) (sm : StatsManager.manager) : bool * reply * StatsManager.manager :=
  match ud_current_test ud with
  | None => (false, NoActiveTestMessage, sm)
  | Some (TestDate e as t) =>
    let is_correct := text_rule user_answer (ev_description e) in
    (is_correct, ResultMessage t is_correct,
     StatsManager.add_test_result sm user_id (py "date")
       (py "Дата: " ++ ev_date e) is_correct now)
  | Some (TestEvent e as t) =>
    let is_correct := check_date_answer user_answer (ev_date e) in
    (is_correct, ResultMessage t is_correct,
     StatsManager.add_test_result sm user_id (py "event")
       (py "Событие: " ++ ev_description e) is_correct now)
  | Some (TestFigure f as t) =>
    let is_correct := text_rule user_answer (fig_achievement f) in
    (is_correct, ResultMessage t is_correct,
     StatsManager.add_test_result sm user_id (py "figure")
       (py "Деятель: " ++ fig_name f) is_correct now)
  | Some (TestAchievement f as t) =>
    let is_correct := name_rule user_answer (fig_name f) in
    (is_correct, ResultMessage t is_correct,
     StatsManager.add_test_result sm user_id (py "achievement")
       (py "Достижение: " ++ fig_achievement f) is_correct now)
  end.

(** *** The marathon's sequence of question types *)

Definition question_types : list question_type :=
  [QDate; QEvent; QFigure; QAchievement].

(** [x[i], x[j] = x[j], x[i]] *)
Definition swap {A} (x : list A) (i j : nat) : list A :=
  match x !! i, x !! j with
  | Some xi, Some xj => <[i := xj]> (<[j := xi]> x)
  | _, _ => x
  end.

(** [random.shuffle(x)]: [for i in reversed(range(1, len(x)))], with
    [j = randbelow(i + 1)]; called with [i = len(x) - 1]. Returns the
    draws that are left. *)
Fixpoint shuffle_from {A} (i : nat) (x : list A) (rs : list nat)
    : list A * list nat :=
  match i with
  | 0 => (x, rs)
  | S i' => shuffle_from i' (swap x i (hd 0 rs mod (i + 1))) (tl rs)
  end.

Definition random_shuffle {A} (x : list A) (rs : list nat) : list A * list nat :=
  shuffle_from (length x - 1) x rs.

(** [while len(questions) < questions_count: questions.append(...)]:
    [n] is the number of passes, [questions_count - len(questions)] or
    zero. *)
Fixpoint fill_random (n : nat) (questions : list question_type) (rs : list nat)
    : list question_type * list nat :=
  match n with
  | 0 => (questions, rs)
  | S n' =>
    fill_random n'
      (questions ++ [nth (hd 0 rs mod 4) question_types QDate]) (tl rs)
  end.

(** [x[:n]] for any integer [n]. *)
Definition slice_to {A} (x : list A) (n : Z) : list A :=
  if (0 <=? n)%Z then take (Z.to_nat n) x
  else take (Z.to_nat (Z.of_nat (length x) + n)) x.

(** The sequence [start_marathon] stores in
    [context.user_data["marathon"]["questions"]]. *)
Definition marathon_questions (questions_count : Z) (rs : list nat)
    : list question_type :=
  let '(base_questions, rs) := random_shuffle question_types rs in
  let questions := base_questions in
  let '(questions, rs) :=
    fill_random (Z.to_nat (questions_count - Z.of_nat (length questions)))
                questions rs in
  let questions := slice_to questions questions_count in
  (random_shuffle questions rs).1.

End KnowledgeTest.

(** * Invariants and other definitions of the proofs *)

Module Invariants.

Import Difflib StatsManager KnowledgeTest.

(** ** The matcher *)

(** Values of the row of [i - 1] are at most [i - alo]; the best block
    lies in [a[alo:i]]. *)
Definition row_bounded (alo i : nat) (j2len : gmap nat nat) : Prop :=
  forall j v, j2len !! j = Some v -> v <= i - alo.

Definition best_bounded (alo i : nat) (best : block) : Prop :=
  alo <= best.1.1 /\ best.1.1 + best.2 <= i.

(** The measure that decreases along the work list. *)
Definition entry_weight (e : nat * nat * nat * nat) : nat :=
  2 * (e.1.1.2 - e.1.1.1) + 1.

Definition queue_weight (queue : list (nat * nat * nat * nat)) : nat :=
  sum_list (map entry_weight queue).

Definition entry_ok (e : nat * nat * nat * nat) : Prop :=
  e.1.1.1 <= e.1.1.2.

(** The positions of [x] in [b], counted from [off], ascending. *)
Fixpoint positions_from (x : N) (off : nat) (b : list N) : list nat :=
  match b with
  | [] => []
  | y :: b' =>
    if decide (x = y) then off :: positions_from x (S off) b'
    else positions_from x (S off) b'
  end.

(** [a[i]] exists and is not popular. *)
Definition plain (a : list N) (i : nat) : bool :=
  match a !! i with
  | Some x => bool_decide (x ∉ bpopular a)
  | None => false
  end.

(** The length of the run of plain elements of [a] that ends at [i]. *)
Fixpoint run (a : list N) (i : nat) : nat :=
  match i with
  | 0 => if plain a 0 then 1 else 0
  | S i' => if plain a (S i') then S (run a i') else 0
  end.

Definition run_before (a : list N) (i : nat) : nat :=
  match i with 0 => 0 | S i' => run a i' end.

(** The row of [i - 1] when [a] is matched with itself: no entry exceeds
    the runs that end at [i - 1] and at its own column, and the diagonal
    entry is the run itself. *)
Definition row_ok (a : list N) (i : nat) (j2len : gmap nat nat) : Prop :=
  (forall j v, j2len !! j = Some v -> v <= run_before a i /\ v <= run a j)
  /\ j2len_get j2len i = run_before a i.

(** The best block before row [i]: on the diagonal, inside [a[0:i]], and
    at least as long as every run seen. *)
Definition diag_ok (a : list N) (i : nat) (best : block) : Prop :=
  best.1.1 = best.1.2
  /\ (forall i', i' < i -> run a i' <= best.2)
  /\ best.1.1 + best.2 <= i.

(** ** The question selector *)

(** A state one selection later. *)
Definition selected (st st' : kt_state) (user_id : Z) (k : fact_kind) (z : Z)
    : Prop :=
  all_events st' = all_events st /\ all_figures st' = all_figures st
  /\ z ∈ pool_ids st k
  /\ (forall u k', (u, k') ≠ (user_id, k) -> consumed st' u k' = consumed st u k')
  /\ (((forall y, y ∈ pool_ids st k -> y ∈ consumed st user_id k)
       /\ consumed st' user_id k = [z])
      \/ ((z ∉ consumed st user_id k)
          /\ consumed st' user_id k = consumed st user_id k ++ [z])).

(** What holds of the consumed lists in every state the selector
    reaches: no id twice, and only ids of the pool. *)
Definition consumed_ok (st : kt_state) : Prop :=
  forall u k,
    NoDup (consumed st u k)
    /\ (forall z, z ∈ consumed st u k -> z ∈ pool_ids st k).

(** Three events, two users: user 7 is shown the three events, then the
    list restarts. *)
Definition demo_events : list event :=
  [Event 0 (py "1569") (py "Люблинская уния");
   Event 1 (py "1791") (py "Принятие Конституции Речи Посполитой 3 мая");
   Event 2 (py "1794") (py "Восстание под руководством Тадеуша Костюшко")].

Definition demo_calls : list (Z * question_type * nat) :=
  [(7%Z, QDate, 5); (7%Z, QEvent, 5); (8%Z, QDate, 0); (7%Z, QDate, 5)].

Definition demo_run : kt_state * gmap Z user_data * list (Z * question_type * reply) :=
  match run_tests (KtState demo_events [] ∅ ∅) ∅ demo_calls with
  | Ok x => x
  | Raise _ => (KtState [] [] ∅ ∅, ∅, [])
  end.

(** ** The statistics *)

Definition sum_over (f : type_stats -> Z) (m : gmap (list N) type_stats) : Z :=
  map_fold (fun _ t acc => (f t + acc)%Z) 0%Z m.

(** The state of one user is consistent. *)
Definition user_ok (us : user_stats) : Prop :=
  tests_total us = sum_type_totals (test_types us)
  /\ tests_correct us = sum_type_correct (test_types us)
  /\ forall question qs,
       questions us !! question = Some qs -> (qs_correct qs <= qs_attempts qs)%Z.

(** The entry of a question after [record_result]. *)
Definition updated_question (test_type : list N) (is_correct : bool)
    (current_time : Z) (old : option question_stats) : question_stats :=
  let q := default (QuestionStats test_type 0 0 0 []) old in
  QuestionStats (qs_test_type q) (qs_attempts q + 1)
    (if is_correct then (qs_correct q + 1)%Z else qs_correct q)
    current_time
    (let history := qs_history q ++ [Attempt current_time is_correct] in
     if 10 <? length history then last_n 10 history else history).

(** The history kept for a user key and a question, empty when there is
    none. *)
Definition history_of (st : gmap (list N) user_stats) (user_key question : list N)
    : list attempt :=
  match st !! user_key ≫= fun us => questions us !! question with
  | Some qs => qs_history qs
  | None => []
  end.

Definition stats_ok (calls : list call) (st : gmap (list N) user_stats) : Prop :=
  (forall user_key us, st !! user_key = Some us -> user_ok us)
  /\ (forall user_key question,
        history_of st user_key question
        = last_n 10 (attempts_of user_key question calls)).

(** Twelve answers of user 7 to one question, the odd ones correct, and
    one answer to another. *)
Definition demo_results : list call :=
  map (fun i => Call 7 (py "date") (py "Дата: 1569") (Nat.odd i) (1000 + Z.of_nat i))
      (seq 0 12)
  ++ [Call 7 (py "event") (py "Событие: Люблинская уния") true 2000].

Definition demo_user_stats : user_stats :=
  default new_user_stats
          (stats (foldl add_call new_manager demo_results) !! str_of_int 7).

End Invariants.

Import Invariants.

(** * Further invariants of the matcher *)

Module MatcherInvariants.

Import Difflib.

(** Entries of a row lie at columns from [blo] on and do not exceed what
    fits between [blo] and their column. *)
Definition col_bounded (blo : nat) (j2len : gmap nat nat) : Prop :=
  forall j v, j2len !! j = Some v -> blo <= j /\ v <= j + 1 - blo.

(** The best block lies in [b[blo:bhi]]. *)
Definition best_in_b (blo bhi : nat) (best : block) : Prop :=
  blo <= best.1.2 /\ best.1.2 + best.2 <= bhi.

(** The number of matched characters of a list of blocks. *)
Definition size_sum (blocks : list block) : nat :=
  sum_list (map (fun t : block => t.2) blocks).

(** What the entries of the work list can still contribute, in [a] and
    in [b]. *)
Definition room_a (queue : list (nat * nat * nat * nat)) : nat :=
  sum_list (map (fun e : nat * nat * nat * nat => e.1.1.2 - e.1.1.1) queue).

Definition room_b (queue : list (nat * nat * nat * nat)) : nat :=
  sum_list (map (fun e : nat * nat * nat * nat => e.2 - e.1.2) queue).

Definition entry_ordered (e : nat * nat * nat * nat) : Prop :=
  e.1.1.1 <= e.1.1.2 /\ e.1.2 <= e.2.

End MatcherInvariants.

Import MatcherInvariants.

(** * The answer a test expects *)

Module Expected.

Import KnowledgeTest.

(** [correct_answer] in the four branches of [check_answer]. *)
Definition expected_answer (t : current_test) : list N :=
  match t with
  | TestDate e => ev_description e
  | TestEvent e => ev_date e
  | TestFigure f => fig_achievement f
  | TestAchievement f => fig_name f
  end.

(** What the branch compares: lower case, and for a date also without
    the surrounding whitespace. *)
Definition normalised (t : current_test) (s : list N) : list N :=
  match t with
  | TestEvent _ => lower (strip s)
  | _ => lower s
  end.

(** The key [add_test_result] is called with in each branch. *)
Definition test_type_of (t : current_test) : list N :=
  match t with
  | TestDate _ => py "date"
  | TestEvent _ => py "event"
  | TestFigure _ => py "figure"
  | TestAchievement _ => py "achievement"
  end.

End Expected.

Import Expected.

(** * stats_manager.py: resetting a user *)

Module StatsOps.

Import StatsManager.

(** [reset_user_stats]: [False] for an unknown user; otherwise the
    user's entry is emptied, [_save_stats] is called at once and [True]
    is returned whatever that call returns; [changes_count] is not
    touched. *)
Definition reset_user_stats (m : manager) (user_id : Z) : manager * bool :=
  let user_id_str := str_of_int user_id in
  match stats m !! user_id_str with
  | None => (m, false)
  | Some _ =>
    let st := <[user_id_str := new_user_stats]> (stats m) in
    ((save_stats (Manager st (changes_count m) (saved m) (disk m))).1, true)
  end.

(** The calls that change the statistics. *)
Inductive op :=
  | RecordResult (c : call)
  | ResetUser (user_id : Z).

Definition apply_op (m : manager) (o : op) : manager :=
  match o with
  | RecordResult c => add_call m c
  | ResetUser user_id => (reset_user_stats m user_id).1
  end.

Definition run_ops (disk : list write) (ops : list op) : manager :=
  foldl apply_op (new_manager_on disk) ops.

(** The results that count for a user key after [ops]: those recorded
    for it since it was last reset. *)
Definition live_step (user_key : list N) (live : list call) (o : op) : list call :=
  match o with
  | RecordResult c =>
    if decide (str_of_int (c_user c) = user_key) then live ++ [c] else live
  | ResetUser user_id =>
    if decide (str_of_int user_id = user_key) then [] else live
  end.

Definition live_calls (user_key : list N) (ops : list op) : list call :=
  foldl (live_step user_key) [] ops.

Definition count_correct (calls : list call) : nat :=
  length (filter (fun c => c_is_correct c = true) calls).

Definition calls_of_question (question : list N) (calls : list call) : list call :=
  filter (fun c => c_question c = question) calls.

Definition calls_of_type (test_type : list N) (calls : list call) : list call :=
  filter (fun c => c_test_type c = test_type) calls.

Definition recorded (o : op) : bool :=
  match o with RecordResult _ => true | ResetUser _ => false end.

(** What the entry of a user says, against the results that count for
    the user. *)
Definition question_matches (qs : option question_stats) (calls : list call)
    : Prop :=
  match qs with
  | None => calls = []
  | Some q =>
    calls ≠ []
    /\ qs_attempts q = Z.of_nat (length calls)
    /\ qs_correct q = Z.of_nat (count_correct calls)
    /\ Some (qs_last_attempt q) = c_time <$> last calls
    /\ Some (qs_test_type q) = c_test_type <$> head calls
    /\ qs_history q
       = last_n 10 (map (fun c => Attempt (c_time c) (c_is_correct c)) calls)
  end.

Definition type_matches (ts : option type_stats) (calls : list call) : Prop :=
  match ts with
  | None => calls = []
  | Some t =>
    calls ≠ []
    /\ ts_total t = Z.of_nat (length calls)
    /\ ts_correct t = Z.of_nat (count_correct calls)
  end.

Definition user_matches (us : option user_stats) (calls : list call) : Prop :=
  match us with
  | None => calls = []
  | Some u =>
    tests_total u = Z.of_nat (length calls)
    /\ tests_correct u = Z.of_nat (count_correct calls)
    /\ (forall test_type,
          type_matches (test_types u !! test_type) (calls_of_type test_type calls))
    /\ (forall question,
          question_matches (questions u !! question)
                           (calls_of_question question calls))
  end.

End StatsOps.

Import StatsOps.

(** * data_manager.py: the database of facts *)

Module DataManager.

Import KnowledgeTest.

(** [self.data] with its two lists, and the content of the JSON file
    ([None]: no file, or one that does not hold a non-empty dictionary). *)
Record database := Database {
  dm_events : list event;
  dm_figures : list figure;
  dm_file : option (list event * list figure)
}.

(** [_save_data] *)
Definition save_data (evs : list event) (figs : list figure) : database :=
  Database evs figs (Some (evs, figs)).

(** [__init__]: the file's content when there is one, otherwise the
    empty database, written at once. *)
Definition init (file : option (list event * list figure)) : database :=
  match file with
  | Some (evs, figs) => Database evs figs file
  | None => save_data [] []
  end.

(** [add_event]: the new database and the id returned. *)
Definition add_event (db : database) (date description : list N) : database * Z :=
  let event_id := Z.of_nat (length (dm_events db)) in
  (save_data (dm_events db ++ [Event event_id date description]) (dm_figures db),
   event_id).

(** [add_figure] *)
Definition add_figure (db : database) (name achievement : list N) : database * Z :=
  let figure_id := Z.of_nat (length (dm_figures db)) in
  (save_data (dm_events db) (dm_figures db ++ [Figure figure_id name achievement]),
   figure_id).

(** [get_event_by_date]: the first event with this date. *)
Definition get_event_by_date (db : database) (date : list N) : option event :=
  List.find (fun e => bool_decide (ev_date e = date)) (dm_events db).

(** [get_event_by_description]: letter case is ignored. *)
Definition get_event_by_description (db : database) (description : list N)
    : option event :=
  List.find (fun e => bool_decide (lower (ev_description e) = lower description))
            (dm_events db).

(** [get_figure_by_name] *)
Definition get_figure_by_name (db : database) (name : list N) : option figure :=
  List.find (fun f => bool_decide (lower (fig_name f) = lower name))
            (dm_figures db).

(** [get_figure_by_achievement] *)
Definition get_figure_by_achievement (db : database) (achievement : list N)
    : option figure :=
  List.find (fun f => bool_decide (lower (fig_achievement f) = lower achievement))
            (dm_figures db).

(** [get_random_event], [get_random_figure]: [None] on an empty list,
    otherwise [random.choice] with the draw [r]. *)
Definition get_random_event (db : database) (r : nat) : option event :=
  match dm_events db with
  | [] => None
  | events => events !! (r mod length events)
  end.

Definition get_random_figure (db : database) (r : nat) : option figure :=
  match dm_figures db with
  | [] => None
  | figures => figures !! (r mod length figures)
  end.

(** [get_random_events], [get_random_figures]: a shuffled copy, cut at
    [min(count, len)]. *)
Definition get_random_events (db : database) (count : Z) (rs : list nat)
    : list event :=
  match dm_events db with
  | [] => []
  | events =>
    slice_to (random_shuffle events rs).1
             (Z.min count (Z.of_nat (length events)))
  end.

Definition get_random_figures (db : database) (count : Z) (rs : list nat)
    : list figure :=
  match dm_figures db with
  | [] => []
  | figures =>
    slice_to (random_shuffle figures rs).1
             (Z.min count (Z.of_nat (length figures)))
  end.

(** [get_all_events], [get_all_figures] *)
Definition get_all_events (db : database) : list event := dm_events db.
Definition get_all_figures (db : database) : list figure := dm_figures db.

Definition sample_events : list (list N * list N) :=
  [
   (py "1569",
    py "Люблинская уния. Объединение Великого княжества Литовского и Королевства Польского в Речь Посполитую");
   (py "1791",
    py "Принятие Конституции Речи Посполитой 3 мая");
   (py "1794",
    py "Восстание под руководством Тадеуша Костюшко");
   (py "1795",
    py "Третий раздел Речи Посполитой. Включение белорусских земель в состав Российской империи");
   (py "1812",
    py "Отечественная война 1812 года. Сражения на территории Беларуси");
   (py "1863-1864",
    py "Восстание под руководством К. Калиновского");
   (py "1917",
    py "Февральская и Октябрьская революции");
   (py "1918",
    py "Провозглашение Белорусской Народной Республики (БНР)");
   (py "1919",
    py "Создание Белорусской ССР (БССР)");
   (py "1941-1944",
    py "Великая Отечественная война на территории Беларуси");
   (py "1986",
    py "Авария на Чернобыльской АЭС");
   (py "1991",
    py "Провозглашение независимости Республики Беларусь");
   (py "1994",
    py "Принятие Конституции Республики Беларусь, первые президентские выборы")
  ].

Definition sample_figures : list (list N * list N) :=
  [
   (py "Франциск Скорина",
    py "Белорусский первопечатник, просветитель, переводчик Библии на старобелорусский язык");
   (py "Кастусь Калиновский",
    py "Лидер национально-освободительного восстания 1863-1864 годов, публицист");
   (py "Евфросиния Полоцкая",
    py "Просветительница, основательница монастырей и школ в Полоцке");
   (py "Петр Мстиславец",
    py "Белорусский первопечатник, соратник Ивана Федорова");
   (py "Тадеуш Костюшко",
    py "Руководитель восстания 1794 года, национальный герой Беларуси, Польши и США");
   (py "Якуб Колас",
    py "Народный поэт Беларуси, один из основателей новой белорусской литературы");
   (py "Янка Купала",
    py "Народный поэт Беларуси, классик белорусской литературы, драматург");
   (py "Максим Богданович",
    py "Белорусский поэт, прозаик, публицист, литературовед, переводчик")
  ].

(** [initialize_sample_data]: nothing when the database holds a fact. *)
Definition initialize_sample_data (db : database) : database :=
  match dm_events db, dm_figures db with
  | [], [] =>
    let db := foldl (fun db ev => (add_event db ev.1 ev.2).1) db sample_events in
    foldl (fun db fg => (add_figure db fg.1 fg.2).1) db sample_figures
  | _, _ => db
  end.

(** The calls that change the database. *)
Inductive db_op :=
  | AddEvent (date description : list N)
  | AddFigure (name achievement : list N)
  | InitializeSampleData.

Definition apply_db_op (db : database) (o : db_op) : database :=
  match o with
  | AddEvent date description => (add_event db date description).1
  | AddFigure name achievement => (add_figure db name achievement).1
  | InitializeSampleData => initialize_sample_data db
  end.

(** A database is well numbered when each fact's id is its position. *)
Definition well_numbered (db : database) : Prop :=
  map ev_id (dm_events db) = map Z.of_nat (seq 0 (length (dm_events db)))
  /\ map fig_id (dm_figures db) = map Z.of_nat (seq 0 (length (dm_figures db))).

(** The file holds what is in memory. *)
Definition file_current (db : database) : Prop :=
  dm_file db = Some (dm_events db, dm_figures db).

End DataManager.

Import DataManager.

(** * knowledge_test.py: the marathon *)

Module Marathon.

Import StatsManager KnowledgeTest.

(** [context.user_data["marathon"]]; an entry of ["history"] holds the
    type and the fact of the test that was graded, and the verdict. *)
Record marathon := MkMarathon {
  m_questions_count : Z;
  m_current_question : Z;
  m_correct_answers : Z;
  m_questions : list question_type;
  m_history : list (current_test * bool)
}.

(** The ["marathon"] key: missing, [None] (after [finish_marathon]), or
    the dictionary. *)
Inductive slot :=
  | NoKey
  | IsNone
  | Active (m : marathon).

(** What the handlers of one user work on: the [KnowledgeTest] object,
    [context.user_data] and the statistics manager. *)
Record session := Session {
  s_test : kt_state;
  s_user : user_data;
  s_marathon : slot;
  s_stats : manager
}.

Inductive error :=
  | TestError (e : exn)
  | ZeroDivisionError
  | KeyError
  | TypeError.

Inductive result (A : Type) :=
  | Returns (a : A)
  | Raises (e : error).
Arguments Returns {A} a.
Arguments Raises {A} e.

(** The messages, without their wording: the result message shows
    [correct_answers], [questions_count] and the history. *)
Inductive marathon_reply :=
  | NotInitialisedMessage
  | ProgressMessage (number total : Z) (question : reply)
  | MarathonResultMessage (correct_answers total_questions : Z)
                          (history : list (current_test * bool))
  | AnswerMessage (result : reply).

(** [x[i]] *)
Definition list_index {A} (x : list A) (i : Z) : option A :=
  if (0 <=? i)%Z then x !! Z.to_nat i
  else if (- Z.of_nat (length x) <=? i)%Z
       then x !! Z.to_nat (Z.of_nat (length x) + i)
       else None.

(** [context.user_data["marathon"][...]] *)
Definition the_marathon (s : slot) : result marathon :=
  match s with
  | NoKey => Raises KeyError
  | IsNone => Raises TypeError
  | Active m => Returns m
  end.

(** [finish_marathon]: the division by [total_questions] comes first;
    then the message, and the marathon and the state are cleared. *)
Definition finish_marathon (s : session) : result (session * marathon_reply) :=
  match the_marathon (s_marathon s) with
  | Raises e => Raises e
  | Returns marathon =>
    let correct_answers := m_correct_answers marathon in
    let total_questions := m_questions_count marathon in
    if (total_questions =? 0)%Z then Raises ZeroDivisionError
    else
      Returns (Session (s_test s) (UserData None (ud_current_test (s_user s)))
                    IsNone (s_stats s),
            MarathonResultMessage correct_answers total_questions
                                  (m_history marathon))
  end.

(** [next_marathon_question]; [r] is the draw of the test it starts. *)
Definition next_marathon_question (user_id : Z) (s : session) (r : nat)
    : result (session * marathon_reply) :=
  match s_marathon s with
  | NoKey | IsNone => Returns (s, NotInitialisedMessage)
  | Active marathon =>
    let current_question := m_current_question marathon in
    if (m_questions_count marathon <=? current_question)%Z
    then finish_marathon s
    else
      match list_index (m_questions marathon) current_question with
      | None => Raises (TestError IndexError)
      | Some question_type =>
        let ud := UserData (Some (py "marathon")) (ud_current_test (s_user s)) in
        match start_test question_type (s_test s) user_id ud r with
        | Raise e => Raises (TestError e)
        | Ok (st, ud, msg) =>
          Returns (Session st ud
                  (Active (MkMarathon (m_questions_count marathon)
                                      (current_question + 1)
                                      (m_correct_answers marathon)
                                      (m_questions marathon)
                                      (m_history marathon)))
                  (s_stats s),
                ProgressMessage (current_question + 1)
                                (m_questions_count marathon) msg)
        end
      end
  end.

(** [start_marathon]; [rs] are the draws of the sequence of types. *)
Definition start_marathon (user_id : Z) (s : session) (questions_count : Z)
    (rs : list nat) (r : nat) : result (session * marathon_reply) :=
  let marathon :=
    MkMarathon questions_count 0 0 (marathon_questions questions_count rs) [] in
  next_marathon_question user_id
    (Session (s_test s) (s_user s) (Active marathon) (s_stats s)) r.

(** [check_marathon_answer] *)
Definition check_marathon_answer (user_id : Z) (s : session)
    (user_answer : list N) (now : Z) : result (session * marathon_reply) :=
  let '(is_correct, msg, sm) :=
    check_answer (s_user s) user_answer user_id now (s_stats s) in
  let appended :=
    match ud_current_test (s_user s) with
    | Some current_test =>
      match the_marathon (s_marathon s) with
      | Raises e => Raises e
      | Returns m =>
        Returns (Active (MkMarathon (m_questions_count m) (m_current_question m)
                                 (m_correct_answers m) (m_questions m)
                                 (m_history m ++ [(current_test, is_correct)])))
      end
    | None => Returns (s_marathon s)
    end in
  match appended with
  | Raises e => Raises e
  | Returns sl =>
    let counted :=
      if is_correct
      then match the_marathon sl with
           | Raises e => Raises e
           | Returns m =>
             Returns (Active (MkMarathon (m_questions_count m) (m_current_question m)
                                      (m_correct_answers m + 1) (m_questions m)
                                      (m_history m)))
           end
      else Returns sl in
    match counted with
    | Raises e => Raises e
    | Returns sl => Returns (Session (s_test s) (s_user s) sl sm, AnswerMessage msg)
    end
  end.

(** What a user does during a marathon. *)
Inductive action :=
  | StartMarathon (questions_count : Z) (rs : list nat) (r : nat)
  | NextQuestion (r : nat)
  | Answer (user_answer : list N) (now : Z).

Definition marathon_step (user_id : Z) (s : session) (a : action)
    : result (session * marathon_reply) :=
  match a with
  | StartMarathon questions_count rs r => start_marathon user_id s questions_count rs r
  | NextQuestion r => next_marathon_question user_id s r
  | Answer user_answer now => check_marathon_answer user_id s user_answer now
  end.

(** The replies are listed oldest first; an exception ends the run_marathon. *)
Fixpoint run_marathon (user_id : Z) (s : session) (actions : list action)
    : result (session * list marathon_reply) :=
  match actions with
  | [] => Returns (s, [])
  | a :: rest =>
    match marathon_step user_id s a with
    | Raises e => Raises e
    | Returns (s, msg) =>
      match run_marathon user_id s rest with
      | Raises e => Raises e
      | Returns (s, msgs) => Returns (s, msg :: msgs)
      end
    end
  end.

(** A marathon played as the buttons lead: the start, then for each
    round an answer and the button for the next question. *)
Definition played (questions_count : Z) (rs : list nat) (r : nat)
    (rounds : list (list N * Z * nat)) : list action :=
  StartMarathon questions_count rs r
  :: flat_map (fun x : list N * Z * nat =>
                 [Answer x.1.1 x.1.2; NextQuestion x.2]) rounds.

(** The type of question a test belongs to. *)
Definition asked (t : current_test) : question_type :=
  match t with
  | TestDate _ => QDate
  | TestEvent _ => QEvent
  | TestFigure _ => QFigure
  | TestAchievement _ => QAchievement
  end.

(** The verdict of [check_answer] on a test. *)
Definition verdict (t : current_test) (user_answer : list N) : bool :=
  match t with
  | TestDate e => text_rule user_answer (ev_description e)
  | TestEvent e => check_date_answer user_answer (ev_date e)
  | TestFigure f => text_rule user_answer (fig_achievement f)
  | TestAchievement f => name_rule user_answer (fig_name f)
  end.

Definition count_true (l : list bool) : Z :=
  Z.of_nat (length (filter (fun b => b = true) l)).

(** The user's total in the statistics. *)
Definition total_of (sm : manager) (user_id : Z) : Z :=
  tests_total (default new_user_stats (stats sm !! str_of_int user_id)).

End Marathon.

Import Marathon.

(** * Properties *)

(** ** Strings *)

Section StringFacts.

Example py_cyrillic : py "для" = [1076; 1083; 1103]%N.
Proof. reflexivity. Qed.

Example split_ws_example :
  split_ws (py "  27 июля  1990 ") = [py "27"; py "июля"; py "1990"].
Proof. reflexivity. Qed.

Example split_on_example :
  split_on 45 (py "1941-1944") = [py "1941"; py "1944"]
  /\ split_on 45 (py "-a-") = [[]; py "a"; []].
Proof. split; reflexivity. Qed.

Example lower_example : lower (py "Тадеуш Костюшко, ABC") = py "тадеуш костюшко, abc".
Proof. reflexivity. Qed.

Example int_of_str_examples :
  int_of_str (py " 1941 ") = Some 1941%Z
  /\ int_of_str (py "+5") = Some 5%Z
  /\ int_of_str (py "1_0") = Some 10%Z
  /\ int_of_str (py "1__0") = None
  /\ int_of_str (py "") = None
  /\ int_of_str [178%N] = None
  /\ isdigit [178%N] = true.
Proof. repeat split; reflexivity. Qed.

Lemma rev_reverse {A} (l : list A) : rev l = reverse l.
Proof. unfold reverse. apply rev_alt. Qed.

Lemma contains_char_false_iff c s :
  contains_char c s = false <-> c ∉ s.
Proof.
  unfold contains_char. induction s as [|x s IH]; simpl.
  - split; [intros _; apply not_elem_of_nil | done].
  - rewrite orb_false_iff, IH, not_elem_of_cons, N.eqb_neq. tauto.
Qed.

Lemma contains_char_true_iff c s :
  contains_char c s = true <-> c ∈ s.
Proof.
  destruct (contains_char c s) eqn:E.
  - split; [intros _|done]. destruct (decide (c ∈ s)) as [|Hn]; [done|].
    apply contains_char_false_iff in Hn. congruence.
  - apply contains_char_false_iff in E. split; [done | tauto].
Qed.

(** Without the separator there is one field. *)
Lemma split_on_aux_no_sep sep cur s :
  sep ∉ s -> split_on_aux sep cur s = [rev cur ++ s].
Proof.
  revert cur. induction s as [|x s IH]; intros cur Hs; simpl.
  - by rewrite app_nil_r.
  - apply not_elem_of_cons in Hs as [Hx Hs].
    destruct (N.eqb_spec x sep) as [->|_]; [done|].
    rewrite IH by done. simpl. by rewrite <- app_assoc.
Qed.

Lemma split_on_two_fields sep s p1 p2 :
  split_on sep s = [p1; p2] -> sep ∈ s.
Proof.
  intros H. destruct (decide (sep ∈ s)) as [|Hn]; [done|].
  unfold split_on in H. rewrite split_on_aux_no_sep in H by done. discriminate.
Qed.

Lemma isdigit_no_dash s : isdigit s = true -> 45%N ∉ s.
Proof.
  unfold isdigit. destruct s as [|c s]; [done|].
  intros H Hin. rewrite forallb_forall in H.
  apply list_elem_of_In, H in Hin. vm_compute in Hin. discriminate.
Qed.

Lemma lstrip_no_space s :
  Forall (fun c => isspace_char c = false) s -> lstrip s = s.
Proof. destruct 1 as [|c s Hc _]; simpl; [done | by rewrite Hc]. Qed.

Lemma strip_no_space s :
  Forall (fun c => isspace_char c = false) s -> strip s = s.
Proof.
  intros H. unfold strip, rstrip. rewrite (lstrip_no_space s H).
  rewrite lstrip_no_space; [apply rev_involutive|].
  rewrite rev_reverse. by apply Forall_reverse.
Qed.

(** The words of [split()] hold no whitespace. *)
Lemma split_ws_aux_no_space cur s :
  Forall (fun c => isspace_char c = false) cur ->
  Forall (Forall (fun c => isspace_char c = false)) (split_ws_aux cur s).
Proof.
  revert cur. induction s as [|x s IH]; intros cur Hcur; simpl.
  - destruct cur; [done|]. constructor; [|done].
    rewrite rev_reverse. by apply Forall_reverse.
  - destruct (isspace_char x) eqn:Ex.
    + destruct cur; [by apply IH|].
      constructor; [|by apply IH].
      rewrite rev_reverse. by apply Forall_reverse.
    + apply IH. by constructor.
Qed.

Lemma map_strip_split_ws s : map strip (split_ws s) = split_ws s.
Proof.
  unfold split_ws.
  pose proof (split_ws_aux_no_space [] s (Forall_nil_2 _)) as H.
  induction H as [|w ws Hw _ IH]; simpl; [done|].
  by rewrite strip_no_space, IH.
Qed.

End StringFacts.

(** ** Keywords *)

Section KeywordFacts.

Import KnowledgeTest.

Lemma stop_words_short : Forall (fun w => length w <= 3) stop_words.
Proof. repeat constructor. Qed.

(** C9. In [_extract_keywords] the stop-word test never rejects a word:
    every stop word has at most three characters and only words of more
    than three are kept, so the extraction without the test returns the
    same list for every text. *)
Theorem extract_keywords_stop_words_redundant :
  Forall (fun w => length w <= 3) stop_words
  /\ forall text, extract_keywords text = extract_keywords_no_stop_words text.
Proof.
  split; [exact stop_words_short|].
  intros text. unfold extract_keywords, extract_keywords_no_stop_words.
  apply list_filter_iff. intros w. split; [tauto|].
  intros Hlen. split; [done|]. intros Hin.
  pose proof stop_words_short as Hs. rewrite Forall_forall in Hs.
  apply Hs in Hin. lia.
Qed.

End KeywordFacts.

(** ** The matcher: bounds of a block and emptying of the work list *)

Example matching_blocks_example :
  Difflib.get_matching_blocks (py "abxcd") (py "abcd")
  = Some [(0, 0, 2); (3, 2, 2); (5, 4, 0)].
Proof. vm_compute. reflexivity. Qed.

Example ratio_examples :
  Difflib.ratio (py "tide") (py "diet") = (2 # 8)%Q
  /\ Difflib.ratio (py "diet") (py "tide") = (4 # 8)%Q
  /\ Difflib.ratio (py "abcd") (py "bcde") = (6 # 8)%Q
  /\ Difflib.ratio [] [] = 1%Q.
Proof. repeat split; vm_compute; reflexivity. Qed.

Section MatcherBounds.

Import Difflib.

Variables (a b : list N) (b2j : gmap N (list nat)).

Lemma j2len_get_bounded alo i j2len j :
  row_bounded alo i j2len -> j2len_get j2len j <= i - alo.
Proof.
  intros H. destruct j as [|j]; simpl; [lia|].
  destruct (j2len !! j) as [v|] eqn:E; simpl; [by eapply H | lia].
Qed.

Lemma flm_inner_bounded alo i blo bhi j2len js st :
  alo <= i ->
  row_bounded alo i j2len ->
  row_bounded alo (S i) st.1 -> best_bounded alo (S i) st.2 ->
  let st' := flm_inner i blo bhi j2len js st in
  row_bounded alo (S i) st'.1 /\ best_bounded alo (S i) st'.2.
Proof.
  intros Hi Hprev. revert st.
  induction js as [|j js IH]; intros [new [[bi bj] bk]] Hnew Hbest; simpl; [done|].
  destruct (j <? blo); [by apply IH|].
  destruct (bhi <=? j); [done|].
  pose proof (j2len_get_bounded alo i j2len j Hprev) as Hk.
  apply IH; simpl.
  - intros j' v. rewrite lookup_insert. case_decide.
    + intros [= <-]. lia.
    + apply Hnew.
  - destruct (bk <? j2len_get j2len j + 1); [|done].
    unfold best_bounded; simpl. lia.
Qed.

Lemma flm_row_bounded alo i blo bhi st :
  alo <= i ->
  row_bounded alo i st.1 -> best_bounded alo i st.2 ->
  let st' := flm_row a b2j blo bhi st i in
  row_bounded alo (S i) st'.1 /\ best_bounded alo (S i) st'.2.
Proof.
  intros Hi Hrow [H1 H2]. unfold flm_row.
  apply flm_inner_bounded; try done.
  split; simpl; lia.
Qed.

Lemma flm_rows_bounded alo n blo bhi :
  row_bounded alo (alo + n)
    (foldl (flm_row a b2j blo bhi) (∅, (alo, blo, 0)) (seq alo n)).1
  /\ best_bounded alo (alo + n)
    (foldl (flm_row a b2j blo bhi) (∅, (alo, blo, 0)) (seq alo n)).2.
Proof.
  induction n as [|n [IH1 IH2]].
  - split; [done|]. unfold best_bounded; simpl. lia.
  - rewrite seq_S, foldl_snoc.
    replace (alo + S n) with (S (alo + n)) by lia.
    apply flm_row_bounded; [lia|done..].
Qed.

Lemma flm_scan_bounded alo ahi blo bhi :
  alo <= ahi -> best_bounded alo ahi (flm_scan a b2j alo ahi blo bhi).
Proof.
  intros H. unfold flm_scan.
  pose proof (flm_rows_bounded alo (ahi - alo) blo bhi) as [_ Hb].
  by replace (alo + (ahi - alo)) with ahi in Hb by lia.
Qed.

Lemma extend_left_bounded alo blo besti bestj bestsize :
  alo <= besti ->
  let r := extend_left a b alo blo besti bestj bestsize in
  alo <= r.1.1 /\ r.1.1 + r.2 = besti + bestsize.
Proof.
  revert bestj bestsize.
  induction besti as [|i IH]; intros bestj bestsize Hi; simpl; [lia|].
  destruct bestj as [|j]; simpl; [lia|].
  destruct (_ && _) eqn:E; simpl; [|lia].
  apply andb_true_iff in E as [E _]. apply andb_true_iff in E as [E _].
  apply Nat.ltb_lt in E.
  specialize (IH j (bestsize + 1)). simpl in IH. lia.
Qed.

Lemma extend_right_bounded ahi bhi besti bestj bestsize gap :
  besti + bestsize <= ahi ->
  let r := extend_right a b ahi bhi besti bestj bestsize gap in
  r.1.1 = besti /\ r.1.1 + r.2 <= ahi.
Proof.
  revert bestsize.
  induction gap as [|gap IH]; intros bestsize H; simpl; [lia|].
  destruct (_ && _) eqn:E; simpl; [|lia].
  apply andb_true_iff in E as [E _]. apply andb_true_iff in E as [E _].
  apply Nat.ltb_lt in E. apply IH. lia.
Qed.

(** The block [find_longest_match] returns lies in [a[alo:ahi]]. *)
Lemma find_longest_match_bounds alo ahi blo bhi :
  alo <= ahi ->
  let r := find_longest_match a b b2j alo ahi blo bhi in
  alo <= r.1.1 /\ r.1.1 + r.2 <= ahi.
Proof.
  intros H. unfold find_longest_match.
  pose proof (flm_scan_bounded alo ahi blo bhi H) as [H1 H2].
  destruct (flm_scan a b2j alo ahi blo bhi) as [[i0 j0] k0]. simpl in H1, H2.
  pose proof (extend_left_bounded alo blo i0 j0 k0 H1) as [H3 H4].
  destruct (extend_left a b alo blo i0 j0 k0) as [[i1 j1] k1]. simpl in H3, H4.
  assert (i1 + k1 <= ahi) as H5 by lia.
  pose proof (extend_right_bounded ahi bhi i1 j1 k1 (ahi - (i1 + k1)) H5) as [H6 H7].
  simpl. lia.
Qed.

Lemma queue_weight_cons alo ahi blo bhi queue :
  queue_weight ((alo, ahi, blo, bhi) :: queue)
  = 2 * (ahi - alo) + 1 + queue_weight queue.
Proof. reflexivity. Qed.

(** A pass takes an entry off the work list and adds at most two, which
    weigh less together, so the passes end. *)
Lemma blocks_loop_some fuel queue acc :
  Forall entry_ok queue ->
  queue_weight queue <= fuel ->
  is_Some (blocks_loop a b b2j fuel queue acc).
Proof.
  revert queue acc.
  induction fuel as [|fuel IH]; intros queue acc Hok Hw;
    destruct queue as [|[[[alo ahi] blo] bhi] q]; [done| |done|].
  - rewrite queue_weight_cons in Hw. lia.
  - apply Forall_cons in Hok as [Hle Hok]. unfold entry_ok in Hle. simpl in Hle.
    rewrite queue_weight_cons in Hw.
    cbn [blocks_loop].
    pose proof (find_longest_match_bounds alo ahi blo bhi Hle) as [H1 H2].
    destruct (find_longest_match a b b2j alo ahi blo bhi) as [[i j] k].
    cbn [fst snd] in H1, H2.
    destruct (Nat.eqb_spec k 0) as [->|Hk].
    + apply IH; [done | lia].
    + apply IH.
      * destruct (_ && _); destruct (_ && _); repeat constructor;
          try done; unfold entry_ok; simpl; lia.
      * destruct (_ && _); destruct (_ && _);
          rewrite ?queue_weight_cons; lia.
Qed.

End MatcherBounds.

(** X3. [get_matching_blocks] always returns: the passes allowed are enough. *)
Lemma get_matching_blocks_total a b :
  is_Some (Difflib.get_matching_blocks a b).
Proof.
  unfold Difflib.get_matching_blocks.
  destruct (blocks_loop_some a b (Difflib.chain_b b) (2 * length a + 1)
              [(0, length a, 0, length b)] []) as [bl Hbl].
  - repeat constructor. unfold entry_ok. simpl. lia.
  - rewrite queue_weight_cons. unfold queue_weight. simpl. lia.
  - rewrite Hbl. simpl. eauto.
Qed.

(** ** The matcher: the positions recorded by [__chain_b] *)

Section ChainFacts.

Import Difflib.

Lemma elem_of_positions_from x off b j :
  j ∈ positions_from x off b <-> off <= j /\ b !! (j - off) = Some x.
Proof.
  revert off. induction b as [|y b IH]; intros off; simpl.
  - rewrite elem_of_nil. split; [done | by intros [_ ?]].
  - assert (j ∈ positions_from x (S off) b
            <-> off < j /\ (y :: b) !! (j - off) = Some x) as Hrec.
    { rewrite IH. split.
      - intros [H1 H2]. split; [lia|].
        by replace (j - off) with (S (j - S off)) by lia.
      - intros [H1 H2]. split; [lia|].
        by replace (j - off) with (S (j - S off)) in H2 by lia. }
    case_decide as Hxy.
    + rewrite elem_of_cons, Hrec. split.
      * intros [->|[H1 H2]]; [|split; [lia|done]].
        split; [lia|]. rewrite Nat.sub_diag. simpl. by subst.
      * intros [H1 H2]. destruct (decide (j = off)); [by left|].
        right. split; [lia|done].
    + rewrite Hrec. split.
      * intros [H1 H2]. split; [lia|done].
      * intros [H1 H2]. split; [|done].
        destruct (decide (j = off)) as [->|]; [|lia].
        rewrite Nat.sub_diag in H2. simpl in H2. congruence.
Qed.

Lemma positions_from_sorted x off b :
  StronglySorted lt (positions_from x off b).
Proof.
  revert off. induction b as [|y b IH]; intros off; simpl; [constructor|].
  case_decide; [|apply IH].
  constructor; [apply IH|].
  apply Forall_forall. intros j Hj.
  apply elem_of_positions_from in Hj. lia.
Qed.

Lemma positions_from_nil x off b : x ∉ b -> positions_from x off b = [].
Proof.
  revert off. induction b as [|y b IH]; intros off Hx; simpl; [done|].
  apply not_elem_of_cons in Hx as [Hxy Hx]. case_decide; [done|]. by apply IH.
Qed.

Lemma b2j_fold_lookup x b off m :
  foldl b2j_add m (imap (fun i => pair (off + i)) b) !! x
  = match positions_from x off b with
    | [] => m !! x
    | js => Some (default [] (m !! x) ++ js)
    end.
Proof.
  revert off m. induction b as [|y b IH]; intros off m; [done|].
  rewrite imap_cons. cbn [foldl positions_from].
  rewrite (imap_ext _ (fun i => pair (S off + i)))
    by (intros; simpl; f_equal; lia).
  rewrite IH. unfold b2j_add at 1 2. cbn [fst snd].
  rewrite Nat.add_0_r, lookup_insert.
  destruct (decide (x = y)) as [->|Hxy].
  - rewrite decide_True by done. simpl.
    destruct (positions_from y (S off) b); [done|].
    by rewrite <- app_assoc.
  - by rewrite decide_False by done.
Qed.

Lemma b2j_full_lookup x b :
  b2j_full b !! x
  = match positions_from x 0 b with [] => None | js => Some js end.
Proof.
  unfold b2j_full.
  rewrite (imap_ext _ (fun i => pair (0 + i))) by done.
  rewrite b2j_fold_lookup. by destruct (positions_from x 0 b).
Qed.

(** What the scan finds for an element [x] of [a]: nothing when [x] is
    popular in [b], all the positions of [x] in [b] otherwise. *)
Lemma chain_b_positions x b :
  default [] (chain_b b !! x)
  = if decide (x ∈ bpopular b) then [] else positions_from x 0 b.
Proof.
  unfold chain_b.
  destruct (filter _ (b2j_full b) !! x) as [js|] eqn:E; simpl.
  - apply map_lookup_filter_Some in E as [E Hp]. simpl in Hp.
    rewrite decide_False by done.
    rewrite b2j_full_lookup in E.
    destruct (positions_from x 0 b); congruence.
  - case_decide as Hp; [done|].
    apply map_lookup_filter_None in E as [E|E].
    + rewrite b2j_full_lookup in E.
      destruct (positions_from x 0 b); congruence.
    + destruct (b2j_full b !! x) as [js|] eqn:E2.
      * exfalso. by apply (E js).
      * rewrite b2j_full_lookup in E2.
        destruct (positions_from x 0 b); congruence.
Qed.

End ChainFacts.

(** ** The matcher on two equal sequences *)

Section EqualSequences.

Import Difflib.

Variable a : list N.

Lemma run_plain i : plain a i = true -> run a i = S (run_before a i).
Proof. intros H. destruct i; simpl; by rewrite H. Qed.

Lemma run_not_plain i : plain a i = false -> run a i = 0.
Proof. intros H. destruct i; simpl; by rewrite H. Qed.

Lemma run_le i : run a i <= S i.
Proof. induction i as [|i IH]; simpl; destruct (plain a _); lia. Qed.

Lemma j2len_get_run i j2len j :
  row_ok a i j2len ->
  j2len_get j2len j <= run_before a i /\ j2len_get j2len j <= run_before a j.
Proof.
  intros [H _]. destruct j as [|j]; simpl; [lia|].
  destruct (j2len !! j) as [v|] eqn:E; simpl; [by apply H | lia].
Qed.

Lemma flm_inner_diag i prev js new bi bj bk :
  plain a i = true ->
  row_ok a i prev ->
  StronglySorted lt js ->
  (forall j, j ∈ js -> j < length a /\ plain a j = true) ->
  (forall j v, new !! j = Some v -> v <= run a i /\ v <= run a j) ->
  (i ∈ js \/ (default 0 (new !! i) = run a i /\ run a i <= bk)) ->
  bi = bj -> (forall i', i' < i -> run a i' <= bk) -> bi + bk <= S i ->
  let st' := flm_inner i 0 (length a) prev js (new, (bi, bj, bk)) in
  row_ok a (S i) st'.1 /\ diag_ok a (S i) st'.2.
Proof.
  intros Hi Hprev. revert new bi bj bk.
  induction js as [|j js IH]; intros new bi bj bk Hsort Hjs Hnew Hdone Hd Hruns Hin.
  - destruct Hdone as [Hdone|[Hdone1 Hdone2]]; [by apply elem_of_nil in Hdone|].
    split; [split; [exact Hnew | exact Hdone1] |].
    split; [done | split; [|done]].
    intros i' Hi'. destruct (decide (i' = i)) as [->|]; [done|]. apply Hruns. lia.
  - cbn [flm_inner]. rewrite (proj2 (Nat.ltb_ge _ _)) by lia.
    destruct (Hjs j) as [Hjn Hj]; [by left|].
    destruct (Nat.leb_spec (length a) j) as [|_]; [lia|].
    apply StronglySorted_inv in Hsort as [Hsort Hlt].
    rewrite Forall_forall in Hlt.
    destruct (j2len_get_run i prev j Hprev) as [Hk1 Hk2].
    pose proof (run_plain i Hi) as Hri. pose proof (run_plain j Hj) as Hrj.
    assert (forall j', j' ∈ js -> j' < length a /\ plain a j' = true) as Hjs'.
    { intros j' Hj'. apply Hjs. by right. }
    assert (forall j' v, <[j := j2len_get prev j + 1]> new !! j' = Some v ->
                    v <= run a i /\ v <= run a j') as Hnew'.
    { intros j' v. rewrite lookup_insert. case_decide as E.
      - subst j'. intros [= <-]. lia.
      - apply Hnew. }
    destruct (lt_eq_lt_dec j i) as [[Hlt' | Heq] | Hgt]; [| subst j |].
    + (* left of the diagonal: the run ending at [j] was seen *)
      pose proof (Hruns j Hlt') as Hseen.
      rewrite (proj2 (Nat.ltb_ge _ _)) by lia.
      apply IH; try done.
      destruct Hdone as [Hdone|Hdone].
      * apply elem_of_cons in Hdone as [->|Hdone]; [lia | by left].
      * right. by rewrite lookup_insert_ne by lia.
    + (* on the diagonal *)
      assert (j2len_get prev i + 1 = run a i) as Hk.
      { destruct Hprev as [_ Hp]. lia. }
      rewrite Hk in *.
      destruct (Nat.ltb_spec bk (run a i)).
      * apply IH; try done; try lia.
        -- right. rewrite lookup_insert_eq. simpl. lia.
        -- intros i' Hi'. specialize (Hruns i' Hi'). lia.
        -- pose proof (run_le i). lia.
      * apply IH; try done.
        right. rewrite lookup_insert_eq. simpl. lia.
    + (* right of the diagonal: the diagonal entry came before *)
      destruct Hdone as [Hdone|[Hdone1 Hdone2]].
      { apply elem_of_cons in Hdone as [->|Hdone]; [lia|].
        apply Hlt in Hdone. lia. }
      rewrite (proj2 (Nat.ltb_ge _ _)) by lia.
      apply IH; try done.
      right. by rewrite lookup_insert_ne by lia.
Qed.

Lemma flm_row_diag i st :
  row_ok a i st.1 -> diag_ok a i st.2 ->
  row_ok a (S i) (flm_row a (chain_b a) 0 (length a) st i).1
  /\ diag_ok a (S i) (flm_row a (chain_b a) 0 (length a) st i).2.
Proof.
  destruct st as [prev [[bi bj] bk]]. cbn [fst snd].
  intros Hprev (Hd & Hruns & Hin). cbn [fst snd] in Hd, Hruns, Hin.
  unfold flm_row. cbn [fst snd].
  assert (plain a i = false ->
          row_ok a (S i) ∅ /\ diag_ok a (S i) (bi, bj, bk)) as Hskip.
  { intros Hi. pose proof (run_not_plain i Hi) as Hr. split.
    - split; [intros j v; by rewrite lookup_empty|]. simpl. by rewrite lookup_empty.
    - split; [done|]. split; [|simpl; lia].
      intros i' Hi'. destruct (decide (i' = i)) as [->|]; [simpl; lia|].
      apply Hruns. lia. }
  destruct (a !! i) as [x|] eqn:Hx; cbn [mbind option_bind].
  - rewrite chain_b_positions. case_decide as Hpop.
    + apply Hskip. unfold plain. rewrite Hx. by apply bool_decide_eq_false_2; intros ?.
    + assert (forall j, j ∈ positions_from x 0 a -> a !! j = Some x) as Hpos.
      { intros j Hj. apply elem_of_positions_from in Hj as [_ Hj].
        by rewrite Nat.sub_0_r in Hj. }
      assert (forall j, a !! j = Some x -> plain a j = true) as Hplain.
      { intros j Hj. unfold plain. rewrite Hj. by apply bool_decide_eq_true_2. }
      apply flm_inner_diag; try done.
      * by apply Hplain.
      * apply positions_from_sorted.
      * intros j Hj. apply Hpos in Hj. split; [by eapply lookup_lt_Some | by apply Hplain].
      * left. apply elem_of_positions_from. split; [lia|]. by rewrite Nat.sub_0_r.
      * lia.
  - apply Hskip. unfold plain. by rewrite Hx.
Qed.

Lemma flm_rows_diag n :
  row_ok a n (foldl (flm_row a (chain_b a) 0 (length a)) (∅, (0, 0, 0)) (seq 0 n)).1
  /\ diag_ok a n (foldl (flm_row a (chain_b a) 0 (length a)) (∅, (0, 0, 0)) (seq 0 n)).2.
Proof.
  induction n as [|n [IH1 IH2]].
  - cbn [seq foldl fst snd].
    split; [split; [intros j v; by rewrite lookup_empty | done]|].
    split; [done|]. split; [intros; lia | simpl; lia].
  - rewrite seq_S, foldl_snoc. by apply flm_row_diag.
Qed.

Lemma extend_left_diag d k : extend_left a a 0 0 d d k = (0, 0, k + d).
Proof.
  revert k. induction d as [|d IH]; intros k; simpl; [by rewrite Nat.add_0_r|].
  rewrite bool_decide_eq_true_2 by done. simpl. rewrite IH. f_equal. lia.
Qed.

Lemma extend_right_diag k gap :
  k + gap = length a ->
  extend_right a a (length a) (length a) 0 0 k gap = (0, 0, length a).
Proof.
  revert k. induction gap as [|gap IH]; intros k Hk; simpl.
  - f_equal. lia.
  - rewrite bool_decide_eq_true_2 by done.
    destruct (Nat.ltb_spec k (length a)); [|lia]. simpl. apply IH. lia.
Qed.

(** Between a sequence and itself the longest match is the whole
    sequence, popular elements or not. *)
Lemma find_longest_match_self :
  find_longest_match a a (chain_b a) 0 (length a) 0 (length a)
  = (0, 0, length a).
Proof.
  unfold find_longest_match, flm_scan. rewrite Nat.sub_0_r.
  destruct (flm_rows_diag (length a)) as [_ (Hd & _ & Hin)].
  destruct (foldl _ _ _) as [row [[bi bj] bk]]. cbn [fst snd] in *. subst bj.
  rewrite extend_left_diag. rewrite Nat.add_0_l.
  apply extend_right_diag. lia.
Qed.

Lemma get_matching_blocks_self :
  get_matching_blocks a a
  = Some (if length a =? 0 then [(0, 0, 0)]
          else [(0, 0, length a); (length a, length a, 0)]).
Proof.
  unfold get_matching_blocks.
  replace (2 * length a + 1) with (S (2 * length a)) by lia.
  cbn [blocks_loop]. rewrite find_longest_match_self.
  destruct (Nat.eqb_spec (length a) 0) as [E|E].
  - rewrite E. reflexivity.
  - rewrite !Nat.ltb_irrefl. cbn [andb].
    destruct (2 * length a); cbn [blocks_loop mbind option_bind app];
      unfold block_sort, collapse; cbn [foldr block_insert foldl collapse_step];
      cbn [Nat.add Nat.eqb andb];
      destruct (Nat.eqb_spec (length a) 0); try lia; reflexivity.
Qed.

Lemma ratio_self : (ratio a a == 1)%Q.
Proof.
  unfold ratio. rewrite get_matching_blocks_self. unfold calculate_ratio.
  destruct (Nat.eqb_spec (length a) 0) as [E|E].
  - rewrite E. reflexivity.
  - destruct (Nat.eqb_spec (length a + length a) 0); [lia|].
    cbn [map sum_list fold_right snd].
    unfold Qeq. cbn [Qnum Qden].
    unfold id.
    rewrite <- (positive_nat_Z (Pos.of_nat (length a + length a))).
    rewrite Nat2Pos.id by done. lia.
Qed.

End EqualSequences.

(** ** The similarity engine *)

Section SimilarityFacts.

Import Difflib KnowledgeTest.

Lemma ge_float_iff x y : ge_float x y = true <-> (y <= x)%Q.
Proof. unfold ge_float. apply Qle_bool_iff. Qed.

Lemma gt_float_iff x y : gt_float x y = true <-> (y < x)%Q.
Proof.
  unfold gt_float. rewrite negb_true_iff, <- not_true_iff_false, Qle_bool_iff.
  split; [apply Qnot_le_lt | apply Qlt_not_le].
Qed.

Lemma calculate_similarity_self s : (calculate_similarity s s == 1)%Q.
Proof. unfold calculate_similarity. apply ratio_self. Qed.

(** C5, commutativity: the similarity of two strings is not symmetric,
    the matcher anchors its blocks on the first string. *)
Lemma similarity_not_commutative :
  ~ (calculate_similarity (py "tide") (py "diet")
     == calculate_similarity (py "diet") (py "tide"))%Q.
Proof. vm_compute. discriminate. Qed.

(** C5 (the part that holds). The similarity of a string with itself is
    1.0, for every string, the empty one and those long enough for the
    matcher to set popular characters aside included. *)
Theorem similarity_reflexive :
  forall s, (calculate_similarity s s == 1)%Q.
Proof. exact calculate_similarity_self. Qed.

Lemma part_matched_existsb correct_part user_parts :
  part_matched correct_part user_parts
  = existsb (fun user_part =>
               gt_float (calculate_similarity user_part correct_part) (8 # 10))
            user_parts.
Proof.
  induction user_parts as [|p ps IH]; simpl; [done|].
  rewrite IH. by destruct (gt_float _ _).
Qed.

Lemma matched_parts_count user_parts correct_parts k :
  foldl (fun matched correct_part =>
           if part_matched correct_part user_parts then matched + 1 else matched)
        k correct_parts
  = k + length (List.filter
                  (fun correct_part =>
                     existsb (fun user_part =>
                                gt_float (calculate_similarity user_part correct_part)
                                         (8 # 10))
                             user_parts)
                  correct_parts).
Proof.
  revert k. induction correct_parts as [|x l IH]; intros k; simpl; [lia|].
  rewrite IH, part_matched_existsb. destruct (existsb _ _); simpl; lia.
Qed.

(** C6. [_calculate_name_similarity] returns 1.0 for names equal after
    lowercasing; otherwise the number of parts of the correct name that
    some part of the user's name matches with a similarity above 0.8,
    divided by the number of parts of the correct name, and 0 when the
    correct name has no part. One of the two parts of "Тадеуш Костюшко"
    is matched by "Костюшко": 0.5. *)
Theorem name_similarity_as_specified :
  (forall user_name correct_name,
     calculate_name_similarity user_name correct_name
     = name_similarity_spec user_name correct_name)
  /\ calculate_name_similarity (py "Костюшко") (py "Тадеуш Костюшко") = (1 # 2)%Q
  /\ calculate_name_similarity (py "Тадеуш Костюшко") (py "Тадеуш Костюшко") = 1%Q.
Proof.
  split; [|split; vm_compute; reflexivity].
  intros u c. unfold calculate_name_similarity, name_similarity_spec, str_eqb.
  destruct (decide (lower u = lower c)) as [E|E].
  - by rewrite bool_decide_eq_true_2.
  - rewrite bool_decide_eq_false_2 by done.
    rewrite !map_strip_split_ws.
    rewrite matched_parts_count.
    by destruct (split_ws (lower c)).
Qed.

End SimilarityFacts.

(** ** Grading *)

Section GradingFacts.

Import Difflib KnowledgeTest.

Lemma starts_with_take p s : starts_with p s = true <-> take (length p) s = p.
Proof.
  revert s. induction p as [|x p IH]; intros s; [done|].
  destruct s as [|y s]; cbn [starts_with length take]; [done|].
  rewrite andb_true_iff, N.eqb_eq, IH. split; [by intros [-> ->]|].
  intros H. by injection H as -> ->.
Qed.

(** The substring test of the code finds a word exactly where the
    specification's wording does. *)
Lemma contains_is_substring p s : contains p s = true <-> is_substring p s.
Proof.
  unfold is_substring. rewrite Exists_exists.
  induction s as [|c s IH]; cbn [contains].
  - rewrite orb_false_r, starts_with_take. split.
    + intros H. exists 0. split; [|done]. apply elem_of_seq. simpl. lia.
    + intros (i & _ & H). by rewrite drop_nil in H.
  - rewrite orb_true_iff, starts_with_take, IH. split.
    + intros [H|(i & Hi & H)].
      * exists 0. split; [|done]. apply elem_of_seq. simpl. lia.
      * exists (S i). split; [|done]. apply elem_of_seq in Hi. apply elem_of_seq.
        cbn [length] in *. lia.
    + intros ([|i] & Hi & H); [by left|]. right. exists i. split; [|done].
      apply elem_of_seq in Hi. apply elem_of_seq. cbn [length] in *. lia.
Qed.

Lemma is_substring_infix p s :
  is_substring p s <-> exists pre post, s = pre ++ p ++ post.
Proof.
  unfold is_substring. rewrite Exists_exists. split.
  - intros (i & _ & H). exists (take i s), (drop (length p) (drop i s)).
    rewrite <- (take_drop i s) at 1. f_equal.
    rewrite <- (take_drop (length p) (drop i s)) at 1. by rewrite H.
  - intros (pre & post & ->). exists (length pre). split.
    + apply elem_of_seq. rewrite !length_app. lia.
    + by rewrite drop_app_length, take_app_length.
Qed.

Lemma found_keywords_count answer keywords n :
  foldl (fun found keyword =>
           if contains keyword answer then found + 1 else found) n keywords
  = n + length (filter (fun keyword => is_substring keyword answer) keywords).
Proof.
  revert n. induction keywords as [|k ks IH]; intros n; cbn [foldl].
  - by rewrite Nat.add_0_r.
  - rewrite IH, filter_cons.
    destruct (contains k answer) eqn:E.
    + rewrite decide_True by (by apply contains_is_substring).
      cbn [length]. lia.
    + rewrite decide_False; [done|].
      intros H%contains_is_substring. congruence.
Qed.

Lemma check_keywords_as_specified answer keywords :
  check_keywords answer keywords = keyword_match_fraction_spec answer keywords.
Proof.
  unfold check_keywords, keyword_match_fraction_spec.
  destruct keywords as [|k ks]; [done|].
  by rewrite found_keywords_count.
Qed.

(** C4. An answer to a question by date is marked correct exactly when
    its similarity with the event's description is at least 0.6 or the
    keyword share of the specification, computed for the answer and the
    keywords of the description, is at least 0.7; an answer to a
    question by figure name likewise, against the achievement. The
    share [_check_keywords] returns is the one the specification words,
    for every answer and every list of keywords, and both are 0 for the
    empty list. *)
Theorem text_answer_rule :
  forall state answer user_id now sm,
    (forall e,
       (check_answer (UserData state (Some (TestDate e))) answer user_id now sm).1.1
         = true
       <-> (6 # 10 <= calculate_similarity answer (ev_description e))%Q
           \/ (7 # 10 <= keyword_match_fraction_spec answer
                           (extract_keywords (ev_description e)))%Q)
    /\ (forall f,
       (check_answer (UserData state (Some (TestFigure f))) answer user_id now sm).1.1
         = true
       <-> (6 # 10 <= calculate_similarity answer (fig_achievement f))%Q
           \/ (7 # 10 <= keyword_match_fraction_spec answer
                           (extract_keywords (fig_achievement f)))%Q)
    /\ (forall keywords,
          check_keywords answer keywords
          = keyword_match_fraction_spec answer keywords)
    /\ keyword_match_fraction_spec answer [] = 0%Q
    /\ check_keywords answer [] = 0%Q.
Proof.
  intros state answer user_id now sm.
  split; [|split; [|split; [|split; reflexivity]]].
  - intros e. cbn [check_answer ud_current_test fst]. unfold text_rule.
    by rewrite orb_true_iff, !ge_float_iff, check_keywords_as_specified.
  - intros f. cbn [check_answer ud_current_test fst]. unfold text_rule.
    by rewrite orb_true_iff, !ge_float_iff, check_keywords_as_specified.
  - apply check_keywords_as_specified.
Qed.


(** C3. Against a correct answer made of two integer bounds around one
    dash, a purely numeric answer is accepted exactly when its integer
    lies between the bounds, both included; the four examples of the
    specification evaluate as it says. *)
Theorem date_range_accepts_years_inside
    (user_answer correct_answer p1 p2 : list N) (start stop year : Z)
    (Hsplit : split_on 45 (lower (strip correct_answer)) = [p1; p2])
    (Hstart : int_of_str p1 = Some start)
    (Hstop : int_of_str p2 = Some stop)
    (Hdigits : isdigit (lower (strip user_answer)) = true)
    (Hyear : int_of_str (lower (strip user_answer)) = Some year) :
  (check_date_answer user_answer correct_answer = true
   <-> (start <= year <= stop)%Z)
  /\ check_date_answer (py "1941-1944") (py "1941-1944") = true
  /\ check_date_answer (py "1942") (py "1941-1944") = true
  /\ check_date_answer (py "1569") (py "1569") = true
  /\ check_date_answer (py "1940") (py "1941-1944") = false.
Proof.
  split; [|repeat split; vm_compute; reflexivity].
  unfold check_date_answer.
  set (u := lower (strip user_answer)) in *.
  set (c := lower (strip correct_answer)) in *.
  pose proof (split_on_two_fields _ _ _ _ Hsplit) as Hdash.
  unfold str_eqb. rewrite bool_decide_eq_false_2.
  2:{ intros E. apply isdigit_no_dash in Hdigits. by rewrite E in Hdigits. }
  rewrite (proj2 (contains_char_true_iff _ _) Hdash).
  unfold date_range_rule. rewrite Hsplit. cbn [unpack_two_ints].
  rewrite Hstart, Hstop. cbn [mbind option_bind]. rewrite Hdigits, Hyear.
  cbn [mbind option_bind]. rewrite andb_true_iff, !Z.leb_le. tauto.
Qed.

Lemma date_range_accepts_years_inside_witness :
  (check_date_answer (py " １９４２ ") (py "1941-1944") = true
   <-> (1941 <= 1942 <= 1944)%Z)
  /\ check_date_answer (py "1941-1944") (py "1941-1944") = true
  /\ check_date_answer (py "1942") (py "1941-1944") = true
  /\ check_date_answer (py "1569") (py "1569") = true
  /\ check_date_answer (py "1940") (py "1941-1944") = false.
Proof.
  apply (date_range_accepts_years_inside (py " １９４２ ") (py "1941-1944")
           (py "1941") (py "1944") 1941 1944 1942); vm_compute; reflexivity.
Defined.

(** The digits of other scripts are digits for [isdigit] and for [int]:
    full-width and Arabic-Indic years are read as numbers by the range
    rule, compared as strings by the rule for two numeric answers, and
    found as numeric tokens by the rule for dates with a month. *)
Example dates_in_other_digits :
  check_date_answer (py "１９４２") (py "1941-1944") = true
  /\ check_date_answer (py "1942") (py "١٩٤١-١٩٤٤") = true
  /\ check_date_answer (py "１９４１-１９４４") (py "1941-1944") = true
  /\ date_range_rule (py "１９４１-１９４４") (py "1941-1944") = Some (Some true)
  /\ check_date_answer (py "１９４２") (py "１９４２0") = false
  /\ check_date_answer (py "２７ мая") (py "２７ июля １９９０") = true
  /\ date_range_rule (py "²") (py "1941-1944") = None.
Proof. repeat split; vm_compute; reflexivity. Qed.




End GradingFacts.

(** ** The marathon's sequence *)

Section MarathonFacts.

Import KnowledgeTest.

Lemma insert_swap_perm {A} (l : list A) k y z :
  l !! k = Some y -> y :: <[k := z]> l ≡ₚ z :: l.
Proof.
  revert k. induction l as [|w l IH]; intros [|k] H; simplify_eq/=.
  - apply perm_swap.
  - rewrite perm_swap, (IH k H). apply perm_swap.
Qed.

Lemma swap_perm {A} (x : list A) i j : swap x i j ≡ₚ x.
Proof.
  unfold swap.
  destruct (x !! i) as [xi|] eqn:Hi; [|done].
  destruct (x !! j) as [xj|] eqn:Hj; [|done].
  revert i j Hi Hj. induction x as [|w x IH]; intros [|i] [|j] Hi Hj; simplify_eq/=.
  - done.
  - by apply insert_swap_perm.
  - by apply insert_swap_perm.
  - by rewrite IH.
Qed.

Lemma shuffle_from_perm {A} i (x : list A) rs : (shuffle_from i x rs).1 ≡ₚ x.
Proof.
  revert x rs. induction i as [|i IH]; intros x rs; simpl; [done|].
  by rewrite IH, swap_perm.
Qed.

Lemma random_shuffle_perm {A} (x : list A) rs : (random_shuffle x rs).1 ≡ₚ x.
Proof. apply shuffle_from_perm. Qed.

Lemma fill_random_app n questions rs :
  exists extra,
    (fill_random n questions rs).1 = questions ++ extra /\ length extra = n.
Proof.
  revert questions rs. induction n as [|n IH]; intros questions rs;
    cbn [fill_random fst].
  - exists []. by rewrite app_nil_r.
  - destruct (IH (questions ++ [nth (hd 0 rs mod 4) question_types QDate]) (tl rs))
      as (extra & -> & Hlen).
    eexists (_ :: extra). rewrite <- app_assoc. split; [done|]. simpl. lia.
Qed.

Lemma every_question_type t : t ∈ question_types.
Proof. unfold question_types. destruct t; set_solver. Qed.

(** C8. For a requested count [N] (a count: not negative) the sequence
    of question types [start_marathon] builds has exactly [N] entries,
    and with [N >= 4] each of the four types occurs in it, whatever the
    random draws. *)
Theorem marathon_sequence_length_and_coverage
    (questions_count : Z) (rs : list nat) (Hcount : (0 <= questions_count)%Z) :
  length (marathon_questions questions_count rs) = Z.to_nat questions_count
  /\ ((4 <= questions_count)%Z ->
      forall t, t ∈ marathon_questions questions_count rs).
Proof.
  unfold marathon_questions.
  pose proof (random_shuffle_perm question_types rs) as Hbase.
  destruct (random_shuffle question_types rs) as [base rs1]. cbn [fst] in Hbase.
  assert (length base = 4) as Hlen by (by rewrite Hbase).
  destruct (fill_random_app (Z.to_nat (questions_count - Z.of_nat (length base)))
              base rs1) as (extra & Hfill & Hextra).
  destruct (fill_random _ base rs1) as [questions rs2]. cbn [fst] in Hfill.
  subst questions. unfold slice_to.
  destruct (Z.leb_spec 0 questions_count) as [_|]; [|lia].
  split.
  - rewrite random_shuffle_perm, length_take, length_app. lia.
  - intros Hfour t. rewrite random_shuffle_perm.
    rewrite take_app_ge by lia. apply elem_of_app. left.
    rewrite Hbase. apply every_question_type.
Qed.

Lemma marathon_sequence_length_and_coverage_witness :
  length (marathon_questions 5 [3; 1; 0; 2; 7; 9; 1; 0; 1]) = Z.to_nat 5
  /\ ((4 <= 5)%Z ->
      forall t, t ∈ marathon_questions 5 [3; 1; 0; 2; 7; 9; 1; 0; 1]).
Proof.
  apply (marathon_sequence_length_and_coverage 5 [3; 1; 0; 2; 7; 9; 1; 0; 1]).
  lia.
Defined.

End MarathonFacts.

(** ** The question selector *)

Section SelectorFacts.

Import KnowledgeTest.

Lemma random_choice_empty {A} r : random_choice (@nil A) r = Raise IndexError.
Proof. reflexivity. Qed.

Lemma random_choice_nonempty {A} (l : list A) r :
  l ≠ [] -> exists x, random_choice l r = Ok x /\ x ∈ l.
Proof.
  intros Hl. unfold random_choice.
  assert (r mod length l < length l) as Hlt.
  { apply Nat.mod_upper_bound. by destruct l. }
  apply lookup_lt_is_Some in Hlt as [x Hx].
  exists x. rewrite Hx. split; [done|]. by eapply list_elem_of_lookup_2.
Qed.

Lemma filter_nil_all {A} (P : A -> Prop) `{!forall x, Decision (P x)} (l : list A) :
  filter P l = [] -> forall x, x ∈ l -> ~ P x.
Proof.
  intros Hnil x Hx HP.
  assert (x ∈ filter P l) as Hin by (by apply list_elem_of_filter).
  rewrite Hnil in Hin. by apply elem_of_nil in Hin.
Qed.

Lemma pick_unused_empty {A} (fact_id : A -> Z) used user_id r :
  pick_unused fact_id used user_id [] r = Raise IndexError.
Proof. unfold pick_unused. by destruct (used !! user_id). Qed.

(** One selection from a pool that is not empty: either every fact was
    consumed, the list restarts with the chosen one; or the chosen fact
    was not consumed and is appended. *)
Lemma pick_unused_ok {A} (fact_id : A -> Z) used user_id all_facts r :
  all_facts ≠ [] ->
  exists x consumed',
    pick_unused fact_id used user_id all_facts r
    = Ok (x, <[user_id := consumed']> used)
    /\ x ∈ all_facts
    /\ (((forall y, y ∈ all_facts -> fact_id y ∈ default [] (used !! user_id))
         /\ consumed' = [fact_id x])
        \/ ((fact_id x ∉ default [] (used !! user_id))
            /\ consumed' = default [] (used !! user_id) ++ [fact_id x])).
Proof.
  intros Hall. unfold pick_unused.
  set (used1 := match used !! user_id with
                | None => <[user_id := []]> used
                | Some _ => used
                end).
  assert (default [] (used1 !! user_id) = default [] (used !! user_id)) as Hsame.
  { unfold used1. destruct (used !! user_id) eqn:E; [by rewrite E|].
    by rewrite lookup_insert_eq. }
  assert (forall v, <[user_id := v]> used1 = <[user_id := v]> used) as Hins.
  { intros v. unfold used1. destruct (used !! user_id); [done|].
    by rewrite insert_insert_eq. }
  rewrite Hsame.
  destruct (filter _ all_facts) as [|y avail] eqn:Havail.
  - destruct (random_choice_nonempty all_facts r Hall) as (x & -> & Hx).
    exists x, [fact_id x]. rewrite lookup_insert_eq. simpl.
    rewrite insert_insert_eq, Hins. split; [done|]. split; [done|]. left.
    split; [|done]. intros z Hz.
    pose proof (filter_nil_all _ _ Havail z Hz) as Hn.
    by apply dec_stable in Hn.
  - destruct (random_choice_nonempty (y :: avail) r) as (x & -> & Hx); [done|].
    rewrite <- Havail in Hx. apply list_elem_of_filter in Hx as [Hnew Hx].
    exists x, (default [] (used !! user_id) ++ [fact_id x]).
    rewrite Hsame, Hins. split; [done|]. split; [done|]. by right.
Qed.

(** The pool of a kind, seen through [start_test]. *)
Lemma start_test_empty t st user_id ud r :
  pool_ids st (kind_of t) = [] ->
  start_test t st user_id ud r = Raise IndexError.
Proof.
  intros Hpool. destruct st as [evs figs ue uf].
  destruct t; simpl in Hpool; apply fmap_nil_inv in Hpool; subst;
    unfold start_test, start_date_test, start_event_test, start_figure_test,
      start_achievement_test, start_event_kind, start_figure_kind;
    cbn [all_events all_figures used_events used_figures];
    by rewrite pick_unused_empty.
Qed.

Lemma consumed_other (used : gmap Z (list Z)) user_id u v :
  u ≠ user_id -> default [] (<[user_id := v]> used !! u) = default [] (used !! u).
Proof. intros H. by rewrite lookup_insert_ne. Qed.

Lemma start_test_ok t st user_id ud r :
  pool_ids st (kind_of t) ≠ [] ->
  exists st' ud' ct,
    start_test t st user_id ud r = Ok (st', ud', QuestionMessage ct)
    /\ selected st st' user_id (kind_of t) (shown_id ct).
Proof.
  intros Hpool. destruct st as [evs figs ue uf].
  destruct t; cbn [kind_of pool_ids all_events all_figures] in Hpool;
    unfold start_test, start_date_test, start_event_test, start_figure_test,
      start_achievement_test, start_event_kind, start_figure_kind;
    cbn [all_events all_figures used_events used_figures].
  all: match goal with
       | |- context [pick_unused ?f ?used ?u ?all ?r0] =>
         destruct (pick_unused_ok f used u all r0)
           as (x & consumed' & -> & Hx & Hcase);
           [by intros ->|]
       end.
  all: eexists _, _, _; split; [reflexivity|].
  all: unfold selected;
    cbn [all_events all_figures used_events used_figures consumed pool_ids
         kind_of shown_id].
  all: split; [done|]; split; [done|].
  all: split; [by apply list_elem_of_fmap_2|].
  all: split.
  all: try (intros u k' Hne; destruct k'; try done;
            apply consumed_other; congruence).
  all: rewrite lookup_insert_eq; cbn [default from_option];
    destruct Hcase as [[Hall ->]|[Hnew ->]]; [left|right]; (split; [|done]);
    try done.
  all: intros y Hy; apply list_elem_of_fmap in Hy as (e & -> & He); by apply Hall.
Qed.

Lemma pool_ids_same st st' k :
  all_events st' = all_events st -> all_figures st' = all_figures st ->
  pool_ids st' k = pool_ids st k.
Proof. intros He Hf. destruct k; simpl; congruence. Qed.

Lemma consumed_ok_fresh events figures : consumed_ok (KtState events figures ∅ ∅).
Proof.
  intros u k. destruct k; simpl; rewrite lookup_empty; simpl;
    (split; [apply NoDup_nil_2 | by intros z Hz%elem_of_nil]).
Qed.

Lemma selected_consumed_ok st st' user_id k z :
  consumed_ok st -> selected st st' user_id k z -> consumed_ok st'.
Proof.
  intros Hinv (He & Hf & Hz & Hother & Hcase) u k'.
  rewrite (pool_ids_same st st') by done.
  destruct (decide ((u, k') = (user_id, k))) as [E|Hne].
  - injection E as -> ->. destruct (Hinv user_id k) as [Hnd Hsub].
    destruct Hcase as [[_ ->]|[Hnew ->]].
    + split; [apply NoDup_singleton|]. by intros z' ->%list_elem_of_singleton.
    + split.
      * apply NoDup_app. split; [done|]. split; [|apply NoDup_singleton].
        by intros z' Hz' ->%list_elem_of_singleton.
      * intros z' [Hz'| ->%list_elem_of_singleton]%elem_of_app; auto.
  - rewrite Hother by done. apply Hinv.
Qed.

Lemma consumed_bound st u k :
  consumed_ok st -> length (consumed st u k) <= length (pool_ids st k).
Proof.
  intros Hinv. destruct (Hinv u k) as [Hnd Hsub].
  apply submseteq_length. by apply NoDup_submseteq.
Qed.

Lemma not_exhausted st u k :
  NoDup (pool_ids st k) ->
  length (consumed st u k) < length (pool_ids st k) ->
  ~ (forall y, y ∈ pool_ids st k -> y ∈ consumed st u k).
Proof.
  intros Hnd Hlt Hall.
  assert (pool_ids st k ⊆+ consumed st u k) as Hsub by (by apply NoDup_submseteq).
  apply submseteq_length in Hsub. lia.
Qed.

Lemma start_test_inv t st user_id ud r st' ud' msg :
  start_test t st user_id ud r = Ok (st', ud', msg) ->
  exists ct, msg = QuestionMessage ct
             /\ selected st st' user_id (kind_of t) (shown_id ct).
Proof.
  intros H. destruct (decide (pool_ids st (kind_of t) = [])) as [E|E].
  - by rewrite start_test_empty in H.
  - destruct (start_test_ok t st user_id ud r E) as (st1 & ud1 & ct & Hs & Hsel).
    rewrite Hs in H. injection H as <- <- <-. eauto.
Qed.

Lemma run_tests_cons st ctx u t r rest st' ctx' replies :
  run_tests st ctx ((u, t, r) :: rest) = Ok (st', ctx', replies) ->
  exists st1 ud1 ct replies',
    selected st st1 u (kind_of t) (shown_id ct)
    /\ run_tests st1 (<[u := ud1]> ctx) rest = Ok (st', ctx', replies')
    /\ replies = (u, t, QuestionMessage ct) :: replies'.
Proof.
  cbn [run_tests]. intros H.
  destruct (start_test t st u _ r) as [[[st1 ud1] msg]|] eqn:Hs; [|done].
  destruct (start_test_inv _ _ _ _ _ _ _ _ Hs) as (ct & -> & Hsel).
  destruct (run_tests st1 _ rest) as [[[st2 ctx2] replies']|] eqn:Hr; [|done].
  injection H as <- <- <-. eauto 10.
Qed.

Lemma run_tests_consumed_ok calls st ctx st' ctx' replies :
  consumed_ok st ->
  run_tests st ctx calls = Ok (st', ctx', replies) ->
  consumed_ok st'
  /\ all_events st' = all_events st /\ all_figures st' = all_figures st.
Proof.
  revert st ctx replies.
  induction calls as [|[[u t] r] rest IH]; intros st ctx replies Hinv H.
  - by injection H as <- _ _.
  - apply run_tests_cons in H as (st1 & ud1 & ct & replies' & Hsel & Hrest & _).
    pose proof (selected_consumed_ok _ _ _ _ _ Hinv Hsel) as Hinv1.
    destruct (IH _ _ _ Hinv1 Hrest) as (H1 & H2 & H3).
    destruct Hsel as (He & Hf & _). split; [done|]. split; congruence.
Qed.

Lemma shown_ids_cons user_id k u t ct replies :
  shown_ids user_id k ((u, t, QuestionMessage ct) :: replies)
  = if decide (u = user_id /\ kind_of t = k)
    then shown_id ct :: shown_ids user_id k replies
    else shown_ids user_id k replies.
Proof. unfold shown_ids. cbn [omap list_omap]. by case_decide. Qed.

(** While a user has been shown no more facts of a kind than the pool
    holds, the consumed list grows by exactly the facts shown. *)
Lemma run_tests_shown user_id k calls st ctx st' ctx' replies :
  NoDup (pool_ids st k) ->
  consumed_ok st ->
  run_tests st ctx calls = Ok (st', ctx', replies) ->
  length (consumed st user_id k) + length (shown_ids user_id k replies)
    <= length (pool_ids st k) ->
  consumed st' user_id k = consumed st user_id k ++ shown_ids user_id k replies.
Proof.
  revert st ctx replies.
  induction calls as [|[[u t] r] rest IH]; intros st ctx replies Hnd Hinv H Hlen.
  - injection H as <- _ <-. by rewrite app_nil_r.
  - apply run_tests_cons in H as (st1 & ud1 & ct & replies' & Hsel & Hrest & ->).
    pose proof (selected_consumed_ok _ _ _ _ _ Hinv Hsel) as Hinv1.
    destruct Hsel as (He & Hf & _ & Hother & Hcase).
    pose proof (pool_ids_same st st1 k He Hf) as Hpool.
    assert (NoDup (pool_ids st1 k)) as Hnd1 by congruence.
    rewrite shown_ids_cons in *.
    case_decide as Hme.
    + destruct Hme as [-> <-]. cbn [length] in Hlen.
      destruct Hcase as [[Hall _]|[_ Hgrow]].
      { exfalso. apply (not_exhausted st user_id (kind_of t)); [done|lia|done]. }
      rewrite (IH _ _ _ Hnd1 Hinv1 Hrest).
      * by rewrite Hgrow, <- app_assoc.
      * rewrite Hpool, Hgrow, length_app. simpl. lia.
    + assert (consumed st1 user_id k = consumed st user_id k) as Hsame.
      { apply Hother. intros [= -> ->]. by apply Hme. }
      rewrite (IH _ _ _ Hnd1 Hinv1 Hrest).
      * by rewrite Hsame.
      * by rewrite Hpool, Hsame.
Qed.

(** C2 (what the code does). With an empty pool [random.choice] raises
    [IndexError] before the test that would report the missing data is
    reached: the four [start_*_test] methods raise, they send no
    message. *)
Theorem start_test_empty_pool_raises :
  forall events figures used_e used_f user_id ud r,
    start_date_test (KtState [] figures used_e used_f) user_id ud r
      = Raise IndexError
    /\ start_event_test (KtState [] figures used_e used_f) user_id ud r
      = Raise IndexError
    /\ start_figure_test (KtState events [] used_e used_f) user_id ud r
      = Raise IndexError
    /\ start_achievement_test (KtState events [] used_e used_f) user_id ud r
      = Raise IndexError.
Proof.
  intros. split; [|split; [|split]].
  - by apply (start_test_empty QDate).
  - by apply (start_test_empty QEvent).
  - by apply (start_test_empty QFigure).
  - by apply (start_test_empty QAchievement).
Qed.

(** X11. A selection fails only on an empty pool. *)
Lemma start_test_raises_iff t st user_id ud r :
  (exists e, start_test t st user_id ud r = Raise e)
  <-> pool_ids st (kind_of t) = [].
Proof.
  split.
  - intros [e He]. destruct (decide (pool_ids st (kind_of t) = [])) as [|Hne]; [done|].
    destruct (start_test_ok t st user_id ud r Hne) as (? & ? & ? & Hs & _).
    congruence.
  - intros H. exists IndexError. by apply start_test_empty.
Qed.

(** C7. A [KnowledgeTest] object starts with empty dictionaries and
    serves any calls of any users. For a kind whose pool of [K] facts
    has distinct ids and for every user: as long as the user has been
    shown at most [K] facts of the kind they are pairwise distinct and
    make up the consumed list; the consumed list never holds an id twice
    nor more than [K] ids; and a further selection shows an id that is
    in the consumed list only when that list covers the whole pool, and
    then the list restarts with that id alone. *)
Theorem selector_no_repeat_before_exhaustion
    (events : list event) (figures : list figure) (k : fact_kind)
    (calls : list (Z * question_type * nat))
    (ctx ctx' : gmap Z user_data) (st : kt_state)
    (replies : list (Z * question_type * reply)) (user_id : Z)
    (Hids : NoDup (pool_ids (KtState events figures ∅ ∅) k))
    (Hrun : run_tests (KtState events figures ∅ ∅) ctx calls
            = Ok (st, ctx', replies)) :
  (length (shown_ids user_id k replies) <= length (pool_ids st k) ->
   NoDup (shown_ids user_id k replies)
   /\ consumed st user_id k = shown_ids user_id k replies)
  /\ NoDup (consumed st user_id k)
  /\ length (consumed st user_id k) <= length (pool_ids st k)
  /\ (forall t ud r st2 ud2 ct,
        kind_of t = k ->
        start_test t st user_id ud r = Ok (st2, ud2, QuestionMessage ct) ->
        shown_id ct ∈ consumed st user_id k ->
        (forall z, z ∈ pool_ids st k -> z ∈ consumed st user_id k)
        /\ consumed st2 user_id k = [shown_id ct]).
Proof.
  pose proof (consumed_ok_fresh events figures) as Hfresh.
  destruct (run_tests_consumed_ok _ _ _ _ _ _ Hfresh Hrun) as (Hinv & He & Hf).
  pose proof (pool_ids_same _ _ k He Hf) as Hpool.
  split; [|split; [apply Hinv | split; [by apply consumed_bound|]]].
  - intros Hlen.
    pose proof (run_tests_shown user_id k _ _ _ _ _ _ Hids Hfresh Hrun) as Hshown.
    assert (consumed (KtState events figures ∅ ∅) user_id k = []) as Hnil.
    { destruct k; simpl; by rewrite lookup_empty. }
    rewrite Hnil, <- Hpool in Hshown. simpl in Hshown.
    specialize (Hshown Hlen). split; [|done].
    rewrite <- Hshown. apply Hinv.
  - intros t ud r st2 ud2 ct <- Hs Hin.
    apply start_test_inv in Hs as (ct' & [= <-] & (_ & _ & _ & _ & Hcase)).
    destruct Hcase as [[Hall Hnew]|[Hnew _]]; [done|]. by destruct Hnew.
Qed.

Example demo_run_shown :
  shown_ids 7 EventKind demo_run.2 = [2%Z; 1%Z; 0%Z]
  /\ consumed demo_run.1.1 7 EventKind = [2%Z; 1%Z; 0%Z]
  /\ consumed demo_run.1.1 8 EventKind = [0%Z].
Proof. repeat split; vm_compute; reflexivity. Qed.

Lemma selector_no_repeat_before_exhaustion_witness :
  (length (shown_ids 7 EventKind demo_run.2)
     <= length (pool_ids demo_run.1.1 EventKind) ->
   NoDup (shown_ids 7 EventKind demo_run.2)
   /\ consumed demo_run.1.1 7 EventKind = shown_ids 7 EventKind demo_run.2)
  /\ NoDup (consumed demo_run.1.1 7 EventKind)
  /\ length (consumed demo_run.1.1 7 EventKind)
     <= length (pool_ids demo_run.1.1 EventKind)
  /\ (forall t ud r st2 ud2 ct,
        kind_of t = EventKind ->
        start_test t demo_run.1.1 7 ud r = Ok (st2, ud2, QuestionMessage ct) ->
        shown_id ct ∈ consumed demo_run.1.1 7 EventKind ->
        (forall z, z ∈ pool_ids demo_run.1.1 EventKind ->
                   z ∈ consumed demo_run.1.1 7 EventKind)
        /\ consumed st2 7 EventKind = [shown_id ct]).
Proof.
  apply (selector_no_repeat_before_exhaustion demo_events [] EventKind
           demo_calls ∅ demo_run.1.2 demo_run.1.1 demo_run.2 7).
  - apply (bool_decide_unpack _). vm_compute. exact I.
  - vm_compute. reflexivity.
Defined.

End SelectorFacts.

(** ** The statistics *)

Section StatsFacts.

Import StatsManager.

Lemma sum_over_insert_fresh f m k t :
  m !! k = None -> sum_over f (<[k := t]> m) = (f t + sum_over f m)%Z.
Proof.
  intros H. unfold sum_over.
  apply (map_fold_insert_L (fun _ t acc => (f t + acc)%Z)); [intros; lia | done].
Qed.

Lemma sum_over_present f m k t :
  m !! k = Some t -> sum_over f m = (f t + sum_over f (delete k m))%Z.
Proof.
  intros H. unfold sum_over.
  apply (map_fold_delete_L (fun _ t acc => (f t + acc)%Z)); [intros; lia | done].
Qed.

Lemma sum_over_alter f g m k t :
  m !! k = Some t ->
  sum_over f (alter g k m) = (sum_over f m - f t + f (g t))%Z.
Proof.
  intros H. rewrite (sum_over_present f m k t H).
  assert (alter g k m = <[k := g t]> (delete k m)) as ->.
  { apply map_eq. intros j. rewrite lookup_alter, lookup_insert.
    case_decide; subst; [by rewrite H | by rewrite lookup_delete_ne]. }
  rewrite sum_over_insert_fresh by apply lookup_delete_eq. lia.
Qed.

Lemma user_ok_new : user_ok new_user_stats.
Proof.
  split; [|split]; [done | done |].
  intros question qs. unfold new_user_stats. cbn [questions].
  by rewrite lookup_empty.
Qed.

Lemma record_result_questions us test_type question is_correct now q' :
  questions (record_result us test_type question is_correct now) !! q'
  = if decide (question = q')
    then Some (updated_question test_type is_correct now (questions us !! question))
    else questions us !! q'.
Proof.
  unfold record_result. cbn [questions]. rewrite lookup_alter.
  case_decide as E.
  - subst q'. destruct (questions us !! question) as [q|] eqn:Eq.
    + by rewrite Eq.
    + by rewrite lookup_insert_eq.
  - destruct (questions us !! question); [done|]. by rewrite lookup_insert_ne.
Qed.

Lemma record_result_sums us test_type question is_correct now :
  sum_type_totals (test_types (record_result us test_type question is_correct now))
  = (sum_type_totals (test_types us) + 1)%Z
  /\ sum_type_correct (test_types (record_result us test_type question is_correct now))
  = (sum_type_correct (test_types us) + bool_to_Z is_correct)%Z.
Proof.
  change sum_type_totals with (sum_over ts_total).
  change sum_type_correct with (sum_over ts_correct).
  unfold record_result. cbn [test_types].
  set (types0 := test_types us).
  set (types1 := match types0 !! test_type with
                 | None => <[test_type := TypeStats 0 0]> types0
                 | Some _ => types0
                 end).
  assert (exists t1, types1 !! test_type = Some t1
                     /\ sum_over ts_total types1 = sum_over ts_total types0
                     /\ sum_over ts_correct types1 = sum_over ts_correct types0)
    as (t1 & Ht1 & Hs1 & Hs2).
  { unfold types1. destruct (types0 !! test_type) as [t|] eqn:E.
    - by exists t.
    - exists (TypeStats 0 0). rewrite lookup_insert_eq.
      by rewrite !sum_over_insert_fresh. }
  set (bump_total := fun t => TypeStats (ts_total t + 1) (ts_correct t)).
  set (bump_correct := fun t => TypeStats (ts_total t) (ts_correct t + 1)).
  assert (alter bump_total test_type types1 !! test_type = Some (bump_total t1))
    as Ht2 by (by rewrite lookup_alter_eq, Ht1).
  destruct is_correct;
    rewrite ?(sum_over_alter _ bump_correct _ _ _ Ht2),
      !(sum_over_alter _ bump_total _ _ _ Ht1), Hs1, Hs2;
    simpl; lia.
Qed.

Lemma record_result_ok us test_type question is_correct now :
  user_ok us -> user_ok (record_result us test_type question is_correct now).
Proof.
  intros (Ht & Hc & Hq).
  destruct (record_result_sums us test_type question is_correct now) as [Hs1 Hs2].
  unfold user_ok. rewrite Hs1, Hs2.
  split; [|split].
  - unfold record_result. cbn [tests_total]. lia.
  - unfold record_result. cbn [tests_correct]. destruct is_correct; simpl; lia.
  - intros q' qs. rewrite record_result_questions. case_decide as E.
    + intros [= <-]. unfold updated_question. cbn [qs_correct qs_attempts].
      destruct (questions us !! question) as [q|] eqn:Eq; simpl.
      * apply Hq in Eq. destruct is_correct; lia.
      * destruct is_correct; lia.
    + apply Hq.
Qed.

(** Writing, with whatever outcome, leaves the statistics in memory as
    they are. *)
Lemma stats_save_stats m : stats (save_stats m).1 = stats m.
Proof. unfold save_stats. by destruct (disk m) as [|[] ?]. Qed.

Lemma stats_auto_save m : stats (auto_save m) = stats m.
Proof.
  unfold auto_save. cbn [changes_count].
  destruct (_ <=? _); cbn [stats]; [|done]. by rewrite stats_save_stats.
Qed.

Lemma stats_add_test_result m user_id test_type question is_correct now :
  stats (add_test_result m user_id test_type question is_correct now)
  = <[str_of_int user_id :=
        record_result (default new_user_stats (stats m !! str_of_int user_id))
                      test_type question is_correct now]> (stats m).
Proof.
  unfold add_test_result, get_or_create_user_stats.
  destruct (stats m !! str_of_int user_id) as [us|];
    rewrite stats_auto_save; cbn [stats default from_option];
    by rewrite ?insert_insert_eq.
Qed.

Lemma last_n_short {A} n (l : list A) : length l <= n -> last_n n l = l.
Proof. intros H. unfold last_n. by replace (length l - n) with 0 by lia. Qed.

Lemma last_n_length {A} n (l : list A) : length (last_n n l) <= n.
Proof. unfold last_n. rewrite length_drop. lia. Qed.

Lemma last_n_snoc {A} n (l : list A) x :
  last_n n (last_n n l ++ [x]) = last_n n (l ++ [x]).
Proof.
  unfold last_n. rewrite !length_app, length_drop, !drop_app, drop_drop, length_drop.
  simpl. f_equal; f_equal; lia.
Qed.

Lemma trimmed_history {A} (l : list A) :
  (if 10 <? length l then last_n 10 l else l) = last_n 10 l.
Proof.
  destruct (Nat.ltb_spec 10 (length l)); [done|].
  symmetry. apply last_n_short. lia.
Qed.

Lemma attempts_of_snoc user_key question calls c :
  attempts_of user_key question (calls ++ [c])
  = attempts_of user_key question calls
    ++ (if decide (str_of_int (c_user c) = user_key /\ c_question c = question)
        then [Attempt (c_time c) (c_is_correct c)] else []).
Proof.
  unfold attempts_of. rewrite filter_app, map_app. f_equal.
  rewrite filter_cons, filter_nil. by case_decide.
Qed.

Lemma stats_ok_add calls m c :
  stats_ok calls (stats m) -> stats_ok (calls ++ [c]) (stats (add_call m c)).
Proof.
  intros [Husers Hhist]. destruct c as [uid tt qn ok now].
  unfold add_call. cbn [c_user c_test_type c_question c_is_correct c_time].
  rewrite stats_add_test_result.
  set (key0 := str_of_int uid).
  set (us0 := default new_user_stats (stats m !! key0)).
  assert (user_ok us0) as Hus0.
  { unfold us0. destruct (stats m !! key0) as [us|] eqn:E; simpl;
      [by eapply Husers | apply user_ok_new]. }
  assert (forall q, history_of (stats m) key0 q
                    = match questions us0 !! q with
                      | Some qs => qs_history qs
                      | None => []
                      end) as Hus0q.
  { intros q. unfold history_of, us0.
    destruct (stats m !! key0) as [us|]; simpl; [done|]. by rewrite lookup_empty. }
  split.
  - intros key us. rewrite lookup_insert. case_decide.
    + intros [= <-]. by apply record_result_ok.
    + apply Husers.
  - intros key q. rewrite attempts_of_snoc.
    cbn [c_user c_question c_time c_is_correct]. fold key0.
    unfold history_of. rewrite lookup_insert.
    destruct (decide (key0 = key)) as [<-|Hk].
    + cbn [mbind option_bind]. rewrite record_result_questions.
      destruct (decide (qn = q)) as [<-|Hq].
      * rewrite decide_True by done.
        unfold updated_question. cbn [qs_history]. rewrite trimmed_history.
        rewrite <- (last_n_snoc 10 (attempts_of key0 qn calls)), <- Hhist, Hus0q.
        by destruct (questions us0 !! qn).
      * rewrite decide_False by (by intros [_ ?]).
        rewrite app_nil_r, <- Hhist. by rewrite Hus0q.
    + rewrite decide_False by (by intros [? _]).
      rewrite app_nil_r, <- Hhist. done.
Qed.

Lemma stats_ok_run disk calls :
  stats_ok calls (stats (foldl add_call (new_manager_on disk) calls)).
Proof.
  induction calls as [|c calls IH] using rev_ind.
  - cbn [foldl]. unfold new_manager_on. cbn [stats load_stats]. split.
    + intros key us. by rewrite lookup_empty.
    + intros key q. unfold history_of. by rewrite lookup_empty.
  - rewrite foldl_snoc. by apply stats_ok_add.
Qed.

(** C10. After any sequence of results recorded from the start,
    whatever becomes of the writes to the file, for every user: the
    total is the sum of the totals of the test types, the number of
    correct answers is the sum of their correct counts, no question has
    more correct answers than attempts, and the history of a question is
    the last ten results recorded for it, so at most ten entries. *)
Theorem recorded_results_consistent
    (disk : list write) (calls : list call) (user_key : list N) (us : user_stats)
    (Huser : stats (foldl add_call (new_manager_on disk) calls) !! user_key
             = Some us) :
  tests_total us = sum_type_totals (test_types us)
  /\ tests_correct us = sum_type_correct (test_types us)
  /\ forall question qs,
       questions us !! question = Some qs ->
       (qs_correct qs <= qs_attempts qs)%Z
       /\ length (qs_history qs) <= 10
       /\ qs_history qs = last_n 10 (attempts_of user_key question calls).
Proof.
  destruct (stats_ok_run disk calls) as [Husers Hhist].
  destruct (Husers _ _ Huser) as (Ht & Hc & Hq).
  split; [done|]. split; [done|].
  intros question qs Hqs.
  assert (qs_history qs = last_n 10 (attempts_of user_key question calls)) as Hh.
  { rewrite <- Hhist. unfold history_of. rewrite Huser. simpl. by rewrite Hqs. }
  split; [by eapply Hq|]. split; [|done].
  rewrite Hh. apply last_n_length.
Qed.

Example demo_user_stats_values :
  tests_total demo_user_stats = 13%Z
  /\ tests_correct demo_user_stats = 7%Z
  /\ (qs_history <$> questions demo_user_stats !! py "Дата: 1569")
     = Some (map (fun i => Attempt (1000 + Z.of_nat i) (Nat.odd i)) (seq 2 10)).
Proof. repeat split; vm_compute; reflexivity. Qed.

Lemma recorded_results_consistent_witness :
  tests_total demo_user_stats = sum_type_totals (test_types demo_user_stats)
  /\ tests_correct demo_user_stats = sum_type_correct (test_types demo_user_stats)
  /\ forall question qs,
       questions demo_user_stats !! question = Some qs ->
       (qs_correct qs <= qs_attempts qs)%Z
       /\ length (qs_history qs) <= 10
       /\ qs_history qs = last_n 10 (attempts_of (py "7") question demo_results).
Proof.
  apply (recorded_results_consistent [] demo_results (py "7") demo_user_stats).
  vm_compute. reflexivity.
Defined.

End StatsFacts.

(** ** The matcher: blocks lie in both sequences and do not overlap *)

Section MatcherBothSides.

Import Difflib.

Variables (a b : list N) (b2j : gmap N (list nat)).

Lemma j2len_get_col blo j2len j :
  col_bounded blo j2len -> blo <= j -> j2len_get j2len j + 1 <= j + 1 - blo.
Proof.
  intros H Hj. destruct j as [|j]; simpl; [lia|].
  destruct (j2len !! j) as [v|] eqn:E; simpl; [|lia].
  apply H in E. lia.
Qed.

Lemma flm_inner_in_b i blo bhi j2len js st :
  blo <= bhi ->
  col_bounded blo j2len ->
  col_bounded blo st.1 -> best_in_b blo bhi st.2 ->
  col_bounded blo (flm_inner i blo bhi j2len js st).1
  /\ best_in_b blo bhi (flm_inner i blo bhi j2len js st).2.
Proof.
  intros Hb Hprev. revert st.
  induction js as [|j js IH]; intros [new [[bi bj] bk]] Hnew Hbest;
    cbn [flm_inner]; [done|].
  destruct (Nat.ltb_spec j blo); [by apply IH|].
  destruct (Nat.leb_spec bhi j); [done|].
  pose proof (j2len_get_col blo j2len j Hprev) as Hk.
  apply IH; cbn [fst snd].
  - intros j' v. rewrite lookup_insert. case_decide.
    + intros [= <-]. subst j'. lia.
    + apply Hnew.
  - destruct (bk <? j2len_get j2len j + 1); [|done].
    unfold best_in_b; cbn [fst snd]. lia.
Qed.

Lemma flm_rows_in_b alo n blo bhi :
  blo <= bhi ->
  col_bounded blo
    (foldl (flm_row a b2j blo bhi) (∅, (alo, blo, 0)) (seq alo n)).1
  /\ best_in_b blo bhi
    (foldl (flm_row a b2j blo bhi) (∅, (alo, blo, 0)) (seq alo n)).2.
Proof.
  intros Hb. induction n as [|n [IH1 IH2]].
  - cbn [seq foldl fst snd]. split.
    + intros j v. by rewrite lookup_empty.
    + unfold best_in_b; cbn [fst snd]. lia.
  - rewrite seq_S, foldl_snoc. unfold flm_row at 1 3.
    apply flm_inner_in_b; done.
Qed.

Lemma extend_left_in_b alo blo besti bestj bestsize :
  blo <= bestj ->
  blo <= (extend_left a b alo blo besti bestj bestsize).1.2
  /\ (extend_left a b alo blo besti bestj bestsize).1.2
     + (extend_left a b alo blo besti bestj bestsize).2 = bestj + bestsize.
Proof.
  revert bestj bestsize.
  induction besti as [|i IH]; intros bestj bestsize Hj; simpl; [lia|].
  destruct bestj as [|j]; simpl; [lia|].
  destruct (_ && _) eqn:E; simpl; [|lia].
  apply andb_true_iff in E as [E _]. apply andb_true_iff in E as [_ E].
  apply Nat.ltb_lt in E.
  destruct (IH j (bestsize + 1)) as [H1 H2]; lia.
Qed.

Lemma extend_right_in_b ahi bhi besti bestj bestsize gap :
  bestj + bestsize <= bhi ->
  (extend_right a b ahi bhi besti bestj bestsize gap).1.2 = bestj
  /\ (extend_right a b ahi bhi besti bestj bestsize gap).1.2
     + (extend_right a b ahi bhi besti bestj bestsize gap).2 <= bhi.
Proof.
  revert bestsize.
  induction gap as [|gap IH]; intros bestsize H; simpl; [lia|].
  destruct (_ && _) eqn:E; simpl; [|lia].
  apply andb_true_iff in E as [E _]. apply andb_true_iff in E as [_ E].
  apply Nat.ltb_lt in E. apply IH. lia.
Qed.

Lemma find_longest_match_in_b alo ahi blo bhi :
  blo <= bhi ->
  blo <= (find_longest_match a b b2j alo ahi blo bhi).1.2
  /\ (find_longest_match a b b2j alo ahi blo bhi).1.2
     + (find_longest_match a b b2j alo ahi blo bhi).2 <= bhi.
Proof.
  intros H. unfold find_longest_match, flm_scan.
  destruct (flm_rows_in_b alo (ahi - alo) blo bhi H) as [_ [H1 H2]].
  destruct (foldl _ _ _) as [row [[i0 j0] k0]]. cbn [fst snd] in H1, H2 |- *.
  destruct (extend_left_in_b alo blo i0 j0 k0 H1) as [H3 H4].
  destruct (extend_left a b alo blo i0 j0 k0) as [[i1 j1] k1].
  cbn [fst snd] in H3, H4.
  assert (j1 + k1 <= bhi) as H5 by lia.
  destruct (extend_right_in_b ahi bhi i1 j1 k1 (ahi - (i1 + k1)) H5) as [H6 H7].
  lia.
Qed.

Lemma size_sum_snoc blocks x : size_sum (blocks ++ [x]) = size_sum blocks + x.2.
Proof.
  unfold size_sum. rewrite map_app, sum_list_with_app. simpl. lia.
Qed.

Lemma room_a_cons alo ahi blo bhi queue :
  room_a ((alo, ahi, blo, bhi) :: queue) = (ahi - alo) + room_a queue.
Proof. reflexivity. Qed.

Lemma room_b_cons alo ahi blo bhi queue :
  room_b ((alo, ahi, blo, bhi) :: queue) = (bhi - blo) + room_b queue.
Proof. reflexivity. Qed.

(** The blocks found never hold more characters than the stretches of
    [a] and of [b] that are left to compare. *)
Lemma blocks_loop_size fuel queue acc blocks :
  Forall entry_ordered queue ->
  blocks_loop a b b2j fuel queue acc = Some blocks ->
  size_sum blocks <= size_sum acc + room_a queue
  /\ size_sum blocks <= size_sum acc + room_b queue.
Proof.
  revert queue acc.
  induction fuel as [|fuel IH]; intros queue acc Hok Hrun;
    destruct queue as [|[[[alo ahi] blo] bhi] q]; cbn [blocks_loop] in Hrun;
    [injection Hrun as <-; lia | done | injection Hrun as <-; lia |].
  apply Forall_cons in Hok as [[Hle1 Hle2] Hok]. cbn [fst snd] in Hle1, Hle2.
  rewrite room_a_cons, room_b_cons.
  pose proof (find_longest_match_bounds a b b2j alo ahi blo bhi Hle1) as [H1 H2].
  pose proof (find_longest_match_in_b alo ahi blo bhi Hle2) as [H3 H4].
  destruct (find_longest_match a b b2j alo ahi blo bhi) as [[i j] k].
  cbn [fst snd] in H1, H2, H3, H4.
  destruct (k =? 0) eqn:Ek.
  - apply Nat.eqb_eq in Ek. subst k. destruct (IH _ _ Hok Hrun). lia.
  - apply Nat.eqb_neq in Ek. apply IH in Hrun.
    + rewrite size_sum_snoc in Hrun. cbn [snd] in Hrun.
      destruct ((alo <? i) && (blo <? j)); destruct ((i + k <? ahi) && (j + k <? bhi));
        rewrite ?room_a_cons, ?room_b_cons in Hrun; lia.
    + destruct (_ && _); destruct (_ && _); repeat constructor;
        try done; unfold entry_ordered; cbn [fst snd]; lia.
Qed.

End MatcherBothSides.

Section RatioBounds.

Import Difflib KnowledgeTest.

Lemma size_sum_insert x blocks :
  size_sum (block_insert x blocks) = x.2 + size_sum blocks.
Proof.
  induction blocks as [|y l IH]; [done|]. cbn [block_insert].
  destruct (block_leb x y); [done|].
  change (size_sum (y :: block_insert x l)) with (y.2 + size_sum (block_insert x l)).
  change (size_sum (y :: l)) with (y.2 + size_sum l).
  rewrite IH. lia.
Qed.

Lemma size_sum_sort blocks : size_sum (block_sort blocks) = size_sum blocks.
Proof.
  induction blocks as [|x l IH]; [done|].
  unfold block_sort in *. cbn [foldr]. rewrite size_sum_insert, IH. done.
Qed.

Lemma collapse_fold_size blocks st :
  size_sum (foldl collapse_step st blocks).2 + (foldl collapse_step st blocks).1.2
  = size_sum st.2 + st.1.2 + size_sum blocks.
Proof.
  revert st. induction blocks as [|[[i2 j2] k2] l IH];
    intros [[[i1 j1] k1] na]; [unfold size_sum; simpl; lia|].
  cbn [foldl]. rewrite IH.
  change (size_sum ((i2, j2, k2) :: l)) with (k2 + size_sum l).
  unfold collapse_step.
  destruct ((i1 + k1 =? i2) && (j1 + k1 =? j2)); cbn [fst snd]; [lia|].
  destruct (Nat.eqb_spec k1 0) as [->|_]; [lia|].
  rewrite size_sum_snoc. cbn [snd]. lia.
Qed.

Lemma size_sum_collapse blocks la lb :
  size_sum (collapse blocks la lb) = size_sum blocks.
Proof.
  unfold collapse.
  pose proof (collapse_fold_size blocks ((0, 0, 0), [])) as H.
  destruct (foldl _ _ _) as [[[i1 j1] k1] na]. cbn [fst snd] in H.
  rewrite size_sum_snoc. cbn [snd].
  destruct (Nat.eqb_spec k1 0) as [->|_].
  - unfold size_sum in *. simpl in *. lia.
  - rewrite size_sum_snoc. cbn [snd]. unfold size_sum in *. simpl in *. lia.
Qed.

(** The matched characters are at most the characters of either
    sequence. *)
Lemma matching_blocks_size a b blocks :
  get_matching_blocks a b = Some blocks ->
  size_sum blocks <= length a /\ size_sum blocks <= length b.
Proof.
  unfold get_matching_blocks.
  destruct (blocks_loop _ _ _ _ _ _) as [bl|] eqn:E; [|done].
  cbn [mbind option_bind]. intros [= <-].
  rewrite size_sum_collapse, size_sum_sort.
  apply blocks_loop_size in E.
  - rewrite room_a_cons, room_b_cons in E. unfold size_sum, room_a, room_b in *.
    simpl in *. lia.
  - repeat constructor; cbn [fst snd]; lia.
Qed.

Lemma ratio_unit_interval a b : (0 <= ratio a b <= 1)%Q.
Proof.
  unfold ratio.
  destruct (get_matching_blocks a b) as [blocks|] eqn:E; [|split; done].
  apply matching_blocks_size in E as [Ha Hb].
  fold (size_sum blocks). unfold calculate_ratio.
  destruct (Nat.eqb_spec (length a + length b) 0) as [|Hn]; [split; done|].
  unfold Qle. cbn [Qnum Qden].
  rewrite <- (positive_nat_Z (Pos.of_nat (length a + length b))).
  rewrite Nat2Pos.id by done. lia.
Qed.

End RatioBounds.

(** ** Scores and verdicts *)

Section ScoreFacts.

Import Difflib KnowledgeTest StatsManager.

Lemma found_keywords_bound answer keywords k :
  k <= foldl (fun found keyword =>
                if contains keyword answer then found + 1 else found)
             k keywords
    <= k + length keywords.
Proof.
  revert k. induction keywords as [|w l IH]; intros k; simpl; [lia|].
  pose proof (IH (k + 1)). pose proof (IH k). destruct (contains w answer); lia.
Qed.

Lemma fraction_unit_interval m t : m <= t -> 0 < t ->
  (0 <= Z.of_nat m # Pos.of_nat t <= 1)%Q.
Proof.
  intros Hm Ht. unfold Qle. cbn [Qnum Qden].
  rewrite <- (positive_nat_Z (Pos.of_nat t)), Nat2Pos.id by lia. lia.
Qed.

(** X1. The three scores of the similarity engine lie between 0 and 1, for
    all strings: the similarity of two strings, the share of keywords
    found in an answer, and the similarity of two names. *)
Theorem scores_in_unit_interval :
  forall s1 s2 : list N,
    (0 <= calculate_similarity s1 s2 <= 1)%Q
    /\ (forall keywords, (0 <= check_keywords s1 keywords <= 1)%Q)
    /\ (0 <= calculate_name_similarity s1 s2 <= 1)%Q.
Proof.
  intros s1 s2. split; [apply ratio_unit_interval|]. split.
  - intros keywords. unfold check_keywords.
    destruct keywords as [|w l]; [done|].
    apply fraction_unit_interval; [|simpl; lia].
    pose proof (found_keywords_bound (lower s1) (w :: l) 0). lia.
  - unfold calculate_name_similarity.
    destruct (str_eqb _ _); [done|].
    destruct (Nat.ltb_spec 0 (length (map strip (split_ws (lower s2)))));
      [|done].
    apply fraction_unit_interval; [|done].
    rewrite matched_parts_count. simpl. apply List.filter_length_le.
Qed.

Lemma chain_b_absent x b : x ∉ b -> default [] (chain_b b !! x) = [].
Proof.
  intros H. rewrite chain_b_positions. case_decide; [done|].
  by apply positions_from_nil.
Qed.

Lemma flm_rows_disjoint a b blo bhi rows st :
  (forall x, x ∈ a -> x ∉ b) ->
  (foldl (flm_row a (chain_b b) blo bhi) st rows).2 = st.2.
Proof.
  intros Hd. revert st. induction rows as [|i rows IH]; intros st; [done|].
  cbn [foldl]. rewrite IH. unfold flm_row.
  destruct (a !! i) as [x|] eqn:Hx; cbn [mbind option_bind]; [|done].
  rewrite chain_b_absent; [done|]. apply Hd. by eapply list_elem_of_lookup_2.
Qed.

Lemma find_longest_match_disjoint a b :
  (forall x, x ∈ a -> x ∉ b) ->
  find_longest_match a b (chain_b b) 0 (length a) 0 (length b) = (0, 0, 0).
Proof.
  intros Hd. unfold find_longest_match, flm_scan.
  pose proof (flm_rows_disjoint a b 0 (length b) (seq 0 (length a - 0))
                (∅, (0, 0, 0)) Hd) as Hscan.
  destruct (foldl _ _ _) as [row best]. cbn [snd] in Hscan. subst best.
  cbn [snd extend_left]. rewrite Nat.add_0_r, Nat.sub_0_r.
  destruct a as [|x a']; [done|]. cbn [length extend_right].
  destruct b as [|y b']; [done|].
  rewrite bool_decide_eq_false_2; [by rewrite andb_false_r|].
  intros [= ->]. apply (Hd y); by left.
Qed.

Lemma ratio_disjoint a b :
  (forall x, x ∈ a -> x ∉ b) -> length a + length b ≠ 0 -> (ratio a b == 0)%Q.
Proof.
  intros Hd Hn. unfold ratio, get_matching_blocks.
  replace (2 * length a + 1) with (S (2 * length a)) by lia.
  cbn [blocks_loop]. rewrite find_longest_match_disjoint by done.
  cbn [Nat.eqb].
  destruct (2 * length a); cbn [blocks_loop mbind option_bind];
    unfold calculate_ratio; (destruct (Nat.eqb_spec (length a + length b) 0); [done|]);
    reflexivity.
Qed.

Lemma lower_length s : s ≠ [] -> length (lower s) ≠ 0.
Proof.
  unfold lower. destruct s as [|c s]; [done|]. intros _. cbn [lower_from].
  rewrite length_app. unfold lower_full.
  destruct (c =? 931)%N; [simpl; lia|]. destruct (c =? 304)%N; simpl; lia.
Qed.

(** X2. Two strings without a common character (case apart), not both
    empty, have similarity 0. *)
Theorem similarity_of_disjoint_strings (s1 s2 : list N)
    (Hdisjoint : forall x, x ∈ lower s1 -> x ∉ lower s2)
    (Hnonempty : s1 ≠ [] \/ s2 ≠ []) :
  (calculate_similarity s1 s2 == 0)%Q.
Proof.
  unfold calculate_similarity. apply ratio_disjoint; [done|].
  destruct Hnonempty as [H|H]; apply lower_length in H; lia.
Qed.

Lemma similarity_of_disjoint_strings_witness :
  (calculate_similarity (py "Уния") (py "1569 god") == 0)%Q.
Proof.
  apply similarity_of_disjoint_strings.
  - apply Forall_forall. apply (bool_decide_unpack _). vm_compute. exact I.
  - by left.
Defined.

End ScoreFacts.

(** ** Verdicts of [check_answer] *)

Section VerdictFacts.

Import Difflib KnowledgeTest StatsManager.

Lemma ge_float_one x y : (x == 1)%Q -> (y <= 1)%Q -> ge_float x y = true.
Proof. intros Hx Hy. apply ge_float_iff. by rewrite Hx. Qed.

Lemma similarity_same_lower s1 s2 :
  lower s1 = lower s2 -> (calculate_similarity s1 s2 == 1)%Q.
Proof.
  intros H. unfold calculate_similarity. rewrite H. apply ratio_self.
Qed.

(** X4. The reference answer itself is always graded correct, in any letter
    case (and for a date with any surrounding whitespace), for the four
    types of questions. *)
Theorem reference_answer_accepted
    (t : current_test) (answer : list N) (state : option (list N))
    (user_id now : Z) (sm : manager)
    (Hsame : normalised t answer = normalised t (expected_answer t)) :
  (check_answer (UserData state (Some t)) answer user_id now sm).1.1 = true.
Proof.
  destruct t as [e|e|f|f]; cbn [check_answer ud_current_test fst];
    cbn [normalised expected_answer] in Hsame.
  - unfold text_rule. apply orb_true_iff. left.
    apply ge_float_one; [by apply similarity_same_lower | done].
  - unfold check_date_answer, str_eqb. by rewrite bool_decide_eq_true_2.
  - unfold text_rule. apply orb_true_iff. left.
    apply ge_float_one; [by apply similarity_same_lower | done].
  - unfold name_rule, calculate_name_similarity, str_eqb.
    by rewrite bool_decide_eq_true_2.
Qed.

Lemma reference_answer_accepted_witness :
  (check_answer
     (UserData None (Some (TestFigure
        (Figure 4 (py "Тадеуш Костюшко") (py "Руководитель восстания 1794 года")))))
     (py "РУКОВОДИТЕЛЬ ВОССТАНИЯ 1794 ГОДА") 7 0 new_manager).1.1 = true.
Proof. apply reference_answer_accepted. vm_compute. reflexivity. Defined.

Lemma isdigit_no_space s : isdigit s = true -> 32%N ∉ s.
Proof.
  unfold isdigit. destruct s as [|c s]; [done|].
  intros H Hin. rewrite forallb_forall in H.
  apply list_elem_of_In, H in Hin. vm_compute in Hin. discriminate.
Qed.

(** X5. When the correct date and the answer are both purely numeric, the
    answer is accepted only if it is the same string: years are not
    compared by similarity, nor as integers. *)
Theorem numeric_date_needs_equality (user_answer correct_answer : list N)
    (Hcorrect : isdigit (lower (strip correct_answer)) = true)
    (Huser : isdigit (lower (strip user_answer)) = true) :
  check_date_answer user_answer correct_answer
  = bool_decide (lower (strip user_answer) = lower (strip correct_answer)).
Proof.
  unfold check_date_answer, str_eqb.
  set (u := lower (strip user_answer)) in *.
  set (c := lower (strip correct_answer)) in *.
  case_bool_decide as E; [done|].
  rewrite (proj2 (contains_char_false_iff 45 c)) by by apply isdigit_no_dash.
  unfold date_fallthrough, date_token_rule.
  rewrite (proj2 (contains_char_false_iff 32 c)) by by apply isdigit_no_space.
  cbn [andb]. rewrite Hcorrect, Huser. cbn [andb].
  unfold str_eqb. by rewrite bool_decide_eq_false_2 by congruence.
Qed.

Lemma numeric_date_needs_equality_witness :
  check_date_answer (py "１９４２") (py "１９４２0")
  = bool_decide (py "１９４２" = py "１９４２0")
  /\ ge_float (calculate_similarity (py "１９４２") (py "１９４２0")) (8 # 10) = true.
Proof.
  split.
  - apply (numeric_date_needs_equality (py "１９４２") (py "１９４２0"));
      vm_compute; reflexivity.
  - vm_compute. reflexivity.
Defined.

(** X6. Against a period, an answer that is itself a period (a dash, not
    purely numeric) is accepted exactly when its two bounds are the same
    integers as the correct ones, whatever the spacing or the leading
    zeros. *)
Theorem date_range_answer_needs_same_bounds
    (user_answer correct_answer p1 p2 q1 q2 : list N)
    (start stop user_start user_stop : Z)
    (Hsplit : split_on 45 (lower (strip correct_answer)) = [p1; p2])
    (Hstart : int_of_str p1 = Some start)
    (Hstop : int_of_str p2 = Some stop)
    (Hnotdigits : isdigit (lower (strip user_answer)) = false)
    (Husplit : split_on 45 (lower (strip user_answer)) = [q1; q2])
    (Hustart : int_of_str q1 = Some user_start)
    (Hustop : int_of_str q2 = Some user_stop) :
  check_date_answer user_answer correct_answer = true
  <-> user_start = start /\ user_stop = stop.
Proof.
  unfold check_date_answer, str_eqb.
  set (u := lower (strip user_answer)) in *.
  set (c := lower (strip correct_answer)) in *.
  case_bool_decide as E.
  - rewrite E in Husplit. split; [intros _|done]. split; congruence.
  - pose proof (split_on_two_fields _ _ _ _ Hsplit) as Hdash.
    pose proof (split_on_two_fields _ _ _ _ Husplit) as Hudash.
    rewrite (proj2 (contains_char_true_iff _ _) Hdash).
    unfold date_range_rule. rewrite Hsplit. cbn [unpack_two_ints].
    rewrite Hstart, Hstop. cbn [mbind option_bind]. rewrite Hnotdigits.
    rewrite (proj2 (contains_char_true_iff _ _) Hudash), Husplit.
    cbn [unpack_two_ints]. rewrite Hustart, Hustop. cbn [mbind option_bind].
    by rewrite andb_true_iff, !Z.eqb_eq.
Qed.

Lemma date_range_answer_needs_same_bounds_witness :
  check_date_answer (py "１９４１ - 01944") (py "1941-1944") = true
  <-> 1941%Z = 1941%Z /\ 1944%Z = 1944%Z.
Proof.
  apply (date_range_answer_needs_same_bounds (py "１９４１ - 01944") (py "1941-1944")
           (py "1941") (py "1944") (py "１９４１ ") (py " 01944"));
    vm_compute; reflexivity.
Defined.

(** X7. A correct date with a space and no dash (a day, a month, a year) is
    matched by any answer that contains one of its numeric tokens: the
    day alone is enough, the month is never looked at. *)
Theorem date_with_month_accepts_any_numeric_token
    (user_answer correct_answer part : list N)
    (Hnodash : contains_char 45 (lower (strip correct_answer)) = false)
    (Hspace : contains_char 32 (lower (strip correct_answer)) = true)
    (Hpart : part ∈ split_ws (lower (strip correct_answer)))
    (Hdigits : isdigit part = true)
    (Hin : contains part (lower (strip user_answer)) = true) :
  check_date_answer user_answer correct_answer = true.
Proof.
  unfold check_date_answer. destruct (str_eqb _ _); [done|].
  rewrite Hnodash. unfold date_fallthrough, date_token_rule. rewrite Hspace.
  cbn [andb].
  assert (existsb (fun part => isdigit part
                               && contains part (lower (strip user_answer)))
                  (split_ws (lower (strip correct_answer))) = true) as ->; [|done].
  apply existsb_exists. exists part. split; [by apply list_elem_of_In|].
  by rewrite Hdigits, Hin.
Qed.

Lemma date_with_month_accepts_any_numeric_token_witness :
  check_date_answer (py "２７ мая") (py "２７ июля １９９０") = true.
Proof.
  apply (date_with_month_accepts_any_numeric_token _ _ (py "２７"));
    try (vm_compute; reflexivity).
  apply (bool_decide_unpack _). vm_compute. exact I.
Defined.

Lemma name_similarity_count user_name correct_name :
  lower user_name ≠ lower correct_name ->
  calculate_name_similarity user_name correct_name
  = let user_parts := split_ws (lower user_name) in
    let correct_parts := split_ws (lower correct_name) in
    if 0 <? length correct_parts
    then (Z.of_nat
            (length (List.filter
               (fun correct_part =>
                  existsb (fun user_part =>
                             gt_float (calculate_similarity user_part correct_part)
                                      (8 # 10))
                          user_parts)
               correct_parts))
          # Pos.of_nat (length correct_parts))%Q
    else 0%Q.
Proof.
  intros E. unfold calculate_name_similarity, str_eqb.
  rewrite bool_decide_eq_false_2 by done.
  by rewrite !map_strip_split_ws, matched_parts_count.
Qed.

Lemma filter_all_iff {A} (f : A -> bool) (l : list A) :
  length (List.filter f l) = length l <-> forallb f l = true.
Proof.
  induction l as [|x l IH]; simpl; [done|].
  pose proof (List.filter_length_le f l).
  destruct (f x); simpl; [rewrite <- IH; lia | split; [lia | done]].
Qed.

(** X8. For a correct name of one to four words, an answer that is not the
    name itself is accepted exactly when every word of the correct name
    is matched (similarity above 0.8) by some word of the answer: a
    surname alone is refused, extra words do no harm. *)
Theorem name_needs_every_part (user_answer correct_name : list N)
    (Hdiff : lower user_answer ≠ lower correct_name)
    (Hparts : 1 <= length (split_ws (lower correct_name)) <= 4) :
  name_rule user_answer correct_name
  = forallb (fun correct_part =>
               existsb (fun user_part =>
                          gt_float (calculate_similarity user_part correct_part)
                                   (8 # 10))
                       (split_ws (lower user_answer)))
            (split_ws (lower correct_name)).
Proof.
  unfold name_rule. rewrite name_similarity_count by done. cbn zeta.
  set (f := fun correct_part => existsb _ _).
  set (cps := split_ws (lower correct_name)) in *.
  destruct (Nat.ltb_spec 0 (length cps)); [|lia].
  pose proof (List.filter_length_le f cps) as Hle.
  pose proof (filter_all_iff f cps) as Hall.
  unfold ge_float, Qle_bool. cbn [Qnum Qden].
  rewrite <- (positive_nat_Z (Pos.of_nat (length cps))), Nat2Pos.id by lia.
  destruct (forallb f cps).
  - apply Z.leb_le. destruct Hall as [_ Hall]. rewrite Hall by done. lia.
  - apply Z.leb_gt.
    assert (length (List.filter f cps) ≠ length cps) as Hne.
    { intros E. apply Hall in E. done. }
    lia.
Qed.

Lemma name_needs_every_part_witness :
  name_rule (py "Костюшко") (py "Тадеуш Костюшко") = false
  /\ name_rule (py "тадеуш андрей костюшка") (py "Тадеуш Костюшко") = true.
Proof.
  split.
  - rewrite (name_needs_every_part (py "Костюшко") (py "Тадеуш Костюшко")).
    + vm_compute. reflexivity.
    + vm_compute. discriminate.
    + vm_compute. lia.
  - rewrite (name_needs_every_part (py "тадеуш андрей костюшка")
                                   (py "Тадеуш Костюшко")).
    + vm_compute. reflexivity.
    + vm_compute. discriminate.
    + vm_compute. lia.
Defined.

End VerdictFacts.

(** ** The statistics: counters, resets and the file *)

Section LedgerFacts.

Import StatsManager.

Lemma record_result_types us test_type question is_correct now tt' :
  test_types (record_result us test_type question is_correct now) !! tt'
  = if decide (test_type = tt')
    then
      let t := default (TypeStats 0 0) (test_types us !! test_type) in
      Some (TypeStats (ts_total t + 1)
                      (if is_correct then (ts_correct t + 1)%Z else ts_correct t))
    else test_types us !! tt'.
Proof.
  unfold record_result. cbn [test_types].
  set (types1 := match test_types us !! test_type with
                 | None => <[test_type := TypeStats 0 0]> (test_types us)
                 | Some _ => test_types us
                 end).
  assert (types1 !! test_type
          = Some (default (TypeStats 0 0) (test_types us !! test_type))) as H1.
  { unfold types1. destruct (test_types us !! test_type) eqn:E; simpl;
      [done | by rewrite lookup_insert_eq]. }
  assert (forall k, test_type ≠ k -> types1 !! k = test_types us !! k) as H2.
  { intros k Hk. unfold types1. destruct (test_types us !! test_type);
      [done | by rewrite lookup_insert_ne]. }
  case_decide as E.
  - subst tt'. destruct is_correct.
    + by rewrite !lookup_alter_eq, H1.
    + by rewrite lookup_alter_eq, H1.
  - destruct is_correct; rewrite ?lookup_alter_ne by done; by apply H2.
Qed.

Lemma count_correct_snoc calls c :
  count_correct (calls ++ [c])
  = count_correct calls + (if c_is_correct c then 1 else 0).
Proof.
  unfold count_correct. rewrite filter_app, length_app, filter_cons, filter_nil.
  destruct (c_is_correct c); [by rewrite decide_True | by rewrite decide_False].
Qed.

Lemma calls_of_question_snoc question calls c :
  calls_of_question question (calls ++ [c])
  = calls_of_question question calls
    ++ (if decide (c_question c = question) then [c] else []).
Proof.
  unfold calls_of_question. rewrite filter_app, filter_cons, filter_nil.
  by case_decide.
Qed.

Lemma calls_of_type_snoc test_type calls c :
  calls_of_type test_type (calls ++ [c])
  = calls_of_type test_type calls
    ++ (if decide (c_test_type c = test_type) then [c] else []).
Proof.
  unfold calls_of_type. rewrite filter_app, filter_cons, filter_nil.
  by case_decide.
Qed.

Lemma user_matches_new : user_matches (Some new_user_stats) [].
Proof.
  unfold new_user_stats. cbn [user_matches tests_total tests_correct test_types questions].
  split; [done|]. split; [done|].
  split; intros k; by rewrite lookup_empty.
Qed.

Lemma head_snoc {A} (l : list A) x :
  head (l ++ [x]) = match head l with Some y => Some y | None => Some x end.
Proof. by destruct l. Qed.

Lemma user_matches_record us calls user_id test_type question is_correct now :
  user_matches (Some us) calls ->
  user_matches (Some (record_result us test_type question is_correct now))
               (calls ++ [Call user_id test_type question is_correct now]).
Proof.
  intros (Ht & Hc & Htypes & Hqs). cbn [user_matches].
  split; [|split; [|split]].
  - unfold record_result. cbn [tests_total]. rewrite length_app. simpl. lia.
  - unfold record_result. cbn [tests_correct]. rewrite count_correct_snoc.
    cbn [c_is_correct]. clear Htypes Hqs. destruct is_correct; lia.
  - intros tt'. rewrite record_result_types, calls_of_type_snoc.
    cbn [c_test_type]. specialize (Htypes tt'). clear Hqs.
    case_decide as E; [subst tt'|by rewrite app_nil_r].
    destruct (test_types us !! test_type) as [t|]; cbn [type_matches] in *.
    + destruct Htypes as (Hne & H1 & H2).
      split; [by destruct (calls_of_type test_type calls)|].
      rewrite length_app, count_correct_snoc. cbn [c_is_correct default length].
      cbn [ts_total ts_correct]. unfold id. destruct is_correct; lia.
    + rewrite Htypes. cbn [app default length ts_total ts_correct].
      split; [done|]. unfold count_correct. rewrite filter_cons, filter_nil.
      cbn [c_is_correct]. destruct is_correct;
        [rewrite decide_True by done | rewrite decide_False by done]; done.
  - intros q'. rewrite record_result_questions, calls_of_question_snoc.
    cbn [c_question]. specialize (Hqs q'). clear Htypes.
    case_decide as E; [subst q'|by rewrite app_nil_r].
    unfold updated_question. rewrite trimmed_history.
    destruct (questions us !! question) as [q|]; cbn [question_matches] in *.
    + destruct Hqs as (Hne & H1 & H2 & H3 & H4 & H5).
      cbn [default qs_attempts qs_correct qs_last_attempt qs_test_type qs_history].
      split; [by destruct (calls_of_question question calls)|].
      rewrite length_app, count_correct_snoc, last_snoc, head_snoc, map_app.
      cbn [c_is_correct c_time length map fmap option_fmap option_map].
      unfold id.
      split; [lia|]. split; [destruct is_correct; lia|]. split; [done|].
      split.
      * rewrite H4. by destruct (head (calls_of_question question calls)).
      * rewrite H5. apply last_n_snoc.
    + rewrite Hqs.
      cbn [app default qs_attempts qs_correct qs_last_attempt qs_test_type
           qs_history length map].
      split; [done|]. split; [done|].
      unfold count_correct. rewrite filter_cons, filter_nil. cbn [c_is_correct].
      split; [|done].
      destruct is_correct;
        [rewrite decide_True by done | rewrite decide_False by done]; done.
Qed.

Lemma user_matches_default us calls :
  user_matches us calls -> user_matches (Some (default new_user_stats us)) calls.
Proof.
  destruct us as [u|]; [done|]. cbn [user_matches default]. intros ->.
  apply user_matches_new.
Qed.

Lemma stats_apply_record m c key :
  stats (apply_op m (RecordResult c)) !! key
  = if decide (str_of_int (c_user c) = key)
    then Some (record_result
                 (default new_user_stats (stats m !! str_of_int (c_user c)))
                 (c_test_type c) (c_question c) (c_is_correct c) (c_time c))
    else stats m !! key.
Proof.
  cbn [apply_op]. unfold add_call. rewrite stats_add_test_result, lookup_insert.
  done.
Qed.

Lemma stats_apply_reset m user_id key :
  stats (apply_op m (ResetUser user_id)) !! key
  = if decide (str_of_int user_id = key)
    then (fun _ => new_user_stats) <$> stats m !! key
    else stats m !! key.
Proof.
  cbn [apply_op]. unfold reset_user_stats.
  destruct (stats m !! str_of_int user_id) as [us|] eqn:E; cbn [fst].
  - rewrite stats_save_stats. cbn [stats].
    rewrite lookup_insert. case_decide; [subst key; by rewrite E | done].
  - case_decide; [subst key; by rewrite E | done].
Qed.

Lemma ledger_step ops m o key :
  user_matches (stats m !! key) (live_calls key ops) ->
  user_matches (stats (apply_op m o) !! key) (live_calls key (ops ++ [o])).
Proof.
  intros H. unfold live_calls in *. rewrite foldl_snoc.
  destruct o as [c|user_id]; cbn [live_step].
  - rewrite stats_apply_record. case_decide as E; [|done].
    subst key. destruct c as [uid tt q ok now].
    cbn [c_user c_test_type c_question c_is_correct c_time] in *.
    apply user_matches_record. by apply user_matches_default.
  - rewrite stats_apply_reset. case_decide as E; [|done].
    destruct (stats m !! key); [apply user_matches_new | done].
Qed.

(** X13. Whatever becomes of the writes to the file, the entry of every
    user agrees with the results recorded for the
    user since the last reset: the totals and the counters of each test
    type and of each question are the numbers of those results and of
    the correct ones, the time of the last attempt and the test type of
    a question are those of its last and of its first result, its
    history is the last ten of them; an entry, a test type or a question
    is absent exactly when no such result exists, except that a reset
    leaves the emptied entry of the user. *)
Theorem statistics_count_the_recorded_results :
  forall (disk : list write) (ops : list op) (user_key : list N),
    user_matches (stats (run_ops disk ops) !! user_key)
                 (live_calls user_key ops).
Proof.
  intros disk ops key. unfold run_ops.
  induction ops as [|o ops IH] using rev_ind.
  - cbn [foldl]. unfold new_manager_on. cbn [stats load_stats].
    by rewrite lookup_empty.
  - rewrite foldl_snoc. by apply ledger_step.
Qed.

(** What one call does to the counter, the file and the outcomes that
    are left: nothing is written and the counter grows by one for a
    result; or [_save_stats] is called and meets the next outcome. *)
Lemma apply_op_file m o :
  changes_count m <= 9 ->
  let m' := apply_op m o in
  (saved m' = saved m /\ disk m' = disk m
   /\ changes_count m' = changes_count m + (if recorded o then 1 else 0)
   /\ changes_count m' <= 9)
  \/ (changes_count m' = (if recorded o then 0 else changes_count m)
      /\ ((disk m' = tl (disk m) /\ saved m' = Complete (stats m')
           /\ (disk m = [] \/ exists rest, disk m = Written :: rest))
          \/ (disk m = NotOpened :: disk m' /\ saved m' = saved m)
          \/ (disk m = CutShort :: disk m' /\ saved m' = Incomplete))).
Proof.
  intros Hc. destruct o as [c|user_id]; cbn [apply_op recorded].
  - unfold add_call, add_test_result.
    destruct (get_or_create_user_stats _ _) as [st us]. unfold auto_save.
    cbn [changes_count stats saved disk]. unfold save_interval.
    destruct (Nat.leb_spec 10 (changes_count m + 1)).
    + right. unfold save_stats. cbn [changes_count stats saved disk].
      destruct (disk m) as [|[] rest]; cbn [fst changes_count stats saved disk tl];
        (split; [done|]); eauto 10.
    + left. cbn [changes_count stats saved disk]. repeat split; lia.
  - unfold reset_user_stats.
    destruct (stats m !! str_of_int user_id) as [us|]; cbn [fst].
    + right. unfold save_stats. cbn [changes_count stats saved disk].
      destruct (disk m) as [|[] rest]; cbn [fst changes_count stats saved disk tl];
        (split; [done|]); eauto 10.
    + left. repeat split; lia.
Qed.

Lemma run_ops_snoc disk ops o :
  run_ops disk (ops ++ [o]) = apply_op (run_ops disk ops) o.
Proof. unfold run_ops. by rewrite foldl_snoc. Qed.

(** X14. What a start of the bot would load from the statistics file is
    always the statistics as they were in memory after some earlier
    call (at the worst those of the very start, when the file is absent
    or cut short); and when every write succeeds, at most nine results
    were recorded since that call. *)
Theorem statistics_file_holds_an_earlier_state :
  forall (disk : list write) (ops : list op),
    exists k,
      k <= length ops
      /\ load_stats (saved (run_ops disk ops)) = stats (run_ops disk (take k ops))
      /\ (Forall (fun w => w = Written) disk ->
          length (List.filter recorded (drop k ops)) <= 9).
Proof.
  intros disk0 ops.
  assert (changes_count (run_ops disk0 ops) <= 9
          /\ (exists used, disk0 = used ++ disk (run_ops disk0 ops))
          /\ exists k,
               k <= length ops
               /\ load_stats (saved (run_ops disk0 ops))
                  = stats (run_ops disk0 (take k ops))
               /\ (Forall (fun w => w = Written) disk0 ->
                   length (List.filter recorded (drop k ops))
                   <= changes_count (run_ops disk0 ops)))
    as (Hc & _ & k & Hk & Hs & Hn).
  2:{ exists k. split; [done|]. split; [done|]. intros H. specialize (Hn H). lia. }
  induction ops as [|o ops IH] using rev_ind.
  - split; [simpl; lia|]. split; [by exists []|]. exists 0. by repeat split.
  - destruct IH as (Hc & [used Hused] & k & Hk & Hs & Hn).
    rewrite run_ops_snoc.
    set (m := run_ops disk0 ops) in *.
    assert (take (length (ops ++ [o])) (ops ++ [o]) = ops ++ [o]) as Htake
      by apply firstn_all.
    assert (drop (length (ops ++ [o])) (ops ++ [o]) = []) as Hdrop
      by apply drop_all.
    assert (take k (ops ++ [o]) = take k ops) as Htk by (by rewrite take_app_le).
    assert (drop k (ops ++ [o]) = drop k ops ++ [o]) as Hdk
      by (by rewrite drop_app_le).
    assert (forall w rest, disk m = w :: rest -> w ≠ Written ->
              ~ Forall (fun w => w = Written) disk0) as Hfailed.
    { intros w rest E Hw H. rewrite Hused, E in H.
      apply Forall_app in H as [_ H]. by apply Forall_cons in H as [? _]. }
    destruct (apply_op_file m o Hc)
      as [(Hsaved & Hdisk & Hcount & Hle)
         |(Hcount & [(Hdisk & Hsaved & _)|[(Hdisk & Hsaved)|(Hdisk & Hsaved)]])].
    + (* nothing is written *)
      split; [done|]. split; [exists used; by rewrite Hdisk|].
      exists k. rewrite length_app, Htk, Hdk, Hsaved.
      split; [lia|]. split; [done|]. intros H. specialize (Hn H).
      rewrite List.filter_app, length_app, Hcount. cbn [List.filter].
      destruct (recorded o); simpl; lia.
    + (* the write succeeds *)
      split; [destruct (recorded o); lia|]. split.
      { destruct (disk m) as [|w rest] eqn:E.
        - exists used. rewrite Hdisk. by rewrite Hused.
        - exists (used ++ [w]). rewrite Hdisk, Hused. cbn [tl].
          by rewrite <- app_assoc. }
      exists (length (ops ++ [o])). rewrite Htake, Hdrop, run_ops_snoc, Hsaved.
      fold m. split; [lia|]. split; [done|]. intros _. simpl. lia.
    + (* [open] fails: the file stays *)
      split; [destruct (recorded o); lia|]. split.
      { exists (used ++ [NotOpened]). rewrite Hused, Hdisk.
        by rewrite <- app_assoc. }
      exists k. rewrite length_app, Htk, Hsaved.
      split; [lia|]. split; [done|]. intros H.
      by destruct (Hfailed NotOpened _ Hdisk).
    + (* the write is cut short *)
      split; [destruct (recorded o); lia|]. split.
      { exists (used ++ [CutShort]). rewrite Hused, Hdisk.
        by rewrite <- app_assoc. }
      exists 0. rewrite Hsaved. split; [lia|]. split; [done|]. intros H.
      by destruct (Hfailed CutShort _ Hdisk).
Qed.

(** Results recorded while the counter stays below ten touch neither
    the file nor the outcomes that are left. *)
Lemma quiet_results calls : forall m,
  changes_count m + length calls <= 9 ->
  let m' := foldl apply_op m (map RecordResult calls) in
  saved m' = saved m /\ disk m' = disk m
  /\ changes_count m' = changes_count m + length calls.
Proof.
  induction calls as [|c calls IH] using rev_ind; intros m Hlen.
  - cbn. repeat split; lia.
  - rewrite length_app in Hlen. cbn [length] in Hlen.
    rewrite map_app, foldl_app. cbn [map foldl].
    destruct (IH m ltac:(lia)) as (Hs & Hd & Hc).
    set (m1 := foldl apply_op m (map RecordResult calls)) in *.
    destruct (apply_op_file m1 (RecordResult c) ltac:(lia))
      as [(Hsaved & Hdisk & Hcount & _)|(Hcount & _)]; cbn [recorded] in *.
    + rewrite length_app. cbn [length]. cbn zeta.
      rewrite Hsaved, Hdisk, Hcount, Hs, Hd, Hc. repeat split; lia.
    + exfalso. revert Hcount. cbn [apply_op]. unfold add_call, add_test_result.
      destruct (get_or_create_user_stats _ _) as [st us]. unfold auto_save.
      cbn [changes_count]. unfold save_interval.
      rewrite (proj2 (Nat.leb_gt _ _)) by lia. cbn [changes_count]. lia.
Qed.

(** The tenth result calls [_save_stats] and sets the counter to zero. *)
Lemma tenth_result m c :
  changes_count m = 9 ->
  let m' := apply_op m (RecordResult c) in
  changes_count m' = 0
  /\ disk m' = tl (disk m)
  /\ saved m' = match disk m with
                | [] | Written :: _ => Complete (stats m')
                | NotOpened :: _ => saved m
                | CutShort :: _ => Incomplete
                end.
Proof.
  intros Hc. cbn [apply_op]. unfold add_call, add_test_result.
  destruct (get_or_create_user_stats _ _) as [st us]. unfold auto_save.
  cbn [changes_count stats saved disk]. unfold save_interval.
  rewrite (proj2 (Nat.leb_le _ _)) by lia.
  unfold save_stats. cbn [changes_count stats saved disk].
  by destruct (disk m) as [|[] rest].
Qed.

Lemma results_leave_an_entry disk calls :
  calls ≠ [] -> stats (run_ops disk (map RecordResult calls)) ≠ ∅.
Proof.
  destruct calls as [|c calls _] using rev_ind; [done|]. intros _ H.
  rewrite map_app in H. cbn [map] in H. rewrite run_ops_snoc in H.
  pose proof (stats_apply_record (run_ops disk (map RecordResult calls)) c
                (str_of_int (c_user c))) as Hl.
  rewrite decide_True in Hl by done. rewrite H, lookup_empty in Hl. done.
Qed.

(** X23. A write that fails is not tried again: when the first call of
    [_save_stats] fails, made for the tenth result, the counter starts
    again all the same, so that with ten to nineteen results recorded a
    start of the bot would load no statistics at all, and the file is
    ten results or more behind whichever earlier state one compares it
    with. *)
Theorem failed_write_is_not_retried
    (w : write) (disk : list write) (calls : list call)
    (Hfails : w ≠ Written)
    (Hmany : 10 <= length calls <= 19) :
  let ops := map RecordResult calls in
  let m := run_ops (w :: disk) ops in
  load_stats (saved m) = ∅
  /\ stats m ≠ ∅
  /\ changes_count m = length calls - 10
  /\ forall k,
       k <= length ops ->
       load_stats (saved m) = stats (run_ops (w :: disk) (take k ops)) ->
       10 <= length (List.filter recorded (drop k ops)).
Proof.
  cbn zeta.
  assert (load_stats (saved (run_ops (w :: disk) (map RecordResult calls))) = ∅
          /\ changes_count (run_ops (w :: disk) (map RecordResult calls))
             = length calls - 10) as [Hload Hcount].
  { rewrite <- (take_drop 9 calls) at 1 2.
    destruct (drop 9 calls) as [|c rest] eqn:E.
    { apply (f_equal length) in E. rewrite length_drop in E. simpl in E. lia. }
    assert (length rest = length calls - 10) as Hrest.
    { apply (f_equal length) in E. rewrite length_drop in E. simpl in E. lia. }
    unfold run_ops. rewrite !map_app, !foldl_app. cbn [map foldl].
    destruct (quiet_results (take 9 calls) (new_manager_on (w :: disk)))
      as (Hs1 & Hd1 & Hc1).
    { rewrite length_take. unfold new_manager_on. cbn [changes_count]. lia. }
    set (m1 := foldl apply_op (new_manager_on (w :: disk))
                     (map RecordResult (take 9 calls))) in *.
    rewrite length_take in Hc1. unfold new_manager_on in Hc1.
    cbn [changes_count] in Hc1.
    destruct (tenth_result m1 c) as (Hc2 & Hd2 & Hs2); [lia|].
    set (m2 := apply_op m1 (RecordResult c)) in *.
    destruct (quiet_results rest m2) as (Hs3 & Hd3 & Hc3); [lia|].
    rewrite Hs3, Hc3, Hs2, Hd1, Hs1, Hc2. unfold new_manager_on.
    cbn [StatsManager.disk saved load_stats].
    split; [|lia]. by destruct w. }
  split; [done|]. split.
  { apply results_leave_an_entry. intros ->. simpl in Hmany. lia. }
  split; [done|]. intros k Hk Hsame.
  destruct k as [|k].
  - rewrite drop_0.
    assert (length (List.filter recorded (map RecordResult calls)) = length calls)
      as -> by (clear; induction calls as [|c calls IH]; simpl; lia).
    lia.
  - exfalso. rewrite Hload in Hsame. rewrite firstn_map in Hsame.
    symmetry in Hsame. revert Hsame. apply results_leave_an_entry.
    intros E. apply (f_equal length) in E. rewrite length_take in E.
    cbn [length] in E. lia.
Qed.

Lemma failed_write_is_not_retried_witness :
  let ops := map RecordResult demo_results in
  let m := run_ops [CutShort] ops in
  load_stats (saved m) = ∅
  /\ stats m ≠ ∅
  /\ changes_count m = length demo_results - 10
  /\ forall k,
       k <= length ops ->
       load_stats (saved m) = stats (run_ops [CutShort] (take k ops)) ->
       10 <= length (List.filter recorded (drop k ops)).
Proof.
  apply (failed_write_is_not_retried CutShort [] demo_results).
  - discriminate.
  - vm_compute. lia.
Defined.

End LedgerFacts.

(** ** The database of facts *)

Section DatabaseFacts.

Import KnowledgeTest.

Lemma numbers_snoc n :
  map Z.of_nat (seq 0 (n + 1)) = map Z.of_nat (seq 0 n) ++ [Z.of_nat n].
Proof. by rewrite Nat.add_1_r, seq_S, map_app. Qed.

Lemma add_event_ok db date description :
  well_numbered db ->
  well_numbered (add_event db date description).1
  /\ file_current (add_event db date description).1.
Proof.
  intros [He Hf]. split; [|done]. split; cbn [add_event fst save_data dm_events dm_figures];
    [|done].
  rewrite map_app, length_app, He. cbn [length map ev_id]. by rewrite numbers_snoc.
Qed.

Lemma add_figure_ok db name achievement :
  well_numbered db ->
  well_numbered (add_figure db name achievement).1
  /\ file_current (add_figure db name achievement).1.
Proof.
  intros [He Hf]. split; [|done]. split; cbn [add_figure fst save_data dm_events dm_figures];
    [done|].
  rewrite map_app, length_app, Hf. cbn [length map fig_id]. by rewrite numbers_snoc.
Qed.

Lemma add_events_ok facts db :
  well_numbered db -> file_current db ->
  well_numbered (foldl (fun db ev => (add_event db ev.1 ev.2).1) db facts)
  /\ file_current (foldl (fun db ev => (add_event db ev.1 ev.2).1) db facts).
Proof.
  revert db. induction facts as [|x l IH]; intros db Hw Hc; [done|].
  cbn [foldl]. destruct (add_event_ok db x.1 x.2 Hw). by apply IH.
Qed.

Lemma add_figures_ok facts db :
  well_numbered db -> file_current db ->
  well_numbered (foldl (fun db fg => (add_figure db fg.1 fg.2).1) db facts)
  /\ file_current (foldl (fun db fg => (add_figure db fg.1 fg.2).1) db facts).
Proof.
  revert db. induction facts as [|x l IH]; intros db Hw Hc; [done|].
  cbn [foldl]. destruct (add_figure_ok db x.1 x.2 Hw). by apply IH.
Qed.

Lemma initialize_sample_data_ok db :
  well_numbered db -> file_current db ->
  well_numbered (initialize_sample_data db)
  /\ file_current (initialize_sample_data db).
Proof.
  intros Hw Hc. unfold initialize_sample_data.
  destruct (dm_events db) eqn:He; [|done].
  destruct (dm_figures db) eqn:Hf; [|done].
  destruct (add_events_ok sample_events db Hw Hc) as [Hw1 Hc1].
  by apply add_figures_ok.
Qed.

Lemma apply_db_op_ok db o :
  well_numbered db -> file_current db ->
  well_numbered (apply_db_op db o) /\ file_current (apply_db_op db o).
Proof.
  intros Hw Hc. destruct o; cbn [apply_db_op].
  - by apply add_event_ok.
  - by apply add_figure_ok.
  - by apply initialize_sample_data_ok.
Qed.

Lemma numbers_NoDup n : NoDup (map Z.of_nat (seq 0 n)).
Proof.
  apply NoDup_fmap_2; [intros x y; lia | apply NoDup_seq].
Qed.

(** X15. From a database whose facts are numbered by their positions and
    whose file is up to date (the empty one of a first start, or one
    written by an earlier run), every sequence of additions and of
    sample initialisations leaves each fact's id equal to its position,
    so no two events and no two figures share an id, and the file equal
    to the data in memory. *)
Theorem database_ids_are_positions (db : database) (ops : list db_op)
    (Hnumbered : well_numbered db)
    (Hfile : dm_file db = Some (dm_events db, dm_figures db)) :
  let db' := foldl apply_db_op db ops in
  (forall i e, dm_events db' !! i = Some e -> ev_id e = Z.of_nat i)
  /\ (forall i f, dm_figures db' !! i = Some f -> fig_id f = Z.of_nat i)
  /\ NoDup (map ev_id (get_all_events db'))
  /\ NoDup (map fig_id (get_all_figures db'))
  /\ dm_file db' = Some (dm_events db', dm_figures db').
Proof.
  cbn zeta.
  assert (well_numbered (foldl apply_db_op db ops)
          /\ file_current (foldl apply_db_op db ops)) as [[He Hf] Hc].
  { revert db Hnumbered Hfile. induction ops as [|o ops IH]; intros db Hw Hc; [done|].
    cbn [foldl]. destruct (apply_db_op_ok db o Hw Hc). by apply IH. }
  unfold get_all_events, get_all_figures.
  split; [|split; [|split; [|split]]]; [| |rewrite He|rewrite Hf|done];
    try apply numbers_NoDup.
  - intros i e Hi.
    assert (map ev_id (dm_events (foldl apply_db_op db ops)) !! i = Some (ev_id e)) as H
      by (by rewrite list_lookup_fmap, Hi).
    rewrite He, list_lookup_fmap in H.
    apply fmap_Some in H as (n & Hn & ->). apply lookup_seq in Hn as [-> _]. done.
  - intros i f Hi.
    assert (map fig_id (dm_figures (foldl apply_db_op db ops)) !! i = Some (fig_id f)) as H
      by (by rewrite list_lookup_fmap, Hi).
    rewrite Hf, list_lookup_fmap in H.
    apply fmap_Some in H as (n & Hn & ->). apply lookup_seq in Hn as [-> _]. done.
Qed.

Lemma database_ids_are_positions_witness :
  let db' := foldl apply_db_op (init None)
               [AddEvent (py "1569") (py "Люблинская уния");
                InitializeSampleData;
                AddFigure (py "Якуб Колас") (py "Народный поэт Беларуси")] in
  (forall i e, dm_events db' !! i = Some e -> ev_id e = Z.of_nat i)
  /\ (forall i f, dm_figures db' !! i = Some f -> fig_id f = Z.of_nat i)
  /\ NoDup (map ev_id (get_all_events db'))
  /\ NoDup (map fig_id (get_all_figures db'))
  /\ dm_file db' = Some (dm_events db', dm_figures db').
Proof.
  apply (database_ids_are_positions (init None)); [split|]; reflexivity.
Defined.

Lemma find_snoc {A} (p : A -> bool) (l : list A) x :
  List.find p (l ++ [x])
  = match List.find p l with
    | Some y => Some y
    | None => if p x then Some x else None
    end.
Proof. induction l as [|y l IH]; simpl; [done|]. by destruct (p y). Qed.

(** X16. Adding a fact never changes what a lookup found before: each of the
    four lookups returns the oldest matching fact, and finds the new one
    only when no older one matches (dates are compared exactly,
    descriptions, names and achievements without regard to case). *)
Theorem lookup_after_add :
  forall (db : database) (x y key : list N),
    get_event_by_date (add_event db x y).1 key
    = match get_event_by_date db key with
      | Some e => Some e
      | None =>
        if decide (x = key)
        then Some (Event (Z.of_nat (length (dm_events db))) x y) else None
      end
    /\ get_event_by_description (add_event db x y).1 key
    = match get_event_by_description db key with
      | Some e => Some e
      | None =>
        if decide (lower y = lower key)
        then Some (Event (Z.of_nat (length (dm_events db))) x y) else None
      end
    /\ get_figure_by_name (add_figure db x y).1 key
    = match get_figure_by_name db key with
      | Some f => Some f
      | None =>
        if decide (lower x = lower key)
        then Some (Figure (Z.of_nat (length (dm_figures db))) x y) else None
      end
    /\ get_figure_by_achievement (add_figure db x y).1 key
    = match get_figure_by_achievement db key with
      | Some f => Some f
      | None =>
        if decide (lower y = lower key)
        then Some (Figure (Z.of_nat (length (dm_figures db))) x y) else None
      end.
Proof.
  intros db x y key.
  unfold get_event_by_date, get_event_by_description, get_figure_by_name,
    get_figure_by_achievement.
  cbn [add_event add_figure fst save_data dm_events dm_figures].
  rewrite !find_snoc. cbn [ev_date ev_description fig_name fig_achievement].
  repeat split; destruct (List.find _ _); try done;
    case_bool_decide; by case_decide.
Qed.

(** X17. [initialize_sample_data] changes nothing in a database that holds a
    fact, fills an empty one with the 13 events and 8 figures of the
    sample, and is therefore without effect the second time. *)
Theorem initialize_sample_data_once :
  forall db : database,
    (dm_events db ≠ [] \/ dm_figures db ≠ [] -> initialize_sample_data db = db)
    /\ (dm_events db = [] -> dm_figures db = [] ->
        length (dm_events (initialize_sample_data db)) = 13
        /\ length (dm_figures (initialize_sample_data db)) = 8
        /\ map (fun e => (ev_date e, ev_description e))
               (dm_events (initialize_sample_data db)) = sample_events
        /\ map (fun f => (fig_name f, fig_achievement f))
               (dm_figures (initialize_sample_data db)) = sample_figures)
    /\ initialize_sample_data (initialize_sample_data db)
       = initialize_sample_data db.
Proof.
  intros [evs figs file]. cbn [dm_events dm_figures].
  assert (forall f, initialize_sample_data
                      (initialize_sample_data (Database [] [] f))
                    = initialize_sample_data (Database [] [] f)) as Htwice.
  { intros f. vm_compute. reflexivity. }
  split; [|split].
  - intros [H|H]; unfold initialize_sample_data; cbn [dm_events dm_figures];
      destruct evs; try done; by destruct figs.
  - intros -> ->. repeat split; vm_compute; reflexivity.
  - destruct evs as [|e evs]; [destruct figs as [|f figs]|]; [apply Htwice|done..].
Qed.

(** X18. [get_random_events] and [get_random_figures] return no fact more
    often than the database holds it, and for a count that is not
    negative they return [min(count, len)] facts. *)
Theorem random_events_are_a_sample (db : database) (count : Z) (rs : list nat)
    (Hcount : (0 <= count)%Z) :
  get_random_events db count rs ⊆+ get_all_events db
  /\ length (get_random_events db count rs)
     = Nat.min (Z.to_nat count) (length (get_all_events db))
  /\ get_random_figures db count rs ⊆+ get_all_figures db
  /\ length (get_random_figures db count rs)
     = Nat.min (Z.to_nat count) (length (get_all_figures db)).
Proof.
  unfold get_random_events, get_random_figures, get_all_events, get_all_figures.
  assert (forall A (l : list A),
            slice_to (random_shuffle l rs).1 (Z.min count (Z.of_nat (length l))) ⊆+ l
            /\ length (slice_to (random_shuffle l rs).1
                                (Z.min count (Z.of_nat (length l))))
               = Nat.min (Z.to_nat count) (length l)) as Hgen.
  { intros A l. unfold slice_to.
    destruct (Z.leb_spec 0 (Z.min count (Z.of_nat (length l)))); [|lia].
    split.
    - trans (random_shuffle l rs).1.
      + apply sublist_submseteq, sublist_take.
      + apply Permutation_submseteq, random_shuffle_perm.
    - rewrite length_take, random_shuffle_perm. lia. }
  destruct (dm_events db) as [|e evs] eqn:He; destruct (dm_figures db) as [|f figs] eqn:Hf;
    repeat split; try done; try apply Hgen; simpl; lia.
Qed.

Lemma random_events_are_a_sample_witness :
  get_random_events (initialize_sample_data (init None)) 3 [5; 1; 4; 0; 7] ⊆+
    get_all_events (initialize_sample_data (init None))
  /\ length (get_random_events (initialize_sample_data (init None)) 3 [5; 1; 4; 0; 7])
     = Nat.min (Z.to_nat 3)
               (length (get_all_events (initialize_sample_data (init None))))
  /\ get_random_figures (initialize_sample_data (init None)) 3 [5; 1; 4; 0; 7] ⊆+
    get_all_figures (initialize_sample_data (init None))
  /\ length (get_random_figures (initialize_sample_data (init None)) 3 [5; 1; 4; 0; 7])
     = Nat.min (Z.to_nat 3)
               (length (get_all_figures (initialize_sample_data (init None)))).
Proof. apply random_events_are_a_sample. lia. Defined.

End DatabaseFacts.

(** ** The marathon *)

Section MarathonSessions.

Import StatsManager KnowledgeTest.

Lemma check_answer_active ud t user_answer user_id now sm :
  ud_current_test ud = Some t ->
  exists question,
    check_answer ud user_answer user_id now sm
    = (verdict t user_answer, ResultMessage t (verdict t user_answer),
       add_test_result sm user_id (test_type_of t) question
                       (verdict t user_answer) now).
Proof.
  intros E. unfold check_answer. rewrite E.
  destruct t; cbn [verdict test_type_of]; eauto.
Qed.

Lemma total_of_add_test_result sm user_id test_type question is_correct now :
  total_of (add_test_result sm user_id test_type question is_correct now) user_id
  = (total_of sm user_id + 1)%Z.
Proof.
  unfold total_of. rewrite stats_add_test_result, lookup_insert_eq. reflexivity.
Qed.

Lemma count_true_cons b l :
  count_true (b :: l) = ((if b then 1 else 0) + count_true l)%Z.
Proof.
  unfold count_true. rewrite filter_cons.
  destruct b; case_decide; try done; cbn [length]; lia.
Qed.

(** An answer while a marathon is active and a test is shown. *)
Lemma check_marathon_answer_active user_id s m t user_answer now :
  s_marathon s = Active m ->
  ud_current_test (s_user s) = Some t ->
  exists sm,
    check_marathon_answer user_id s user_answer now
    = Returns
        (Session (s_test s) (s_user s)
           (Active (MkMarathon (m_questions_count m) (m_current_question m)
                      (m_correct_answers m
                       + (if verdict t user_answer then 1 else 0))
                      (m_questions m)
                      (m_history m ++ [(t, verdict t user_answer)])))
           sm,
         AnswerMessage (ResultMessage t (verdict t user_answer)))
    /\ total_of sm user_id = (total_of (s_stats s) user_id + 1)%Z.
Proof.
  intros Hm Ht. unfold check_marathon_answer.
  destruct (check_answer_active (s_user s) t user_answer user_id now (s_stats s) Ht)
    as (q & ->).
  rewrite Ht, Hm. cbn [the_marathon].
  exists (add_test_result (s_stats s) user_id (test_type_of t) q
            (verdict t user_answer) now).
  split; [|apply total_of_add_test_result].
  destruct (verdict t user_answer); cbn [the_marathon m_questions_count
    m_current_question m_correct_answers m_questions m_history];
    [reflexivity|]. by rewrite Z.add_0_r.
Qed.

(** A question from pools that are not empty. *)
Lemma start_test_asks q st user_id ud r :
  all_events st ≠ [] -> all_figures st ≠ [] ->
  exists st' ct,
    start_test q st user_id ud r
    = Ok (st', UserData (ud_state ud) (Some ct), QuestionMessage ct)
    /\ asked ct = q
    /\ all_events st' = all_events st /\ all_figures st' = all_figures st.
Proof.
  intros He Hf.
  destruct q;
    unfold start_test, start_date_test, start_event_test, start_figure_test,
      start_achievement_test, start_event_kind, start_figure_kind.
  all: match goal with
       | |- context [pick_unused ?f ?used ?u ?all ?r0] =>
         destruct (pick_unused_ok f used u all r0)
           as (x & consumed' & -> & Hx & Hcase); [done|]
       end.
  all: cbn [present_question]; eexists _, _; split; [reflexivity|]; done.
Qed.

Lemma next_marathon_question_active user_id s m q r :
  s_marathon s = Active m ->
  (0 <= m_current_question m < m_questions_count m)%Z ->
  m_questions m !! Z.to_nat (m_current_question m) = Some q ->
  all_events (s_test s) ≠ [] -> all_figures (s_test s) ≠ [] ->
  exists st' ct,
    next_marathon_question user_id s r
    = Returns
        (Session st' (UserData (Some (py "marathon")) (Some ct))
           (Active (MkMarathon (m_questions_count m) (m_current_question m + 1)
                      (m_correct_answers m) (m_questions m) (m_history m)))
           (s_stats s),
         ProgressMessage (m_current_question m + 1) (m_questions_count m)
                         (QuestionMessage ct))
    /\ asked ct = q
    /\ all_events st' = all_events (s_test s)
    /\ all_figures st' = all_figures (s_test s).
Proof.
  intros Hm Hk Hq He Hf. unfold next_marathon_question. rewrite Hm.
  rewrite (proj2 (Z.leb_gt _ _)) by lia.
  unfold list_index. rewrite (proj2 (Z.leb_le _ _)) by lia. rewrite Hq.
  destruct (start_test_asks q (s_test s) user_id
              (UserData (Some (py "marathon")) (ud_current_test (s_user s))) r He Hf)
    as (st' & ct & -> & Hasked & He' & Hf').
  eexists _, _. split; [reflexivity|]. done.
Qed.

Lemma marathon_questions_length questions_count rs :
  (0 <= questions_count)%Z ->
  length (marathon_questions questions_count rs) = Z.to_nat questions_count.
Proof.
  intros Hcount. unfold marathon_questions.
  pose proof (random_shuffle_perm question_types rs) as Hbase.
  destruct (random_shuffle question_types rs) as [base rs1]. cbn [fst] in Hbase.
  assert (length base = 4) as Hlen by (by rewrite Hbase).
  destruct (fill_random_app (Z.to_nat (questions_count - Z.of_nat (length base)))
              base rs1) as (extra & Hfill & Hextra).
  destruct (fill_random _ base rs1) as [questions rs2]. cbn [fst] in Hfill.
  subst questions. unfold slice_to.
  destruct (Z.leb_spec 0 questions_count) as [_|]; [|lia].
  rewrite random_shuffle_perm, length_take, length_app. lia.
Qed.

(** The rounds that are left of a marathon, from a question that is
    shown to the result message. *)
Lemma rounds_to_the_end user_id rounds : forall s m k ct,
  s_marathon s = Active m ->
  m_current_question m = (Z.of_nat k + 1)%Z ->
  length (m_questions m) = Z.to_nat (m_questions_count m) ->
  k + length rounds = Z.to_nat (m_questions_count m) ->
  rounds ≠ [] ->
  ud_current_test (s_user s) = Some ct ->
  m_questions m !! k = Some (asked ct) ->
  all_events (s_test s) ≠ [] -> all_figures (s_test s) ≠ [] ->
  exists s' replies new,
    run_marathon user_id s
      (flat_map (fun x : list N * Z * nat =>
                   [Answer x.1.1 x.1.2; NextQuestion x.2]) rounds)
    = Returns (s', replies)
    /\ last replies
       = Some (MarathonResultMessage
                 (m_correct_answers m + count_true (map snd new))
                 (m_questions_count m) (m_history m ++ new))
    /\ map (fun h => asked h.1) new = drop k (m_questions m)
    /\ Forall2 (fun h (x : list N * Z * nat) => h.2 = verdict h.1 x.1.1) new rounds
    /\ s_marathon s' = IsNone
    /\ ud_state (s_user s') = None
    /\ is_Some (ud_current_test (s_user s'))
    /\ total_of (s_stats s') user_id
       = (total_of (s_stats s) user_id + Z.of_nat (length rounds))%Z.
Proof.
  induction rounds as [|[[a now] r] rest IH]; intros s m k ct Hm Hcur Hlen Hk Hne Ht Hq
    He Hf; [done|].
  cbn [flat_map app run_marathon marathon_step fst snd].
  destruct (check_marathon_answer_active user_id s m ct a now Hm Ht)
    as (sm1 & -> & Htot1).
  set (v := verdict ct a) in *.
  set (m1 := MkMarathon _ _ _ _ _).
  set (s1 := Session _ _ (Active m1) sm1).
  destruct rest as [|x rest'].
  - (* the last round: the button leads to the result *)
    cbn [length] in Hk.
    cbn [flat_map app run_marathon marathon_step].
    unfold next_marathon_question, s1, m1. cbn [s_marathon m_current_question
      m_questions_count].
    rewrite Hcur. rewrite (proj2 (Z.leb_le _ _)) by lia.
    unfold finish_marathon.
    cbn [s_marathon the_marathon m_questions_count m_correct_answers m_history
         s_test s_user s_stats].
    rewrite (proj2 (Z.eqb_neq _ _)) by lia.
    eexists _, _, [(ct, v)]. split; [reflexivity|].
    cbn [last map snd fst]. rewrite count_true_cons.
    split; [repeat f_equal; unfold count_true; simpl; lia|].
    split.
    { rewrite (drop_S _ _ _ Hq). rewrite drop_ge by lia. done. }
    split; [by repeat constructor|].
    split; [done|]. split; [done|]. split; [by rewrite Ht|].
    cbn [s_stats length]. lia.
  - (* another question follows *)
    cbn [length] in Hk.
    assert (is_Some (m_questions m !! S k)) as [q Hq'].
    { apply lookup_lt_is_Some. lia. }
    destruct (next_marathon_question_active user_id s1 m1 q r
                eq_refl) as (st2 & ct2 & Hnext & Hasked & He2 & Hf2).
    { unfold m1. cbn [m_current_question m_questions_count]. lia. }
    { unfold m1. cbn [m_current_question m_questions]. rewrite Hcur.
      by replace (Z.to_nat (Z.of_nat k + 1)) with (S k) by lia. }
    { done. }
    { done. }
    unfold m1 in Hnext.
    cbn [m_current_question m_questions_count m_correct_answers m_questions
         m_history] in Hnext.
    set (m2 := MkMarathon _ _ _ _ _) in Hnext.
    set (s2 := Session st2 _ (Active m2) _) in Hnext.
    assert (m_current_question m2 = (Z.of_nat (S k) + 1)%Z) as Hcur2
      by (unfold m2; cbn [m_current_question]; lia).
    assert (S k + length (x :: rest') = Z.to_nat (m_questions_count m2)) as Hk2
      by (unfold m2; cbn [m_questions_count length]; lia).
    assert (m_questions m2 !! S k = Some (asked ct2)) as Hq2
      by (unfold m2; cbn [m_questions]; by rewrite Hasked).
    assert (all_events (s_test s2) ≠ []) as He3
      by (unfold s2; cbn [s_test]; rewrite He2; exact He).
    assert (all_figures (s_test s2) ≠ []) as Hf3
      by (unfold s2; cbn [s_test]; rewrite Hf2; exact Hf).
    destruct (IH s2 m2 (S k) ct2 eq_refl Hcur2 Hlen Hk2 ltac:(done) eq_refl Hq2
                 He3 Hf3)
      as (s' & replies & new & Hrun & Hlast & Hmap
          & Hverdicts & Hslot & Hstate & Htest & Htot).
    rewrite Hnext, Hrun.
    eexists _, _, ((ct, v) :: new). split; [reflexivity|].
    split.
    { rewrite !last_cons, Hlast. unfold m2.
      cbn [m_correct_answers m_questions_count m_history].
      cbn [map snd]. rewrite count_true_cons, <- app_assoc. cbn [app].
      by rewrite Z.add_assoc. }
    split.
    { cbn [map fst]. rewrite (drop_S _ _ _ Hq). by rewrite Hmap. }
    split; [by constructor|].
    split; [done|]. split; [done|]. split; [done|].
    rewrite Htot. unfold s2, s1. cbn [s_stats length]. lia.
Qed.

(** X20. A marathon of [N >= 1] questions over pools that are not empty,
    played as the buttons lead (an answer, then the button for the next
    question, [N] times), never raises and ends with the result message:
    its history has one entry per question, in the order of the sequence
    of types that was drawn, each with the verdict of [check_answer] on
    that round's answer; the number of correct answers it shows is the
    number of correct entries; the statistics hold [N] more results of
    the user; the marathon and the state are cleared, so that the button
    pressed once more gives the message that no marathon is
    initialised, and a further answer raises [TypeError]. *)
Theorem marathon_played_to_the_end
    (user_id : Z) (s : session) (questions_count : Z) (rs : list nat) (r : nat)
    (rounds : list (list N * Z * nat))
    (Hevents : all_events (s_test s) ≠ [])
    (Hfigures : all_figures (s_test s) ≠ [])
    (Hcount : (1 <= questions_count)%Z)
    (Hrounds : length rounds = Z.to_nat questions_count) :
  exists s' replies history,
    run_marathon user_id s (played questions_count rs r rounds)
    = Returns (s', replies)
    /\ last replies
       = Some (MarathonResultMessage (count_true (map snd history))
                                     questions_count history)
    /\ length history = Z.to_nat questions_count
    /\ map (fun h => asked h.1) history = marathon_questions questions_count rs
    /\ Forall2 (fun h (x : list N * Z * nat) => h.2 = verdict h.1 x.1.1)
               history rounds
    /\ total_of (s_stats s') user_id
       = (total_of (s_stats s) user_id + questions_count)%Z
    /\ s_marathon s' = IsNone
    /\ ud_state (s_user s') = None
    /\ (forall r', next_marathon_question user_id s' r'
                   = Returns (s', NotInitialisedMessage))
    /\ (forall user_answer now,
          check_marathon_answer user_id s' user_answer now = Raises TypeError).
Proof.
  pose proof (marathon_questions_length questions_count rs ltac:(lia)) as Hlen.
  assert (is_Some (marathon_questions questions_count rs !! 0)) as [q Hq].
  { apply lookup_lt_is_Some. lia. }
  unfold played. cbn [run_marathon marathon_step]. unfold start_marathon.
  set (m0 := MkMarathon questions_count 0 0 _ []).
  set (s0 := Session _ _ (Active m0) _).
  destruct (next_marathon_question_active user_id s0 m0 q r eq_refl)
    as (st1 & ct & -> & Hasked & He & Hf); try done.
  { unfold m0. cbn [m_current_question m_questions_count]. lia. }
  unfold m0, s0.
  cbn [m_current_question m_questions_count m_correct_answers m_questions
       m_history s_stats].
  set (m1 := MkMarathon _ _ _ _ _).
  set (s1 := Session st1 _ (Active m1) _).
  assert (0 + length rounds = Z.to_nat (m_questions_count m1)) as Hk1
    by (unfold m1; cbn [m_questions_count]; lia).
  assert (rounds ≠ []) as Hne by (intros ->; cbn [length] in Hrounds; lia).
  assert (m_questions m1 !! 0 = Some (asked ct)) as Hq1
    by (unfold m1; cbn [m_questions]; by rewrite Hasked).
  assert (all_events (s_test s1) ≠ []) as He1
    by (unfold s1; cbn [s_test]; rewrite He; exact Hevents).
  assert (all_figures (s_test s1) ≠ []) as Hf1
    by (unfold s1; cbn [s_test]; rewrite Hf; exact Hfigures).
  destruct (rounds_to_the_end user_id rounds s1 m1 0 ct eq_refl eq_refl Hlen Hk1
              Hne eq_refl Hq1 He1 Hf1) as
    (s' & replies & new & -> & Hlast & Hmap & Hverdicts & Hslot & Hstate & Htest & Htot).
  unfold m1, s1 in *.
  cbn [m_correct_answers m_questions_count m_history m_questions app drop s_stats]
    in *.
  rewrite drop_0 in Hmap.
  eexists _, _, new. split; [reflexivity|].
  split; [by rewrite last_cons, Hlast|].
  split; [by rewrite <- Hlen, <- Hmap, length_map|].
  split; [done|]. split; [done|].
  split; [rewrite Htot; lia|].
  split; [done|]. split; [done|]. split.
  - intros r'. unfold next_marathon_question. by rewrite Hslot.
  - intros a now. destruct Htest as [t Ht]. unfold check_marathon_answer.
    destruct (check_answer_active (s_user s') t a user_id now (s_stats s') Ht)
      as (q' & ->).
    by rewrite Ht, Hslot.
Qed.

Lemma marathon_played_to_the_end_witness :
  let s := Session (KtState (dm_events (initialize_sample_data (init None)))
                            (dm_figures (initialize_sample_data (init None))) ∅ ∅)
                   (UserData None None) NoKey new_manager in
  let rounds := [(py "Люблинская уния", 100%Z, 3); (py "1794", 101%Z, 8);
                 (py "не знаю", 102%Z, 2); (py "Якуб Колас", 103%Z, 6);
                 (py "1991", 104%Z, 0)] in
  exists s' replies history,
    run_marathon 7 s (played 5 [3; 1; 0; 2; 7; 4] 5 rounds) = Returns (s', replies)
    /\ last replies
       = Some (MarathonResultMessage (count_true (map snd history)) 5 history)
    /\ length history = Z.to_nat 5
    /\ map (fun h => asked h.1) history = marathon_questions 5 [3; 1; 0; 2; 7; 4]
    /\ Forall2 (fun h (x : list N * Z * nat) => h.2 = verdict h.1 x.1.1)
               history rounds
    /\ total_of (s_stats s') 7 = (total_of (s_stats s) 7 + 5)%Z
    /\ s_marathon s' = IsNone
    /\ ud_state (s_user s') = None
    /\ (forall r', next_marathon_question 7 s' r'
                   = Returns (s', NotInitialisedMessage))
    /\ (forall user_answer now,
          check_marathon_answer 7 s' user_answer now = Raises TypeError).
Proof.
  cbn zeta. apply marathon_played_to_the_end.
  - vm_compute. discriminate.
  - vm_compute. discriminate.
  - lia.
  - reflexivity.
Defined.

(** X21. Nothing stops a second answer to the question that is shown: every
    answer sent while a marathon is active and a test is shown is graded
    against that test, appended to the history, counted when correct and
    recorded in the statistics, and the position in the marathon stays
    where it is. *)
Theorem repeated_answers_are_all_counted
    (user_id : Z) (s : session) (m : marathon) (t : current_test)
    (answers : list (list N * Z))
    (Hactive : s_marathon s = Active m)
    (Htest : ud_current_test (s_user s) = Some t) :
  exists sm replies,
    run_marathon user_id s (map (fun x => Answer x.1 x.2) answers)
    = Returns
        (Session (s_test s) (s_user s)
           (Active (MkMarathon (m_questions_count m) (m_current_question m)
                      (m_correct_answers m
                       + count_true (map (fun x => verdict t x.1) answers))
                      (m_questions m)
                      (m_history m ++ map (fun x => (t, verdict t x.1)) answers)))
           sm,
         replies)
    /\ replies = map (fun x => AnswerMessage (ResultMessage t (verdict t x.1))) answers
    /\ total_of sm user_id
       = (total_of (s_stats s) user_id + Z.of_nat (length answers))%Z
    /\ (answers = [] -> sm = s_stats s).
Proof.
  revert s m Hactive Htest. induction answers as [|[a now] rest IH];
    intros s m Hactive Htest.
  - destruct s as [st ud sl sm], m. cbn in *. subst sl.
    eexists _, _. split; [|split; [reflexivity|split; [|done]]].
    + cbn [map run_marathon]. rewrite app_nil_r.
      unfold count_true. cbn. by rewrite Z.add_0_r.
    + cbn. lia.
  - cbn [map run_marathon marathon_step fst snd].
    destruct (check_marathon_answer_active user_id s m t a now Hactive Htest)
      as (sm1 & -> & Htot1).
    set (m1 := MkMarathon _ _ _ _ _).
    set (s1 := Session _ _ (Active m1) sm1).
    destruct (IH s1 m1 eq_refl Htest) as (sm & replies & -> & -> & Htot & _).
    exists sm. eexists. split; [|split; [reflexivity|split; [|done]]].
    + unfold s1, m1.
      cbn [s_test s_user m_questions_count m_current_question
           m_correct_answers m_questions m_history map fst].
      rewrite count_true_cons, <- app_assoc. cbn [app].
      by rewrite Z.add_assoc.
    + rewrite Htot. unfold s1. cbn [s_stats length]. lia.
Qed.

Lemma repeated_answers_are_all_counted_witness :
  let e := Event 0 (py "1569") (py "Люблинская уния") in
  let s := Session (KtState [e] [] ∅ ∅)
                   (UserData (Some (py "marathon")) (Some (TestEvent e)))
                   (Active (MkMarathon 1 1 0 [QEvent] [])) new_manager in
  let answers := [(py "1569", 100%Z); (py "1569", 101%Z); (py "1570", 102%Z)] in
  exists sm replies,
    run_marathon 7 s (map (fun x => Answer x.1 x.2) answers)
    = Returns
        (Session (s_test s) (s_user s)
           (Active (MkMarathon 1 1
                      (0 + count_true (map (fun x => verdict (TestEvent e) x.1) answers))
                      [QEvent]
                      ([] ++ map (fun x => (TestEvent e, verdict (TestEvent e) x.1))
                                 answers)))
           sm,
         replies)
    /\ replies = map (fun x => AnswerMessage
                                 (ResultMessage (TestEvent e)
                                                (verdict (TestEvent e) x.1))) answers
    /\ total_of sm 7 = (total_of (s_stats s) 7 + Z.of_nat (length answers))%Z
    /\ (answers = [] -> sm = s_stats s).
Proof.
  cbn zeta.
  apply (repeated_answers_are_all_counted 7
           (Session (KtState [Event 0 (py "1569") (py "Люблинская уния")] [] ∅ ∅)
              (UserData (Some (py "marathon"))
                 (Some (TestEvent (Event 0 (py "1569") (py "Люблинская уния")))))
              (Active (MkMarathon 1 1 0 [QEvent] [])) new_manager)
           (MkMarathon 1 1 0 [QEvent] [])
           (TestEvent (Event 0 (py "1569") (py "Люблинская уния")))
           [(py "1569", 100%Z); (py "1569", 101%Z); (py "1570", 102%Z)]);
    reflexivity.
Defined.

(** X22. A marathon of no questions: [start_marathon] with a count of zero
    raises [ZeroDivisionError] in [finish_marathon], whatever the pools
    hold; with a negative count it shows at once the result of zero
    correct answers with an empty history and clears the marathon. No
    question is selected in either case. *)
Theorem marathon_without_questions
    (user_id : Z) (s : session) (questions_count : Z) (rs : list nat) (r : nat)
    (Hcount : (questions_count <= 0)%Z) :
  start_marathon user_id s questions_count rs r
  = if (questions_count =? 0)%Z then Raises ZeroDivisionError
    else Returns (Session (s_test s) (UserData None (ud_current_test (s_user s)))
                          IsNone (s_stats s),
                  MarathonResultMessage 0 questions_count []).
Proof.
  unfold start_marathon, next_marathon_question.
  cbn [s_marathon m_current_question m_questions_count].
  rewrite (proj2 (Z.leb_le _ _)) by lia. unfold finish_marathon.
  cbn [s_marathon the_marathon m_questions_count m_correct_answers m_history
       s_test s_user s_stats].
  reflexivity.
Qed.

Lemma marathon_without_questions_witness :
  start_marathon 7 (Session (KtState [] [] ∅ ∅) (UserData None None) NoKey
                            new_manager) 0 [1; 2; 3] 4
  = Raises ZeroDivisionError.
Proof.
  apply (marathon_without_questions 7
           (Session (KtState [] [] ∅ ∅) (UserData None None) NoKey new_manager)
           0 [1; 2; 3] 4).
  lia.
Defined.

End MarathonSessions.

(** ** Keywords and the text they come from *)

Section KeywordSources.

Import KnowledgeTest.

Lemma split_ws_aux_infix cur s w :
  w ∈ split_ws_aux cur s -> exists pre post, rev cur ++ s = pre ++ w ++ post.
Proof.
  revert cur. induction s as [|c r IH]; intros cur Hw; cbn [split_ws_aux] in Hw.
  - destruct cur as [|x cur]; [by apply elem_of_nil in Hw|].
    apply list_elem_of_singleton in Hw as ->. exists [], []. by rewrite app_nil_r.
  - destruct (isspace_char c).
    + destruct cur as [|x cur].
      * apply IH in Hw as (pre & post & Hr). cbn [rev app] in *.
        exists (c :: pre), post. by rewrite Hr.
      * apply elem_of_cons in Hw as [->|Hw].
        -- exists [], (c :: r). done.
        -- apply IH in Hw as (pre & post & Hr). cbn [rev app] in Hr.
           exists (rev (x :: cur) ++ c :: pre), post. rewrite Hr.
           by rewrite <- app_assoc.
    + apply IH in Hw as (pre & post & Hr). exists pre, post. rewrite <- Hr.
      cbn [rev]. by rewrite <- app_assoc.
Qed.

Lemma starts_with_app p post : starts_with p (p ++ post) = true.
Proof. induction p as [|x p IH]; [done|]. cbn. by rewrite N.eqb_refl, IH. Qed.

Lemma contains_infix p pre post : contains p (pre ++ p ++ post) = true.
Proof.
  induction pre as [|x pre IH].
  - cbn [app]. destruct (p ++ post) eqn:E; cbn [contains]; rewrite <- E;
      by rewrite starts_with_app.
  - cbn [app contains]. rewrite IH. apply orb_true_r.
Qed.

(** The loop over the punctuation: every character stays or becomes a
    space, and no character of the list is left. *)
Lemma replaced_text ps : forall t,
  foldl (fun t c => replace_char c 32 t) t ps
  = map (fun c => foldl (fun x p => if (x =? p)%N then 32%N else x) c ps) t.
Proof.
  induction ps as [|p ps IH]; intros t; cbn [foldl].
  - by rewrite map_id.
  - rewrite IH. unfold replace_char. by rewrite map_map.
Qed.

Lemma replaced_char ps : forall c,
  foldl (fun x p => if (x =? p)%N then 32%N else x) c ps = c
  \/ foldl (fun x p => if (x =? p)%N then 32%N else x) c ps = 32%N.
Proof.
  induction ps as [|p ps IH]; intros c; cbn [foldl]; [by left|].
  destruct (c =? p)%N; [|apply IH].
  destruct (IH 32%N) as [H|H]; right; exact H.
Qed.

Lemma replaced_chars ps t :
  Forall2 (fun c c' => c' = c \/ c' = 32%N)
          t (foldl (fun t c => replace_char c 32 t) t ps).
Proof.
  rewrite replaced_text. apply Forall2_fmap_r, Forall_Forall2_diag, Forall_forall.
  intros c _. apply replaced_char.
Qed.

Lemma replaced_none_left ps t :
  32%N ∉ ps ->
  Forall (fun c => c ∉ ps) (foldl (fun t c => replace_char c 32 t) t ps).
Proof.
  induction ps as [|p ps IH] using rev_ind; intros Hsp.
  - apply Forall_forall. intros c _. apply not_elem_of_nil.
  - rewrite foldl_snoc. rewrite not_elem_of_app in Hsp. destruct Hsp as [Hps Hp].
    specialize (IH Hps). unfold replace_char. apply Forall_fmap.
    eapply Forall_impl; [exact IH|]. intros c Hc. cbn.
    destruct (N.eqb_spec c p) as [->|Hne].
    + rewrite not_elem_of_app. split; [done|]. done.
    + rewrite not_elem_of_app. split; [done|].
      rewrite not_elem_of_cons. split; [done|]. apply not_elem_of_nil.
Qed.

(** A word without whitespace that is found in the text after the loop
    stands in the text before it as well. *)
Lemma infix_before_replacement ps t pre w post :
  foldl (fun t c => replace_char c 32 t) t ps = pre ++ w ++ post ->
  Forall (fun c => isspace_char c = false) w ->
  exists pre' post', t = pre' ++ w ++ post'.
Proof.
  intros E Hw. pose proof (replaced_chars ps t) as H. rewrite E in H.
  apply Forall2_app_inv_r in H as (t1 & t23 & _ & H & ->).
  apply Forall2_app_inv_r in H as (t2 & t3 & H & _ & ->).
  exists t1, t3. do 2 f_equal.
  clear E. induction H as [|c c' t2 w Hc _ IH]; [done|].
  apply Forall_cons in Hw as [Hc' Hw]. rewrite (IH Hw).
  destruct Hc as [->| ->]; [done|]. vm_compute in Hc'. discriminate.
Qed.

Lemma keyword_facts text w :
  w ∈ extract_keywords text ->
  3 < length w
  /\ Forall (fun c => isspace_char c = false /\ c ∉ punctuation) w
  /\ exists pre post, lower text = pre ++ w ++ post.
Proof.
  intros Hw.
  unfold extract_keywords in Hw. apply list_elem_of_filter in Hw as [[Hlen _] Hw].
  set (t := foldl (fun t c => replace_char c 32 t) (lower text) punctuation) in Hw.
  pose proof (split_ws_aux_no_space [] t (Forall_nil_2 _)) as Hns.
  rewrite Forall_forall in Hns. specialize (Hns w Hw).
  apply split_ws_aux_infix in Hw as (pre & post & E). cbn [rev app] in E.
  split; [done|]. split.
  - pose proof (replaced_none_left punctuation (lower text)) as Hp.
    fold t in Hp. rewrite E in Hp.
    assert (32%N ∉ punctuation) as H32.
    { apply (bool_decide_unpack _). vm_compute. exact I. }
    specialize (Hp H32).
    apply Forall_app in Hp as [_ Hp]. apply Forall_app in Hp as [Hp _].
    rewrite Forall_forall in Hns, Hp. apply Forall_forall. intros c Hc. auto.
  - by apply (infix_before_replacement punctuation (lower text) pre w post).
Qed.

(** X9. Every keyword has more than three characters, none of them
    whitespace or one of the twelve punctuation characters, and stands
    in the lower-cased text as it is: a keyword is a piece of the text,
    not a normal form of a word. *)
Theorem keywords_are_pieces_of_the_text :
  forall text : list N,
    Forall (fun w =>
              3 < length w
              /\ Forall (fun c => isspace_char c = false /\ c ∉ punctuation) w
              /\ exists pre post, lower text = pre ++ w ++ post)
           (extract_keywords text).
Proof.
  intros text. apply Forall_forall. intros w Hw.
  destruct (keyword_facts text w Hw) as (Hlen & Hchars & pre & post & E).
  split; [exact Hlen|]. split; [exact Hchars|]. by exists pre, post.
Qed.

Lemma count_found answer keywords n :
  Forall (fun k => contains k answer = true) keywords ->
  foldl (fun found keyword =>
           if contains keyword answer then found + 1 else found) n keywords
  = n + length keywords.
Proof.
  intros H. revert n. induction H as [|k ks Hk _ IH]; intros n; cbn [foldl length].
  - lia.
  - rewrite Hk, IH. lia.
Qed.

(** X10. An answer that quotes the reference text (in any letter case,
    anywhere inside the answer) finds every keyword of it; when the
    reference has a keyword, the share is 1 and the answer passes the
    rule of the date and figure questions whatever else it says and
    however small its similarity is. *)
Theorem answer_quoting_the_reference_passes
    (user_answer correct_answer pre post : list N)
    (Hquote : lower user_answer = pre ++ lower correct_answer ++ post)
    (Hkeyword : extract_keywords correct_answer ≠ []) :
  (check_keywords user_answer (extract_keywords correct_answer) == 1)%Q
  /\ text_rule user_answer correct_answer = true.
Proof.
  assert (check_keywords user_answer (extract_keywords correct_answer) == 1)%Q as H.
  { unfold check_keywords.
    assert (Forall (fun w => exists p1 p2, lower correct_answer = p1 ++ w ++ p2)
                   (extract_keywords correct_answer)) as Hk.
    { apply Forall_forall. intros w Hw.
      by destruct (keyword_facts correct_answer w Hw) as (_ & _ & H). }
    destruct (extract_keywords correct_answer) as [|k ks] eqn:E; [done|].
    rewrite (count_found (lower user_answer) (k :: ks) 0).
    - unfold Qeq. cbn [Qnum Qden Nat.add].
      rewrite <- (positive_nat_Z (Pos.of_nat (length (k :: ks)))).
      rewrite Nat2Pos.id by done. lia.
    - eapply Forall_impl; [exact Hk|]. intros w (p1 & p2 & Hw). cbn beta.
      rewrite Hquote, Hw.
      replace (pre ++ (p1 ++ w ++ p2) ++ post)
        with ((pre ++ p1) ++ w ++ (p2 ++ post)) by (by rewrite <- !app_assoc).
      apply contains_infix. }
  split; [done|].
  unfold text_rule. cbn zeta. apply orb_true_iff. right.
  by apply ge_float_one.
Qed.

Lemma answer_quoting_the_reference_passes_witness :
  (check_keywords (py "Это было давно: восстание 1794 года, кажется")
                  (extract_keywords (py "Восстание 1794 года")) == 1)%Q
  /\ text_rule (py "Это было давно: восстание 1794 года, кажется")
               (py "Восстание 1794 года") = true.
Proof.
  apply (answer_quoting_the_reference_passes
           (py "Это было давно: восстание 1794 года, кажется")
           (py "Восстание 1794 года")
           (py "это было давно: ") (py ", кажется")).
  - vm_compute. reflexivity.
  - vm_compute. discriminate.
Defined.

End KeywordSources.

(** ** Users and kinds do not interfere *)

Section SelectorIsolation.

Import KnowledgeTest.

(** X12. A selection that returns never touches the pools, the consumed list
    of another user, or the consumed list of the same user for the
    other kind of fact; it extends the list of the user and kind by the
    fact shown or restarts it with that fact, and stores the test it
    shows as the current one. *)
Theorem selection_changes_one_list
    (t : question_type) (st st' : kt_state) (user_id : Z) (ud ud' : user_data)
    (r : nat) (msg : reply)
    (Hstart : start_test t st user_id ud r = Ok (st', ud', msg)) :
  all_events st' = all_events st
  /\ all_figures st' = all_figures st
  /\ (forall u k, (u, k) ≠ (user_id, kind_of t) -> consumed st' u k = consumed st u k)
  /\ exists ct,
       msg = QuestionMessage ct
       /\ asked ct = t
       /\ ud' = UserData (ud_state ud) (Some ct)
       /\ shown_id ct ∈ pool_ids st (kind_of t)
       /\ (consumed st' user_id (kind_of t) = consumed st user_id (kind_of t) ++ [shown_id ct]
           \/ consumed st' user_id (kind_of t) = [shown_id ct]).
Proof.
  destruct (start_test_inv t st user_id ud r st' ud' msg Hstart)
    as (ct & -> & He & Hf & Hin & Hother & Hcase).
  split; [done|]. split; [done|]. split; [done|].
  exists ct. split; [done|].
  assert (asked ct = t /\ ud' = UserData (ud_state ud) (Some ct)) as [Ha Hu].
  { destruct t;
      unfold start_test, start_date_test, start_event_test, start_figure_test,
        start_achievement_test, start_event_kind, start_figure_kind in Hstart;
      destruct (pick_unused _ _ _ _ _) as [[x used]|]; try done;
      cbn [present_question] in Hstart; by simplify_eq. }
  split; [done|]. split; [done|]. split; [done|].
  destruct Hcase as [[_ H]|[_ H]]; auto.
Qed.

Lemma selection_changes_one_list_witness :
  let e := Event 0 (py "1569") (py "Люблинская уния") in
  let st := KtState [e] [] ∅ ∅ in
  let st' := KtState [e] [] {[ 7%Z := [0%Z] ]} ∅ in
  all_events st' = all_events st
  /\ all_figures st' = all_figures st
  /\ (forall u k, (u, k) ≠ (7%Z, kind_of QDate) -> consumed st' u k = consumed st u k)
  /\ exists ct,
       QuestionMessage (TestDate e) = QuestionMessage ct
       /\ asked ct = QDate
       /\ UserData None (Some (TestDate e)) = UserData (ud_state (UserData None None)) (Some ct)
       /\ shown_id ct ∈ pool_ids st (kind_of QDate)
       /\ (consumed st' 7 (kind_of QDate) = consumed st 7 (kind_of QDate) ++ [shown_id ct]
           \/ consumed st' 7 (kind_of QDate) = [shown_id ct]).
Proof.
  cbn zeta.
  apply (selection_changes_one_list QDate
           (KtState [Event 0 (py "1569") (py "Люблинская уния")] [] ∅ ∅)
           (KtState [Event 0 (py "1569") (py "Люблинская уния")] []
                    {[ 7%Z := [0%Z] ]} ∅)
           7 (UserData None None) (UserData None (Some _)) 3 (QuestionMessage _)).
  vm_compute. reflexivity.
Defined.

End SelectorIsolation.

(** ** A random fact of the database *)

Section RandomFact.

(** X19. [get_random_event] and [get_random_figure] never raise: on an empty
    list they return [None], and otherwise a fact of the database,
    whatever the draw. *)
Theorem random_fact_is_of_the_database :
  forall (db : database) (r : nat),
    match get_random_event db r with
    | None => dm_events db = []
    | Some e => e ∈ dm_events db
    end
    /\ match get_random_figure db r with
       | None => dm_figures db = []
       | Some f => f ∈ dm_figures db
       end.
Proof.
  intros db r. unfold get_random_event, get_random_figure. split.
  - destruct (dm_events db) as [|e l] eqn:E; [done|].
    assert (r mod length (e :: l) < length (e :: l)) as Hlt
      by (apply Nat.mod_upper_bound; done).
    apply lookup_lt_is_Some in Hlt as [x Hx]. rewrite Hx.
    by eapply list_elem_of_lookup_2.
  - destruct (dm_figures db) as [|f l] eqn:E; [done|].
    assert (r mod length (f :: l) < length (f :: l)) as Hlt
      by (apply Nat.mod_upper_bound; done).
    apply lookup_lt_is_Some in Hlt as [x Hx]. rewrite Hx.
    by eapply list_elem_of_lookup_2.
Qed.

End RandomFact.
